(** * clockify-scrum: the reconciliation engine of [main.py]

    A shallow embedding of [match], [read_clockify], [process_entry],
    [process_entries], the loop of [plot_results] and [main], and the
    properties of the sprint report that follow from them.

    Conventions of the embedding.
    - A Python [str] is a [string] whose characters have code points below
      256.  In that range [\d] is ['0'..'9'], [str.lower] and [str.strip]
      are the functions [lower] and [strip] below.
    - A Python number ([int] or [float]) is an exact rational, [Qc]; the
      integer [0] and the float [0.0] are the same value.  Rounding of
      binary floating point is not modelled: where the program adds floats,
      the properties below keep the additions in the order in which the
      program makes them, or say of which numbers a sum is made up.
    - The limits of the interpreter's numbers are not modelled either: the
      refusal of [int] to read more than 4300 digits and the
      [OverflowError] of an integer that has no float.  The properties that
      say which inputs raise and which do not are stated for inputs that
      stay clear of both (see [short] and [modest] below).
    - [sort_values] of pandas promises no order among rows with equal
      descriptions.  The properties that depend on the position of a row
      are stated for every arrangement that it may return
      ([sorted_frame]).
    - An exception is a value [Err e] of the type [result]; the exception
      classes are the ones CPython raises at the statement in question. *)

From Stdlib Require Import ZArith QArith Qcanon Ascii String List Lia.
From stdpp Require Import base option numbers list strings gmap sorting.

Local Open Scope Qc_scope.

(** ** Exceptions as values *)

Inductive pyerr : Type :=
| TypeError        (* [raise 'some text']: a str is not an exception *)
| AttributeError   (* [r.group] when [re.match] returned [None] *)
| ValueError       (* [int('')] *)
| KeyError         (* [projects[k]] with [k] not a key *)
| IndexError       (* [results[i]] with [i] out of range *)
| ZeroDivisionError.   (* [a / b] on floats with [b] zero *)

Inductive result (A : Type) : Type :=
| Ok (a : A)
| Err (e : pyerr).
Arguments Ok {A} a.
Arguments Err {A} e.

Global Instance result_ret : MRet result := fun A a => Ok a.
Global Instance result_bind : MBind result := fun A B f m =>
  match m with
  | Ok a => f a
  | Err e => Err e
  end.
Global Instance result_fmap : FMap result := fun A B f m =>
  match m with
  | Ok a => Ok (f a)
  | Err e => Err e
  end.

Definition is_Ok {A} (r : result A) : bool :=
  match r with Ok _ => true | Err _ => false end.

(** A [for] loop whose body may raise: the first exception ends the loop. *)
Fixpoint foldM {St A} (body : St -> A -> result St) (s : St) (l : list A) : result St :=
  match l with
  | [] => Ok s
  | a :: l' => s' ← body s a; foldM body s' l'
  end.

Global Instance pyerr_eq_dec : EqDecision pyerr.
Proof. solve_decision. Defined.
Global Instance result_eq_dec {A} `{EqDecision A} : EqDecision (result A).
Proof. solve_decision. Defined.

(** ** Python strings *)

Module Py.

Definition code (a : ascii) : N := N_of_ascii a.

Definition between (lo hi : N) (a : ascii) : bool :=
  ((lo <=? code a) && (code a <=? hi))%N.

(** [str.isspace] on one character. *)
Definition is_space (a : ascii) : bool :=
  between 9 13 a || between 28 32 a || (code a =? 133)%N || (code a =? 160)%N.

(** [\d] and the digit's value. *)
Definition is_digit (a : ascii) : bool := between 48 57 a.
Definition digit_val (a : ascii) : Z := Z.of_N (code a) - 48.

Definition lower_char (a : ascii) : ascii :=
  if between 65 90 a || between 192 214 a || between 216 222 a
  then ascii_of_N (code a + 32)
  else a.

(** [s.lower()] *)
Fixpoint lower (s : string) : string :=
  match s with
  | EmptyString => EmptyString
  | String a s' => String (lower_char a) (lower s')
  end.

Fixpoint lstrip (s : string) : string :=
  match s with
  | EmptyString => EmptyString
  | String a s' => if is_space a then lstrip s' else s
  end.

Fixpoint rstrip (s : string) : string :=
  match s with
  | EmptyString => EmptyString
  | String a s' =>
      match rstrip s' with
      | EmptyString => if is_space a then EmptyString else String a EmptyString
      | r => String a r
      end
  end.

(** [s.strip()] *)
Definition strip (s : string) : string := rstrip (lstrip s).

(** [s.startswith(p)] *)
Fixpoint startswith (s p : string) {struct p} : bool :=
  match p with
  | EmptyString => true
  | String b p' =>
      match s with
      | EmptyString => false
      | String a s' => Ascii.eqb a b && startswith s' p'
      end
  end.

(** [s[n:]] for [n >= 0] *)
Fixpoint slice_from (n : nat) (s : string) : string :=
  match n, s with
  | O, _ => s
  | S n', String _ s' => slice_from n' s'
  | S _, EmptyString => EmptyString
  end.

(** [s[:-1]] *)
Fixpoint drop_last (s : string) : string :=
  match s with
  | EmptyString => EmptyString
  | String a EmptyString => EmptyString
  | String a s' => String a (drop_last s')
  end.

(** [needle in hay] *)
Fixpoint contains (needle hay : string) : bool :=
  startswith hay needle ||
  match hay with
  | EmptyString => false
  | String _ hay' => contains needle hay'
  end.

Fixpoint all_digits (s : string) : bool :=
  match s with
  | EmptyString => true
  | String a s' => is_digit a && all_digits s'
  end.

Fixpoint digits_value (acc : Z) (s : string) : Z :=
  match s with
  | EmptyString => acc
  | String a s' => digits_value (10 * acc + digit_val a) s'
  end.

(** [int(s)] for the strings the duration pattern can hand to it: a run
    of decimal digits, possibly empty.  The empty string is a
    [ValueError].  The interpreter's limit on the number of digits of one
    conversion (4300 by default) is left out: see [short] below. *)
Definition int (s : string) : result Z :=
  match s with
  | EmptyString => Err ValueError
  | _ => if all_digits s then Ok (digits_value 0 s) else Err ValueError
  end.

End Py.

(** ** [match] (main.py, lines 14-25) *)

Definition match_ (done_project done_task target_task : string) : result bool :=
  let target_task := Py.lower (Py.strip target_task) in
  if Py.startswith target_task "project:" then
    let target_project := Py.strip (Py.slice_from 8 target_task) in
    let done_project := Py.lower done_project in
    Ok (bool_decide (done_project = target_project))
  else if Py.startswith target_task "task:" then
    let target_desc := Py.strip (Py.slice_from 5 target_task) in
    let done_task := Py.lower done_task in
    Ok (Py.contains target_desc done_task)
  else
    Err TypeError.

(** ** The data of a run *)

(** One time entry of the feed: [entry['id']], the instant that
    [parser.parse(entry['timeInterval']['start']).timestamp()] yields (epoch
    seconds), [entry['timeInterval']['duration']] ([None] while the timer is
    running), [entry['projectId']] and [entry['description']]. *)
Record TimeEntry : Type := {
  id : string;
  start : Qc;
  duration : option string;
  projectId : string;
  description : string
}.

(** One row of the task sheet. *)
Record Task : Type := {
  Description : string;
  Estimated_Hours : Qc
}.

(** [config['sprint']] *)
Record Sprint : Type := {
  start_of_sprint : Qc;
  sprint_days : Qc;
  total_sprint_time : Qc
}.

(** A row [[spent, estimated, label]] of [results]. *)
Abbreviation row := (Qc * Qc * string)%type.

(** ** The duration pattern [PT(\d*H)?(\d*M)?(\d*S)?]

    [re.match] anchors the pattern at the start of the text only.  After
    [PT] every group is optional and nothing follows the last one, so the
    match never has to back off from a greedy choice: a group takes part
    exactly when the longest run of digits at the current position is
    followed by the group's letter, and otherwise the position stays where
    it is. *)

Fixpoint span_digits (s : string) : string * string :=
  match s with
  | EmptyString => (EmptyString, EmptyString)
  | String a s' =>
      if Py.is_digit a
      then let (ds, rest) := span_digits s' in (String a ds, rest)
      else (EmptyString, s)
  end.

Definition optional_group (letter : ascii) (s : string) : option string * string :=
  let (ds, rest) := span_digits s in
  match rest with
  | String c rest' =>
      if Ascii.eqb c letter
      then (Some (ds +:+ String letter EmptyString), rest')
      else (None, s)
  | EmptyString => (None, s)
  end.

(** The three groups of a match object. *)
Record MatchObject : Type := {
  group1 : option string;
  group2 : option string;
  group3 : option string
}.

Definition re_match (text : string) : option MatchObject :=
  if Py.startswith text "PT" then
    let s0 := Py.slice_from 2 text in
    let (g1, s1) := optional_group "H" s0 in
    let (g2, s2) := optional_group "M" s1 in
    let (g3, _) := optional_group "S" s2 in
    Some {| group1 := g1; group2 := g2; group3 := g3 |}
  else None.

(** [if r.group(k):] is true for a group that took part (its text is never
    empty, it ends in the letter). *)
Definition truthy (g : option string) : bool :=
  match g with
  | Some s => negb (String.eqb s EmptyString)
  | None => false
  end.

Definition group_text (g : option string) : string :=
  match g with
  | Some s => s
  | None => EmptyString
  end.

(** Lines 63-69 of [process_entry]: the elapsed hours of a duration text.
    The numbers are exact: [n / 60] and [n / 3600] neither round nor
    overflow, as they do in the interpreter for a number that has no
    float (see [short] below). *)
Definition duration_hours (duration : string) : result Qc :=
  match re_match duration with
  | None => Err AttributeError
  | Some r =>
      let elapsed := 0 in
      elapsed ← (if truthy (group1 r)
                 then n ← Py.int (Py.drop_last (group_text (group1 r)));
                      Ok (elapsed + Qc_of_Z n)
                 else Ok elapsed);
      elapsed ← (if truthy (group2 r)
                 then n ← Py.int (Py.drop_last (group_text (group2 r)));
                      Ok (elapsed + Qc_of_Z n / Qc_of_Z 60)
                 else Ok elapsed);
      elapsed ← (if truthy (group3 r)
                 then n ← Py.int (Py.drop_last (group_text (group3 r)));
                      Ok (elapsed + Qc_of_Z n / Qc_of_Z 3600)
                 else Ok elapsed);
      Ok elapsed
  end.

(** [projects[k]] *)
Definition getitem (projects : gmap string string) (k : string) : result string :=
  match projects !! k with
  | Some name => Ok name
  | None => Err KeyError
  end.

(** ** [process_entry] (main.py, lines 58-73) *)

Definition process_entry (done : TimeEntry) (projects : gmap string string)
    (task : option Task) : result Qc :=
  match duration done with
  | None => Ok 0
  | Some d =>
      elapsed ← duration_hours d;
      match task with
      | None => Ok elapsed
      | Some t =>
          done_project ← getitem projects (projectId done);
          matched ← match_ done_project (description done) (Description t);
          Ok (if (matched : bool) then elapsed else 0)
      end
  end.

(** ** [process_entries] (main.py, lines 76-110) *)

Definition end_of_sprint (sprint : Sprint) : Qc :=
  start_of_sprint sprint + sprint_days sprint * Qc_of_Z 86400.

(** [start_of_sprint <= date < end_of_sprint] *)
Definition in_window (sprint : Sprint) (entry : TimeEntry) : bool :=
  bool_decide (start_of_sprint sprint ≤ start entry)
  && bool_decide (start entry < end_of_sprint sprint).

(** [sort_values('Description', ascending=False)]: the rows in descending
    order of their description, strings compared character by character
    as Python compares them.

    [above a b]: the description of [a] is not smaller than that of [b]. *)
Definition above (a b : Task) : Prop :=
  String.leb (Description b) (Description a) = true.

(** What [sort_values] may return for a sheet: the rows of the sheet, each
    as often as the sheet has it, in descending order.  The default kind
    of sort of pandas is not stable, so rows with equal descriptions may
    come out in any order. *)
Definition sorted_frame (sheet tasks : list Task) : Prop :=
  tasks ≡ₚ sheet /\ StronglySorted above tasks.

(** One such arrangement, by insertion: here rows with equal descriptions
    keep the order of the sheet. *)
Fixpoint insert_row (t : Task) (sorted : list Task) : list Task :=
  match sorted with
  | [] => [t]
  | u :: rest =>
      if String.leb (Description u) (Description t)
      then t :: sorted
      else u :: insert_row t rest
  end.

Definition sort_values (tasks : list Task) : list Task :=
  foldr insert_row [] tasks.


(** [tasks.iterrows()] after [reset_index(drop=True)]: the rows with their
    positions. *)
Definition rows_from (k : nat) (tasks : list Task) : list (nat * Task) :=
  zip (seq k (length tasks)) tasks.

Definition iterrows (tasks : list Task) : list (nat * Task) := rows_from 0 tasks.

(** [np.sum(tasks['Estimated Hours'])] *)
Definition total_scheduled_hours (tasks : list Task) : Qc :=
  foldr Qcplus 0 (Estimated_Hours <$> tasks).

(** Lines 90-91: one row per task, nothing spent yet. *)
Definition initial_results (tasks : list Task) : list row :=
  (fun d => (0, Estimated_Hours d, Description d)) <$> tasks.

(** [results[i][0] += x], an exact sum: the floats of the interpreter
    round, so that there the order of the additions is part of the
    result. *)
Definition add_spent (i : nat) (x : Qc) (results : list row) : result (list row) :=
  match results !! i with
  | Some (spent, estimated, label) => Ok (<[i := (spent + x, estimated, label)]> results)
  | None => Err IndexError
  end.

(** Lines 100-105: the loop over the tasks for one entry.  The boolean is
    [entry_matched]. *)
Fixpoint match_tasks (entry : TimeEntry) (projects : gmap string string)
    (rows : list (nat * Task)) (results : list row) : result (list row * bool) :=
  match rows with
  | [] => Ok (results, false)
  | (i, t) :: rows' =>
      elapsed_time ← process_entry entry projects (Some t);
      results ← add_spent i elapsed_time results;
      if bool_decide (0 < elapsed_time)
      then Ok (results, true)
      else match_tasks entry projects rows' results
  end.

(** What the loop over the entries carries from one entry to the next. *)
Record State : Type := {
  results : list row;
  processed_ids : list string;
  off_schedule_spent : Qc
}.

(** Lines 96-107: the body of the loop over the entries. *)
Definition entry_step (sprint : Sprint) (projects : gmap string string)
    (tasks : list Task) (st : State) (entry : TimeEntry) : result State :=
  if in_window sprint entry && bool_decide (id entry ∉ processed_ids st) then
    let processed_ids := processed_ids st ++ [id entry] in
    '(results, entry_matched) ← match_tasks entry projects (iterrows tasks) (results st);
    if (entry_matched : bool) then
      Ok {| results := results; processed_ids := processed_ids;
            off_schedule_spent := off_schedule_spent st |}
    else
      elapsed ← process_entry entry projects None;
      Ok {| results := results; processed_ids := processed_ids;
            off_schedule_spent := off_schedule_spent st + elapsed |}
  else Ok st.

Definition initial_state (tasks : list Task) : State :=
  {| results := initial_results tasks; processed_ids := []; off_schedule_spent := 0 |}.

Global Instance State_eq_dec : EqDecision State.
Proof. solve_decision. Defined.

(** The loop over the entries, from the state before the first one. *)
Definition run_entries (sprint : Sprint) (projects : gmap string string)
    (tasks : list Task) (entries : list TimeEntry) : result State :=
  foldM (entry_step sprint projects tasks) (initial_state tasks) entries.

(** Line 109: the rows of the tasks and the row of the time off schedule. *)
Definition report (sprint : Sprint) (tasks : list Task) (st : State) : list row * Qc :=
  (results st ++ [(off_schedule_spent st,
                   total_sprint_time sprint - total_scheduled_hours tasks,
                   "Off-scheduled")],
   total_scheduled_hours tasks).

(** [sheet] is what [pd.read_excel] returns for the task sheet. *)
Definition process_entries (sprint : Sprint) (sheet : list Task)
    (entries : list TimeEntry) (projects : gmap string string) : result (list row * Qc) :=
  let tasks := sort_values sheet in
  report sprint tasks <$> run_entries sprint projects tasks entries.

(** Lines 87-110: [process_entries] from the sorted frame [tasks] on,
    whatever the arrangement that the sort returned. *)
Definition process_frame (sprint : Sprint) (tasks : list Task)
    (entries : list TimeEntry) (projects : gmap string string) : result (list row * Qc) :=
  report sprint tasks <$> run_entries sprint projects tasks entries.

(** ** The duration encoding

    A well-formed encoding is [PT] followed by an optional run of digits
    and [H], an optional run of digits and [M], an optional run of digits
    and [S]. *)

Definition component (digits : option string) (letter : ascii) (rest : string) : string :=
  match digits with
  | Some ds => ds +:+ String letter rest
  | None => rest
  end.

Definition encode (h m s : option string) : string :=
  "PT" +:+ component h "H" (component m "M" (component s "S" EmptyString)).

(** A component that is present has at least one digit and only digits. *)
Definition digits_ok (digits : option string) : Prop :=
  match digits with
  | Some ds => ds <> EmptyString /\ Py.all_digits ds = true
  | None => True
  end.

(** The number a component stands for, zero when it is absent. *)
Definition number (digits : option string) : Qc :=
  match digits with
  | Some ds => Qc_of_Z (Py.digits_value 0 ds)
  | None => 0
  end.

(** Modelled on the words of the specification: the encodings of the
    expected grammar. *)
Definition well_formed_duration (d : string) : Prop :=
  exists h m s, digits_ok h /\ digits_ok m /\ digits_ok s /\ d = encode h m s.

(** A group that took part with no digit before its letter. *)
Definition bare (g : option string) : bool :=
  match g with
  | Some (String _ EmptyString) => true
  | _ => false
  end.

Definition bare_letter (d : string) : bool :=
  match re_match d with
  | Some r => bare (group1 r) || bare (group2 r) || bare (group3 r)
  | None => false
  end.

(** What a group that took part holds: digits and then its letter. *)
Definition group_ok (letter : ascii) (g : option string) : Prop :=
  match g with
  | Some t => exists ds, t = ds +:+ String letter EmptyString /\ Py.all_digits ds = true
  | None => True
  end.

(** One of the three statements [if r.group(k): elapsed += ...] of
    [duration_hours], with the conversion of the number left open. *)
Definition add_component (g : option string) (f : Z -> Qc) (elapsed : Qc) : result Qc :=
  if truthy g
  then n ← Py.int (Py.drop_last (group_text g)); Ok (elapsed + f n)
  else Ok elapsed.

(** The text begins with a run of digits, possibly empty, and the
    letter: here the group of that letter takes part. *)
Definition begins_with_group (letter : ascii) (s : string) : Prop :=
  exists ds rest, Py.all_digits ds = true /\ s = ds +:+ String letter rest.

(** ** The numbers of the interpreter

    [int] reads at most 4300 digits, and an integer has a float only below
    [float_limit], the least integer that rounds to infinity: beyond it
    [n / 60], [n / 3600] and the sum of an integer and a float raise
    [OverflowError].  A run of at most 300 digits stands for a number below
    [10 ^ 300], and [10 ^ 8] such numbers add up to less than
    [float_limit]. *)
Definition float_limit : Z := 2 ^ 1024 - 2 ^ 970.

(** The digits of a group that took part, without the letter. *)
Definition digits_of (g : option string) : string := Py.drop_last (group_text g).

(** Every run of digits that the pattern reads has at most 300 digits. *)
Definition short (d : string) : bool :=
  match re_match d with
  | Some r =>
      (String.length (digits_of (group1 r)) <=? 300)%nat
      && (String.length (digits_of (group2 r)) <=? 300)%nat
      && (String.length (digits_of (group3 r)) <=? 300)%nat
  | None => true
  end.

Definition short_entry (entry : TimeEntry) : bool :=
  match duration entry with
  | Some d => short d
  | None => true
  end.

(** A feed on which neither limit is reached: the runs of digits are
    short, and the entries are at most [10 ^ 8], so that the integers
    which the loop adds up stay below [float_limit]. *)
Definition modest (entries : list TimeEntry) : Prop :=
  Forall (fun entry => short_entry entry = true) entries
  /\ (Z.of_nat (length entries) <= 10 ^ 8)%Z.

(** ** Inputs that raise nothing *)

(** The estimated hours and the label of every row. *)
Definition plan (rows : list row) : list (Qc * string) :=
  (fun r => (r.1.2, r.2)) <$> rows.

(** The rule of the task is of one of the two kinds. *)
Definition rule_known (t : Task) : Prop :=
  Py.startswith (Py.lower (Py.strip (Description t))) "project:" = true
  \/ Py.startswith (Py.lower (Py.strip (Description t))) "task:" = true.

(** The entry is still running, or its duration is read without an error
    and its project is in the lookup. *)
Definition entry_clean (projects : gmap string string) (entry : TimeEntry) : Prop :=
  match duration entry with
  | None => True
  | Some d =>
      Py.startswith d "PT" = true /\ bare_letter d = false
      /\ is_Some (projects !! projectId entry)
  end.

(** ** One accumulator

    [credited st st' x]: from [st] to [st'] the hours [x] were added to
    exactly one accumulator, the hours spent of one row or the time off
    schedule, and nothing else of the two changed. *)
Definition credited (st st' : State) (x : Qc) : Prop :=
  (exists j spent estimated label,
      results st !! j = Some (spent, estimated, label)
      /\ results st' = <[j := (spent + x, estimated, label)]> (results st)
      /\ off_schedule_spent st' = off_schedule_spent st)
  \/ (results st' = results st
      /\ off_schedule_spent st' = off_schedule_spent st + x).

(** [acc = 0] and then [acc += x] for every [x] of the list, in the order
    of the list. *)
Definition accumulate (xs : list Qc) : Qc := foldl Qcplus 0 xs.

(** The same sprint with another budget of hours. *)
Definition with_budget (budget : Qc) (sprint : Sprint) : Sprint :=
  {| start_of_sprint := start_of_sprint sprint;
     sprint_days := sprint_days sprint;
     total_sprint_time := budget |}.

(** ** A small sprint

    Two days from instant 1000, one project, and a handful of entries. *)

Module Scenario.

Definition sprint (budget : Qc) : Sprint :=
  {| start_of_sprint := Qc_of_Z 1000; sprint_days := Qc_of_Z 2;
     total_sprint_time := budget |}.

Definition projects : gmap string string := {[ "p1" := "Alpha" ]}.

Definition design_review : TimeEntry :=
  {| id := "e1"; start := Qc_of_Z 1000; duration := Some "PT2H";
     projectId := "p1"; description := "Design review" |}.

Definition standup : TimeEntry :=
  {| id := "e2"; start := Qc_of_Z 5000; duration := Some "PT1H";
     projectId := "p1"; description := "Standup" |}.

(** Starts at the very end of the sprint, on a project that is not in
    the lookup. *)
Definition late : TimeEntry :=
  {| id := "e3"; start := Qc_of_Z 173800; duration := Some "PT10H";
     projectId := "p9"; description := "Design spike" |}.

(** A timer that is still running, on a project that is not in the
    lookup. *)
Definition running : TimeEntry :=
  {| id := "e4"; start := Qc_of_Z 2000; duration := None;
     projectId := "p9"; description := "Design workshop" |}.

Definition garbled : TimeEntry :=
  {| id := "e5"; start := Qc_of_Z 2000; duration := Some "PT5X";
     projectId := "p1"; description := "Standup" |}.

(** The same identifier as [late], reported with a start inside the
    window and on a project that is in the lookup. *)
Definition late_again : TimeEntry :=
  {| id := "e3"; start := Qc_of_Z 173000; duration := Some "PT10H";
     projectId := "p1"; description := "Design spike" |}.

(** Inside the window, on a project that is not in the lookup. *)
Definition orphan : TimeEntry :=
  {| id := "e6"; start := Qc_of_Z 90000; duration := Some "PT10H";
     projectId := "p9"; description := "Design spike" |}.

(** A duration of more than a day, written with a day component. *)
Definition overnight : TimeEntry :=
  {| id := "e7"; start := Qc_of_Z 2000; duration := Some "P1DT2H";
     projectId := "p1"; description := "Retro" |}.

Definition entries : list TimeEntry := [design_review; late; standup].

Definition design : Task :=
  {| Description := "task:design"; Estimated_Hours := Qc_of_Z 5 |}.

Definition alpha : Task :=
  {| Description := "project:alpha"; Estimated_Hours := Qc_of_Z 8 |}.

Definition sheet : list Task := [design].

Definition two_rules : list Task := [alpha; design].



(** A sprint of no days. *)
Definition no_days : Sprint :=
  {| start_of_sprint := Qc_of_Z 1000; sprint_days := 0;
     total_sprint_time := Qc_of_Z 40 |}.

End Scenario.

(** ** The entries that count

    The entries for which the condition of line 97 holds when the loop
    reaches them: inside the window, and with an identifier that no
    earlier such entry had.  [seen] is [processed_ids]. *)

Fixpoint counted_from (sprint : Sprint) (seen : list string)
    (entries : list TimeEntry) : list TimeEntry :=
  match entries with
  | [] => []
  | entry :: entries' =>
      if in_window sprint entry && bool_decide (id entry ∉ seen)
      then entry :: counted_from sprint (seen ++ [id entry]) entries'
      else counted_from sprint seen entries'
  end.

Definition counted (sprint : Sprint) (entries : list TimeEntry) : list TimeEntry :=
  counted_from sprint [] entries.

(** The hours of an entry: what [process_entry] returns without a task. *)
Definition hours (projects : gmap string string) (entry : TimeEntry) : Qc :=
  match process_entry entry projects None with
  | Ok e => e
  | Err _ => 0
  end.

(** ** The sums of [plot_results] (main.py, lines 130-132) *)


(** [np.sum(xs)] *)
Definition np_sum (xs : list Qc) : Qc := foldr Qcplus 0 xs.


(** [np.sum([r[0] for r in results])] *)
Definition total_spent_hours (results : list row) : Qc :=
  np_sum ((fun r => r.1.1) <$> results).

(** ** [read_clockify] (main.py, lines 28-55)

    What the calls to the service return is a parameter: the workspaces,
    the users and the projects of a workspace, the time entries of a user. *)

Module Workspace.
Record t : Type := { id : string; name : string }.
End Workspace.

Module User.
Record t : Type := { id : string; name : string }.
End User.

Module Project.
Record t : Type := { id : string; name : string; archived : bool }.
End Project.

Record Api : Type := {
  get_all_workspaces : list Workspace.t;
  get_all_workspace_users : string -> list User.t;
  get_projects : string -> list Project.t;
  get_all_time_entry_user : string -> string -> list TimeEntry
}.

(** [config['clockify']] and [config['sprint']] *)
Record Config : Type := {
  config_workspace_name : string;
  config_user_name : string;
  config_sprint : Sprint
}.

(** Lines 33-36: the loop has no [break], a later workspace replaces an
    earlier one. *)
Definition find_workspace (workspace_name : string)
    (workspaces : list Workspace.t) : option string :=
  foldl (fun workspace_id workspace =>
           if bool_decide (Workspace.name workspace = workspace_name)
              || bool_decide (workspace_name = EmptyString)
           then Some (Workspace.id workspace)
           else workspace_id)
    None workspaces.

(** Lines 40-43 *)
Definition find_user (user_name : string) (users : list User.t) : option string :=
  foldl (fun user_id user =>
           if bool_decide (User.name user = user_name)
              || bool_decide (user_name = EmptyString)
           then Some (User.id user)
           else user_id)
    None users.

(** Lines 48-51 *)
Definition active_projects (projects : list Project.t) : gmap string string :=
  foldl (fun lookup project =>
           if negb (Project.archived project)
           then <[Project.id project := Project.name project]> lookup
           else lookup)
    ∅ projects.

Definition read_clockify (config : Config) (api : Api)
    : result (string * string * gmap string string * list TimeEntry) :=
  match find_workspace (config_workspace_name config) (get_all_workspaces api) with
  | None => Err ValueError
  | Some workspace_id =>
      match find_user (config_user_name config)
              (get_all_workspace_users api workspace_id) with
      | None => Err ValueError
      | Some user_id =>
          let projects := active_projects (get_projects api workspace_id) in
          let entries := get_all_time_entry_user api workspace_id user_id in
          Ok (workspace_id, user_id, projects, entries)
      end
  end.

(** ** The data frame of [plot_results] (main.py, lines 118-121)

    For the rows of the tasks both the hours spent and the estimated hours
    are Python floats, and [r[0] / r[1]] raises [ZeroDivisionError] when the
    estimate is zero.  In the last row the budget is a numpy scalar: numpy
    divides by it and raises nothing, so that row is left out here. *)

(** [a / b] on Python floats *)
Definition truediv (a b : Qc) : result Qc :=
  if bool_decide (b = 0) then Err ZeroDivisionError else Ok (a / b).

Inductive bar : Type := Spent | Estimated.

(** A row [[kind, rate, value, task]] of [df]. *)
Abbreviation frame_row := (bar * Qc * Qc * string)%type.

Inductive framing : Type :=
| Frame (df : list frame_row)
| RaisesZeroDivisionError.

(** The two rows that one task adds to [df]. *)
Fixpoint frame_of_tasks (task_rows : list row) : framing :=
  match task_rows with
  | [] => Frame []
  | r :: task_rows' =>
      match truediv r.1.1 r.1.2 with
      | Err _ => RaisesZeroDivisionError
      | Ok rate =>
          match frame_of_tasks task_rows' with
          | RaisesZeroDivisionError => RaisesZeroDivisionError
          | Frame df =>
              Frame ((Spent, rate, r.1.1, r.2) :: (Estimated, 1, r.1.2, r.2) :: df)
          end
      end
  end.

(** ** [plot_results] (main.py, lines 113-143)

    After the loop of lines 118-120 come pandas, seaborn, matplotlib and
    numpy, and the title of line 133.  What they do is a parameter,
    [draw]: given the results, the chart is shown, or an exception is
    raised, which is a [ValueError] or is not. *)

Inductive drawn : Type :=
| Shown
| DrawingValueError
| DrawingError.

Definition plot_results (draw : list row -> Qc -> drawn) (results : list row)
    (total_scheduled_hours : Qc) : result drawn :=
  match frame_of_tasks (removelast results) with
  | RaisesZeroDivisionError => Err ZeroDivisionError
  | Frame _ => Ok (draw results total_scheduled_hours)
  end.

(** ** [main] (main.py, lines 146-162)

    The three calls are inside one [try].  [except ValueError] catches the
    error of that class wherever it was raised; any other goes on to the
    caller. *)

Inductive outcome : Type :=
| Returns                 (* the chart was shown *)
| Prints                  (* [except ValueError]: the error is printed *)
| Uncaught (e : pyerr)    (* an exception of the program's statements leaves [main] *)
| UncaughtDrawing.        (* an exception of the drawing, no [ValueError], leaves [main] *)

Definition except_ValueError (e : pyerr) : outcome :=
  match e with
  | ValueError => Prints
  | _ => Uncaught e
  end.

(** [sheet] is what [pd.read_excel] returns for the task sheet. *)
Definition main (config : Config) (api : Api) (sheet : list Task)
    (draw : list row -> Qc -> drawn) : outcome :=
  match read_clockify config api with
  | Err e => except_ValueError e
  | Ok (_, _, projects, entries) =>
      match process_entries (config_sprint config) sheet entries projects with
      | Err e => except_ValueError e
      | Ok (results, total_scheduled_hours) =>
          match plot_results draw results total_scheduled_hours with
          | Err e => except_ValueError e
          | Ok Shown => Returns
          | Ok DrawingValueError => Prints
          | Ok DrawingError => UncaughtDrawing
          end
      end
  end.

(** What has to be the case for [process_entry] to raise [x]. *)
Definition cause (projects : gmap string string) (entry : TimeEntry)
    (task : option Task) (x : pyerr) : Prop :=
  match x with
  | AttributeError =>
      exists d, duration entry = Some d /\ Py.startswith d "PT" = false
  | ValueError =>
      exists d, duration entry = Some d /\ Py.startswith d "PT" = true
                /\ bare_letter d = true
  | KeyError =>
      exists t, task = Some t /\ duration entry <> None
                /\ projects !! projectId entry = None
  | TypeError =>
      exists t, task = Some t /\ ~ rule_known t
  | IndexError => False
  | ZeroDivisionError => False
  end.

(** A string that does not begin with a blank. *)
Definition no_leading_space (s : string) : Prop :=
  match s with
  | EmptyString => True
  | String a _ => Py.is_space a = false
  end.

(** The test of the two loops of [read_clockify]. *)
Definition name_fits (wanted name : string) : bool :=
  bool_decide (name = wanted) || bool_decide (wanted = EmptyString).

(** ** The task that an entry is credited to

    The loop of lines 100-105 without the sums: the position of the first
    task for which [process_entry] returns more than zero, with what it
    returns, [None] when the loop ends without a [break]. *)

Fixpoint scan (entry : TimeEntry) (projects : gmap string string)
    (rows : list (nat * Task)) : result (option (nat * Qc)) :=
  match rows with
  | [] => Ok None
  | (i, t) :: rows' =>
      elapsed_time ← process_entry entry projects (Some t);
      if bool_decide (0 < elapsed_time)
      then Ok (Some (i, elapsed_time))
      else scan entry projects rows'
  end.

(** What an entry adds to the row at position [j], and to the time off
    schedule. *)
Definition credit (projects : gmap string string) (tasks : list Task)
    (j : nat) (entry : TimeEntry) : Qc :=
  match scan entry projects (iterrows tasks) with
  | Ok (Some (i, x)) => if bool_decide (i = j) then x else 0
  | _ => 0
  end.

Definition off_credit (projects : gmap string string) (tasks : list Task)
    (entry : TimeEntry) : Qc :=
  match scan entry projects (iterrows tasks) with
  | Ok None => hours projects entry
  | _ => 0
  end.

(** The calls of [process_entry] for the entry all return. *)
Definition effect_ok (projects : gmap string string) (tasks : list Task)
    (entry : TimeEntry) : Prop :=
  match scan entry projects (iterrows tasks) with
  | Ok (Some _) => True
  | Ok None => is_Ok (process_entry entry projects None) = true
  | Err _ => False
  end.

(** [results[j][0]], zero when there is no such row. *)
Definition spent_at (rs : list row) (j : nat) : Qc :=
  match rs !! j with
  | Some r => r.1.1
  | None => 0
  end.

(** ** A small account

    Two workspaces of the same name, one user, a project that is archived
    and one that is not. *)

Module Office.

Definition config : Config :=
  {| config_workspace_name := "Acme"; config_user_name := "";
     config_sprint := Scenario.sprint (Qc_of_Z 40) |}.

Definition elsewhere : Config :=
  {| config_workspace_name := "Initech"; config_user_name := "";
     config_sprint := Scenario.sprint (Qc_of_Z 40) |}.

Definition workspaces : list Workspace.t :=
  [ {| Workspace.id := "w1"; Workspace.name := "Acme" |};
    {| Workspace.id := "w2"; Workspace.name := "Acme" |};
    {| Workspace.id := "w3"; Workspace.name := "Other" |} ].

Definition users : list User.t :=
  [ {| User.id := "u1"; User.name := "Ada" |} ].

Definition project_list : list Project.t :=
  [ {| Project.id := "p1"; Project.name := "Alpha"; Project.archived := false |};
    {| Project.id := "p7"; Project.name := "Old"; Project.archived := true |} ].

(** Booked on the archived project. *)
Definition on_old : TimeEntry :=
  {| id := "e8"; start := Qc_of_Z 3000; duration := Some "PT3H";
     projectId := "p7"; description := "Design archive" |}.

Definition api : Api :=
  {| get_all_workspaces := workspaces;
     get_all_workspace_users := fun _ => users;
     get_projects := fun _ => project_list;
     get_all_time_entry_user := fun _ _ => Scenario.entries |}.

(** A task without an estimate. *)
Definition unplanned : Task :=
  {| Description := "task:design"; Estimated_Hours := 0 |}.

End Office.

(** * Properties *)

(** ** The matcher on the examples of the specification *)

Example match_project_alpha :
  match_ "alpha" "anything" "project:Alpha" = Ok true
  /\ match_ "Alpha Beta" "anything" "project:Alpha" = Ok false.
Proof. split; reflexivity. Qed.

Example match_task_refactor :
  match_ "p" "Refactor the parser" " Task: refactor " = Ok true
  /\ match_ "p" "Write docs" "task:refactor" = Ok false.
Proof. split; reflexivity. Qed.

(** ** Strings *)

Lemma span_digits_stop (ds : string) (c : ascii) (rest : string) :
  Py.all_digits ds = true -> Py.is_digit c = false ->
  span_digits (ds +:+ String c rest) = (ds, String c rest).
Proof.
  intros Hds Hc. induction ds as [|a ds IH]; simpl in *.
  - by rewrite Hc.
  - apply andb_prop in Hds as [Ha Hds]. by rewrite Ha, IH.
Qed.

Lemma optional_group_hit (letter : ascii) (ds rest : string) :
  Py.all_digits ds = true -> Py.is_digit letter = false ->
  optional_group letter (ds +:+ String letter rest)
  = (Some (ds +:+ String letter EmptyString), rest).
Proof.
  intros Hds Hl. unfold optional_group.
  rewrite span_digits_stop by done. by rewrite Ascii.eqb_refl.
Qed.

Lemma optional_group_miss (letter c : ascii) (ds rest : string) :
  Py.all_digits ds = true -> Py.is_digit c = false -> c <> letter ->
  optional_group letter (ds +:+ String c rest) = (None, ds +:+ String c rest).
Proof.
  intros Hds Hc Hne. unfold optional_group.
  rewrite span_digits_stop by done.
  destruct (Ascii.eqb_spec c letter); congruence.
Qed.

Lemma drop_last_snoc (ds : string) (c : ascii) :
  Py.drop_last (ds +:+ String c EmptyString) = ds.
Proof.
  induction ds as [|a ds IH]; simpl; [done|].
  rewrite IH. by destruct ds.
Qed.

Lemma truthy_snoc (ds : string) (c : ascii) :
  truthy (Some (ds +:+ String c EmptyString)) = true.
Proof. by destruct ds. Qed.

Lemma int_digits (ds : string) :
  ds <> EmptyString -> Py.all_digits ds = true ->
  Py.int ds = Ok (Py.digits_value 0 ds).
Proof. intros Hne Hds. unfold Py.int. destruct ds; [done|]. by rewrite Hds. Qed.

(** ** The duration parser on well-formed encodings *)

Ltac read_group :=
  first
    [ rewrite optional_group_hit by done
    | rewrite optional_group_miss by done
    | change (optional_group ?l EmptyString) with (@None string, EmptyString) ];
  cbn beta iota.

Lemma re_match_PT (x : string) :
  re_match ("PT" +:+ x)
  = (let (g1, s1) := optional_group "H" x in
     let (g2, s2) := optional_group "M" s1 in
     let (g3, _) := optional_group "S" s2 in
     Some {| group1 := g1; group2 := g2; group3 := g3 |}).
Proof. reflexivity. Qed.

Lemma duration_hours_encode (h m s : option string) :
  digits_ok h -> digits_ok m -> digits_ok s ->
  duration_hours (encode h m s)
  = Ok (number h + number m / Qc_of_Z 60 + number s / Qc_of_Z 3600).
Proof.
  intros Hh Hm Hs. unfold duration_hours, encode. rewrite re_match_PT.
  destruct h as [hd|], m as [md|], s as [sd|]; simpl in Hh, Hm, Hs;
    destruct_and?; unfold component;
    do 3 read_group; cbn [group1 group2 group3 group_text];
    rewrite ?truthy_snoc; cbn [truthy]; cbn iota;
    rewrite ?drop_last_snoc, ?int_digits by done;
    cbn [mbind result_bind number]; f_equal; unfold Qcdiv; ring.
Qed.

(** C3. The parser turns an encoding with optional hours, minutes and
    seconds into hours + minutes/60 + seconds/3600; [PT1H30M] is 1.5 and
    [PT45S] is 0.0125; an entry without a duration counts zero, and so does
    [PT]. *)
Theorem duration_parser_hours :
  (forall done projects h m s,
      digits_ok h -> digits_ok m -> digits_ok s ->
      duration done = Some (encode h m s) ->
      process_entry done projects None
      = Ok (number h + number m / Qc_of_Z 60 + number s / Qc_of_Z 3600))
  /\ (forall done projects,
         duration done = Some "PT1H30M" ->
         process_entry done projects None = Ok (Qc_of_Z 15 / Qc_of_Z 10))
  /\ (forall done projects,
         duration done = Some "PT45S" ->
         process_entry done projects None = Ok (Qc_of_Z 125 / Qc_of_Z 10000))
  /\ (forall done projects task,
         duration done = None -> process_entry done projects task = Ok 0)
  /\ (forall done projects,
         duration done = Some "PT" -> process_entry done projects None = Ok 0).
Proof.
  repeat split.
  - intros done projects h m s Hh Hm Hs Hd. unfold process_entry.
    by rewrite Hd, duration_hours_encode.
  - intros done projects Hd. unfold process_entry. rewrite Hd.
    by assert (duration_hours "PT1H30M" = Ok (Qc_of_Z 15 / Qc_of_Z 10))
      as -> by compute_done.
  - intros done projects Hd. unfold process_entry. rewrite Hd.
    by assert (duration_hours "PT45S" = Ok (Qc_of_Z 125 / Qc_of_Z 10000))
      as -> by compute_done.
  - intros done projects task Hd. unfold process_entry. by rewrite Hd.
  - intros done projects Hd. unfold process_entry. rewrite Hd.
    by assert (duration_hours "PT" = Ok 0) as -> by compute_done.
Qed.

Lemma duration_parser_hours_witness :
  process_entry {| id := "e"; start := 0; duration := Some "PT1H30M";
                   projectId := "p"; description := "pairing" |} ∅ None
  = Ok (number (Some "1") + number (Some "30") / Qc_of_Z 60
        + number None / Qc_of_Z 3600).
Proof.
  apply (proj1 duration_parser_hours _ ∅ (Some "1") (Some "30") None).
  - split; [discriminate | reflexivity].
  - split; [discriminate | reflexivity].
  - exact I.
  - reflexivity.
Defined.

(** ** What the duration pattern lets through *)

Lemma span_digits_all (s : string) : Py.all_digits (span_digits s).1 = true.
Proof.
  induction s as [|a s IH]; simpl; [done|].
  destruct (Py.is_digit a) eqn:Ha; [|done].
  destruct (span_digits s) as [ds rest]. simpl in *. by rewrite Ha, IH.
Qed.

Lemma optional_group_ok (letter : ascii) (s : string) :
  group_ok letter (optional_group letter s).1.
Proof.
  unfold optional_group. pose proof (span_digits_all s) as Hds.
  destruct (span_digits s) as [ds rest]. simpl in Hds.
  destruct rest as [|c rest]; simpl; [done|].
  destruct (Ascii.eqb c letter); simpl; [|done]. by exists ds.
Qed.

Lemma add_component_cases (letter : ascii) (g : option string) f elapsed :
  group_ok letter g ->
  (bare g = true /\ add_component g f elapsed = Err ValueError)
  \/ (bare g = false /\ exists x, add_component g f elapsed = Ok x).
Proof.
  unfold add_component. destruct g as [t|]; cbn [group_ok group_text].
  - intros (ds & -> & Hds). rewrite truthy_snoc, drop_last_snoc.
    destruct ds as [|a ds].
    + left. by split.
    + right. split; [by destruct ds|]. rewrite int_digits by done. by eexists.
  - intros _. right. split; [done|]. by eexists.
Qed.

Lemma duration_hours_PT (d : string) :
  Py.startswith d "PT" = true ->
  if bare_letter d
  then duration_hours d = Err ValueError
  else exists e, duration_hours d = Ok e.
Proof.
  intros HPT. unfold bare_letter, duration_hours, re_match. rewrite HPT.
  pose proof (optional_group_ok "H" (Py.slice_from 2 d)) as H1.
  destruct (optional_group "H" (Py.slice_from 2 d)) as [g1 s1].
  pose proof (optional_group_ok "M" s1) as H2.
  destruct (optional_group "M" s1) as [g2 s2].
  pose proof (optional_group_ok "S" s2) as H3.
  destruct (optional_group "S" s2) as [g3 s3].
  cbn [fst group1 group2 group3] in *.
  change (if truthy g1 then _ else _) with (add_component g1 Qc_of_Z 0).
  destruct (add_component_cases "H" g1 Qc_of_Z 0 H1) as [[-> ->]|[-> [x1 ->]]];
    cbn [orb mbind result_bind]; [done|].
  change (if truthy g2 then _ else _)
    with (add_component g2 (fun n => Qc_of_Z n / Qc_of_Z 60) x1).
  destruct (add_component_cases "M" g2 (fun n => Qc_of_Z n / Qc_of_Z 60) x1 H2)
    as [[-> ->]|[-> [x2 ->]]]; cbn [orb mbind result_bind]; [done|].
  change (if truthy g3 then _ else _)
    with (add_component g3 (fun n => Qc_of_Z n / Qc_of_Z 3600) x2).
  destruct (add_component_cases "S" g3 (fun n => Qc_of_Z n / Qc_of_Z 3600) x2 H3)
    as [[-> ->]|[-> [x3 ->]]]; cbn [orb mbind result_bind]; [done|].
  by eexists.
Qed.

(** ** The elapsed hours are never negative *)

Lemma digits_value_nonneg (s : string) (acc : Z) :
  (0 <= acc)%Z -> Py.all_digits s = true -> (0 <= Py.digits_value acc s)%Z.
Proof.
  revert acc. induction s as [|a s IH]; simpl; intros acc Hacc Hds; [done|].
  apply andb_prop in Hds as [Ha Hds]. apply IH; [|done].
  unfold Py.is_digit, Py.between in Ha. unfold Py.digit_val.
  apply andb_prop in Ha as [Hlo _]. apply N.leb_le in Hlo. lia.
Qed.

Lemma int_nonneg (s : string) (n : Z) : Py.int s = Ok n -> (0 <= n)%Z.
Proof.
  unfold Py.int. destruct s as [|a s]; [done|].
  destruct (Py.all_digits (String a s)) eqn:Hds; [|done].
  intros [= <-]. apply (digits_value_nonneg (String a s) 0); [lia|done].
Qed.

(** ** Numbers that stay clear of the interpreter's limits

    A run of [n] digits stands for a number below [10 ^ n]; with at most
    300 digits it is read by [int], it has a float, and so has the sum of
    [10 ^ 8] such numbers. *)

Lemma digits_value_acc (s : string) (acc : Z) :
  Py.digits_value acc s
  = (acc * 10 ^ Z.of_nat (String.length s) + Py.digits_value 0 s)%Z.
Proof.
  revert acc. induction s as [|a s IH]; intros acc; cbn [Py.digits_value String.length].
  - cbn. lia.
  - rewrite (IH (10 * acc + Py.digit_val a)%Z), (IH (10 * 0 + Py.digit_val a)%Z).
    rewrite Nat2Z.inj_succ, Z.pow_succ_r by lia. lia.
Qed.

Lemma digits_value_bound (s : string) :
  Py.all_digits s = true ->
  (Py.digits_value 0 s < 10 ^ Z.of_nat (String.length s))%Z.
Proof.
  induction s as [|a s IH]; cbn [Py.all_digits Py.digits_value String.length];
    [by intros _|].
  intros [Ha Hds]%andb_prop. specialize (IH Hds).
  rewrite digits_value_acc, Nat2Z.inj_succ, Z.pow_succ_r by lia.
  unfold Py.is_digit, Py.between in Ha. unfold Py.digit_val.
  apply andb_prop in Ha as [Hlo Hhi]. apply N.leb_le in Hlo, Hhi.
  assert (0 < 10 ^ Z.of_nat (String.length s))%Z by (apply Z.pow_pos_nonneg; lia).
  nia.
Qed.

Lemma short_run_has_a_float (s : string) :
  Py.all_digits s = true -> (String.length s <= 300)%nat ->
  (Py.digits_value 0 s < 10 ^ 300)%Z
  /\ (10 ^ 8 * 10 ^ 300 < float_limit)%Z
  /\ (String.length s <= 4300)%nat.
Proof.
  intros Hds Hlen. split; [|split; [by vm_compute|lia]].
  eapply Z.lt_le_trans; [by apply digits_value_bound|].
  apply Z.pow_le_mono_r; lia.
Qed.

Lemma add_component_nonneg (g : option string) (f : Z -> Qc) (elapsed x : Qc) :
  (forall n, (0 <= n)%Z -> 0 ≤ f n) -> 0 ≤ elapsed ->
  add_component g f elapsed = Ok x -> 0 ≤ x.
Proof.
  intros Hf Hel. unfold add_component. destruct (truthy g); [|by intros [= <-]].
  destruct (Py.int _) as [n|] eqn:Hn; [|done]. intros [= <-].
  apply Qcplus_nonneg_nonneg; [done|]. eapply Hf, int_nonneg, Hn.
Qed.

Lemma Qc_of_Z_nonneg (n : Z) : (0 <= n)%Z -> 0 ≤ Qc_of_Z n.
Proof. intros Hn. rewrite <-Z2Qc_inj_0. by apply (proj1 (Z2Qc_inj_le 0 n)). Qed.

Lemma Qc_of_Z_pos (n : Z) : (0 < n)%Z -> 0 < Qc_of_Z n.
Proof. intros Hn. rewrite <-Z2Qc_inj_0. by apply (proj1 (Z2Qc_inj_lt 0 n)). Qed.

Lemma Qc_of_Z_over_pos_nonneg (n k : Z) :
  (0 <= n)%Z -> (0 < k)%Z -> 0 ≤ Qc_of_Z n / Qc_of_Z k.
Proof.
  intros Hn Hk. apply Qcmult_nonneg_nonneg.
  - by apply Qc_of_Z_nonneg.
  - by apply Qclt_le_weak, Qcinv_pos, Qc_of_Z_pos.
Qed.

Lemma duration_hours_nonneg (d : string) (e : Qc) :
  duration_hours d = Ok e -> 0 ≤ e.
Proof.
  unfold duration_hours. destruct (re_match d) as [r|]; [|done].
  change (if truthy (group1 r) then _ else _)
    with (add_component (group1 r) Qc_of_Z 0).
  destruct (add_component (group1 r) Qc_of_Z 0) as [x1|] eqn:H1; [|done].
  cbn [mbind result_bind].
  change (if truthy (group2 r) then _ else _)
    with (add_component (group2 r) (fun n => Qc_of_Z n / Qc_of_Z 60) x1).
  destruct (add_component (group2 r) _ x1) as [x2|] eqn:H2; [|done].
  cbn [mbind result_bind].
  change (if truthy (group3 r) then _ else _)
    with (add_component (group3 r) (fun n => Qc_of_Z n / Qc_of_Z 3600) x2).
  destruct (add_component (group3 r) _ x2) as [x3|] eqn:H3; [|done].
  cbn [mbind result_bind]. intros [= <-].
  eapply add_component_nonneg, H3.
  { intros n Hn. by apply Qc_of_Z_over_pos_nonneg. }
  eapply add_component_nonneg, H2.
  { intros n Hn. by apply Qc_of_Z_over_pos_nonneg. }
  eapply add_component_nonneg, H1; [|done].
  intros n Hn. by apply Qc_of_Z_nonneg.
Qed.

Lemma process_entry_nonneg done projects (e : Qc) :
  process_entry done projects None = Ok e -> 0 ≤ e.
Proof.
  unfold process_entry. destruct (duration done) as [d|]; [|by intros [= <-]].
  destruct (duration_hours d) as [x|] eqn:Hd; [|done].
  cbn [mbind result_bind]. intros [= <-]. by eapply duration_hours_nonneg.
Qed.

(** ** One entry against one task *)

Lemma process_entry_task done projects t (e : Qc) (name : string) (b : bool) :
  process_entry done projects None = Ok e ->
  projects !! projectId done = Some name ->
  match_ name (description done) (Description t) = Ok b ->
  process_entry done projects (Some t) = Ok (if b then e else 0).
Proof.
  unfold process_entry, getitem. intros He Hp Hm.
  destruct (duration done) as [d|].
  - destruct (duration_hours d) as [x|]; [|done]. cbn [mbind result_bind] in *.
    rewrite Hp. cbn [mbind result_bind]. rewrite Hm. cbn [mbind result_bind].
    by injection He as ->.
  - injection He as <-. by destruct b.
Qed.

(** ** The loop over the tasks *)

Lemma rows_from_cons (k : nat) (t : Task) (tasks : list Task) :
  rows_from k (t :: tasks) = (k, t) :: rows_from (S k) tasks.
Proof. reflexivity. Qed.


Lemma Qclt_zero_irrefl : ~ (0 < 0).
Proof. intros H. by apply Qclt_not_eq in H. Qed.

Lemma add_spent_zero (i : nat) (results : list row) :
  (i < length results)%nat -> add_spent i 0 results = Ok results.
Proof.
  intros Hi. unfold add_spent.
  destruct (lookup_lt_is_Some_2 results i Hi) as [[[spent estimated] label] Hrow].
  rewrite Hrow, Qcplus_0_r. by rewrite list_insert_id.
Qed.

Section one_entry.
Context (entry : TimeEntry) (projects : gmap string string).

Lemma match_tasks_no_credit (tasks : list Task) (k : nat) (results : list row) :
  (k + length tasks <= length results)%nat ->
  Forall (fun t => process_entry entry projects (Some t) = Ok 0) tasks ->
  match_tasks entry projects (rows_from k tasks) results = Ok (results, false).
Proof.
  revert k. induction tasks as [|t tasks IH]; intros k Hlen Hall; [done|].
  apply Forall_cons in Hall as [Ht Hall]. simpl in Hlen.
  rewrite rows_from_cons. cbn [match_tasks]. rewrite Ht. cbn [mbind result_bind].
  rewrite add_spent_zero by lia. cbn [mbind result_bind].
  rewrite bool_decide_eq_false_2 by apply Qclt_zero_irrefl.
  apply IH; [lia|done].
Qed.



Lemma match_tasks_raise (i : nat) (t : Task) rows (results : list row) (x : pyerr) :
  process_entry entry projects (Some t) = Err x ->
  match_tasks entry projects ((i, t) :: rows) results = Err x.
Proof. intros He. cbn [match_tasks]. by rewrite He. Qed.

End one_entry.

(** ** A task rule and a project rule *)

(** The sheet lists the project rule first; sorting puts the task rule
    first, and an entry that both rules match is credited to it alone. *)
Example task_rule_before_project_rule :
  sort_values Scenario.two_rules = [Scenario.design; Scenario.alpha]
  /\ match_ "Alpha" "Design review" "task:design" = Ok true
  /\ match_ "Alpha" "Design review" "project:alpha" = Ok true
  /\ process_entries (Scenario.sprint (Qc_of_Z 40)) Scenario.two_rules
       [Scenario.design_review] Scenario.projects
     = Ok ([(Qc_of_Z 2, Qc_of_Z 5, "task:design");
            (0, Qc_of_Z 8, "project:alpha");
            (0, Qc_of_Z 27, "Off-scheduled")], Qc_of_Z 13).
Proof. repeat split; compute_done. Qed.

(** ** Rules of an unknown kind *)

(** C5. A rule text that, stripped and lowercased, begins with neither
    [project:] nor [task:] makes the matcher raise for every entry; it never
    answers with a boolean, and [process_entry] hands the error on. *)
Theorem unknown_rule_raises (target : string) :
  Py.startswith (Py.lower (Py.strip target)) "project:" = false ->
  Py.startswith (Py.lower (Py.strip target)) "task:" = false ->
  (forall done_project done_task, match_ done_project done_task target = Err TypeError)
  /\ (forall done projects estimated d e name,
         duration done = Some d -> duration_hours d = Ok e ->
         projects !! projectId done = Some name ->
         process_entry done projects
           (Some {| Description := target; Estimated_Hours := estimated |})
         = Err TypeError).
Proof.
  intros Hproject Htask.
  assert (forall p q, match_ p q target = Err TypeError) as Hmatch.
  { intros p q. unfold match_. by rewrite Hproject, Htask. }
  split; [done|].
  intros done projects estimated d e name Hd He Hname.
  unfold process_entry, getitem. rewrite Hd, He, Hname. cbn [mbind result_bind].
  by rewrite Hmatch.
Qed.

Lemma unknown_rule_raises_witness :
  match_ "Alpha" "Design review" "Design" = Err TypeError
  /\ process_entry Scenario.design_review Scenario.projects
       (Some {| Description := "Design"; Estimated_Hours := Qc_of_Z 5 |})
     = Err TypeError.
Proof.
  assert (Py.startswith (Py.lower (Py.strip "Design")) "project:" = false)
    as Hproject by reflexivity.
  assert (Py.startswith (Py.lower (Py.strip "Design")) "task:" = false)
    as Htask by reflexivity.
  split.
  - apply (proj1 (unknown_rule_raises "Design" Hproject Htask)).
  - apply (proj2 (unknown_rule_raises "Design" Hproject Htask)
             Scenario.design_review Scenario.projects (Qc_of_Z 5)
             "PT2H" (Qc_of_Z 2) "Alpha").
    + reflexivity.
    + compute_done.
    + reflexivity.
Defined.

(** ** Durations outside the grammar *)

Lemma encode_letters (h m s : option string) :
  digits_ok h -> digits_ok m -> digits_ok s ->
  bare_letter (encode h m s) = false.
Proof.
  intros Hh Hm Hs. pose proof (duration_hours_PT (encode h m s) eq_refl) as H.
  destruct (bare_letter (encode h m s)); [|done].
  by rewrite duration_hours_encode in H.
Qed.

(** The pattern reads [PT5X] as a duration with no component. *)
Lemma garbled_duration_counts_zero :
  ~ well_formed_duration "PT5X"
  /\ duration Scenario.garbled = Some "PT5X"
  /\ process_entry Scenario.garbled Scenario.projects None = Ok 0
  /\ process_entries (Scenario.sprint (Qc_of_Z 40)) Scenario.sheet
       [Scenario.garbled] Scenario.projects
     = Ok ([(0, Qc_of_Z 5, "task:design"); (0, Qc_of_Z 35, "Off-scheduled")],
           Qc_of_Z 5).
Proof.
  split; [|repeat split; compute_done].
  intros (h & m & s & Hh & Hm & Hs & Henc).
  assert (forall ds rest, ds <> EmptyString -> Py.all_digits ds = true ->
            ds +:+ rest = "5X" -> exists rest', rest = String "X" rest') as Hdigits.
  { intros [|a [|b ds]] rest Hne Hds Heq; [done| |];
      cbv beta iota fix delta [String.append] in Heq.
    - injection Heq as _ ->. by eexists.
    - injection Heq as -> -> _. done. }
  unfold encode in Henc. cbv beta iota fix delta [String.append] in Henc.
  injection Henc as Henc. symmetry in Henc.
  destruct h as [hd|]; cbn [component] in Henc.
  { destruct Hh as [Hne Hds]. by destruct (Hdigits hd _ Hne Hds Henc). }
  destruct m as [md|]; cbn [component] in Henc.
  { destruct Hm as [Hne Hds]. by destruct (Hdigits md _ Hne Hds Henc). }
  destruct s as [sd|]; cbn [component] in Henc; [|done].
  destruct Hs as [Hne Hds]. by destruct (Hdigits sd _ Hne Hds Henc).
Qed.

Lemma entry_step_raise sprint projects tasks st entry (err : pyerr) :
  in_window sprint entry = true -> id entry ∉ processed_ids st ->
  (forall task, process_entry entry projects task = Err err) ->
  entry_step sprint projects tasks st entry = Err err.
Proof.
  intros Hwin Hnew Herr. unfold entry_step.
  rewrite Hwin, bool_decide_eq_true_2 by done. cbn [andb].
  destruct tasks as [|t tasks].
  - cbn. by rewrite Herr.
  - unfold iterrows. rewrite rows_from_cons. by rewrite (match_tasks_raise _ _ _ _ _ _ _ (Herr _)).
Qed.

(** *** What the pattern reads from the front *)

Lemma span_digits_app (s : string) : s = (span_digits s).1 +:+ (span_digits s).2.
Proof.
  induction s as [|a s IH]; [done|]. cbn [span_digits].
  destruct (Py.is_digit a); [|done].
  destruct (span_digits s) as [ds rest]. cbn [fst snd] in *.
  change (String a ds +:+ rest) with (String a (ds +:+ rest)). by rewrite <-IH.
Qed.

(** The group of a letter takes part exactly when the text begins with a
    run of digits and the letter, and then it takes the whole run. *)
Lemma optional_group_reads (letter : ascii) (s : string) :
  Py.is_digit letter = false ->
  exists digits rest,
    optional_group letter s
    = ((fun ds => ds +:+ String letter EmptyString) <$> digits, rest)
    /\ s = component digits letter rest
    /\ from_option (fun ds => Py.all_digits ds = true) True digits
    /\ (digits = None -> ~ begins_with_group letter s).
Proof.
  intros Hletter. unfold optional_group.
  pose proof (span_digits_app s) as Happ. pose proof (span_digits_all s) as Hds.
  destruct (span_digits s) as [ds r] eqn:Hspan. cbn [fst snd] in *.
  assert (forall ds' rest', Py.all_digits ds' = true ->
            s = ds' +:+ String letter rest' -> r = String letter rest') as Hstop.
  { intros ds' rest' Hds' Hs. rewrite Hs, span_digits_stop in Hspan by done.
    by injection Hspan as _ <-. }
  destruct r as [|c r'].
  - exists None, s. split; [done|]. split; [done|]. split; [done|].
    intros _ (ds' & rest' & Hds' & Hs). by specialize (Hstop ds' rest' Hds' Hs).
  - destruct (Ascii.eqb c letter) eqn:Hc.
    + apply Ascii.eqb_eq in Hc as ->. exists (Some ds), r'.
      split; [done|]. split; [done|]. by split.
    + exists None, s. split; [done|]. split; [done|]. split; [done|].
      intros _ (ds' & rest' & Hds' & Hs).
      specialize (Hstop ds' rest' Hds' Hs). injection Hstop as -> _.
      by rewrite Ascii.eqb_refl in Hc.
Qed.

Lemma startswith_PT (d : string) :
  Py.startswith d "PT" = true -> exists x, d = "PT" +:+ x.
Proof.
  destruct d as [|a [|b x]]; cbn; [done|by rewrite andb_false_r|].
  intros [->%Ascii.eqb_eq [->%Ascii.eqb_eq _]%andb_prop]%andb_prop. by exists x.
Qed.

Lemma digits_not_bare (letter : ascii) (digits : option string) :
  from_option (fun ds => Py.all_digits ds = true) True digits ->
  bare ((fun ds => ds +:+ String letter EmptyString) <$> digits) = false ->
  digits_ok digits.
Proof.
  destruct digits as [ds|]; [|done]. cbn. intros Hds Hbare. split; [|done].
  by intros ->.
Qed.

(** A text that begins with [PT] and has no letter without a digit: the
    three components that the pattern reads, what is left of the text, and
    the hours. *)
Lemma duration_hours_front (d : string) :
  Py.startswith d "PT" = true -> bare_letter d = false ->
  exists h m s rest,
    d = "PT" +:+ component h "H" (component m "M" (component s "S" rest))
    /\ digits_ok h /\ digits_ok m /\ digits_ok s
    /\ (h = None -> ~ begins_with_group "H" (component m "M" (component s "S" rest)))
    /\ (m = None -> ~ begins_with_group "M" (component s "S" rest))
    /\ (s = None -> ~ begins_with_group "S" rest)
    /\ duration_hours d
       = Ok (number h + number m / Qc_of_Z 60 + number s / Qc_of_Z 3600).
Proof.
  intros (x & ->)%startswith_PT Hbare.
  destruct (optional_group_reads "H" x eq_refl) as (h & s1 & Hg1 & Hx & Hh & Hstop1).
  destruct (optional_group_reads "M" s1 eq_refl) as (m & s2 & Hg2 & Hs1 & Hm & Hstop2).
  destruct (optional_group_reads "S" s2 eq_refl) as (s & rest & Hg3 & Hs2 & Hs & Hstop3).
  assert (re_match ("PT" +:+ x)
          = Some {| group1 := (fun ds => ds +:+ "H") <$> h;
                    group2 := (fun ds => ds +:+ "M") <$> m;
                    group3 := (fun ds => ds +:+ "S") <$> s |}) as Hre.
  { by rewrite re_match_PT, Hg1, Hg2, Hg3. }
  unfold bare_letter in Hbare. rewrite Hre in Hbare. cbn [group1 group2 group3] in Hbare.
  apply orb_false_elim in Hbare as [[Hb1 Hb2]%orb_false_elim Hb3].
  pose proof (digits_not_bare "H" h Hh Hb1) as Hh'.
  pose proof (digits_not_bare "M" m Hm Hb2) as Hm'.
  pose proof (digits_not_bare "S" s Hs Hb3) as Hs'.
  exists h, m, s, rest. subst s2 s1.
  split; [by rewrite Hx|]. split; [done|]. split; [done|]. split; [done|].
  split; [intros Hnone; specialize (Hstop1 Hnone); by rewrite Hx, Hnone in Hstop1|].
  split; [intros Hnone; specialize (Hstop2 Hnone); by rewrite Hnone in Hstop2|].
  split; [intros Hnone; specialize (Hstop3 Hnone); by rewrite Hnone in Hstop3|].
  unfold duration_hours. rewrite Hre. cbn [group1 group2 group3].
  destruct h as [hd|], m as [md|], s as [sd|]; simpl in Hh', Hm', Hs';
    destruct_and?; cbn [fmap option_fmap option_map group_text];
    rewrite ?truthy_snoc; cbn [truthy]; cbn iota;
    rewrite ?drop_last_snoc, ?int_digits by done;
    cbn [mbind result_bind number]; f_equal; unfold Qcdiv; ring.
Qed.

(** C4, as the code has it.  A duration that does not begin with [PT]
    makes the processing of the entry raise, and so does, among the texts
    whose runs of digits have at most 300 digits, one in which a letter
    [H], [M] or [S] is read with no digit before it; the run stops there.
    Every other such text that begins with [PT] is read without an error,
    whatever follows the part that the pattern reads: from the front, each
    of the three components is read when a run of digits and its letter
    come next, the rest of the text is ignored, and the hours are those of
    the components that were read. *)
Theorem duration_hard_errors entry projects (d : string) :
  duration entry = Some d ->
  (Py.startswith d "PT" = false ->
   forall task, process_entry entry projects task = Err AttributeError)
  /\ (Py.startswith d "PT" = true -> bare_letter d = true -> short d = true ->
      forall task, process_entry entry projects task = Err ValueError)
  /\ (Py.startswith d "PT" = true -> bare_letter d = false -> short d = true ->
      exists h m s rest,
        d = "PT" +:+ component h "H" (component m "M" (component s "S" rest))
        /\ digits_ok h /\ digits_ok m /\ digits_ok s
        /\ (h = None ->
            ~ begins_with_group "H" (component m "M" (component s "S" rest)))
        /\ (m = None -> ~ begins_with_group "M" (component s "S" rest))
        /\ (s = None -> ~ begins_with_group "S" rest)
        /\ process_entry entry projects None
           = Ok (number h + number m / Qc_of_Z 60 + number s / Qc_of_Z 3600))
  /\ (forall sprint tasks st err,
         in_window sprint entry = true -> id entry ∉ processed_ids st ->
         (forall task, process_entry entry projects task = Err err) ->
         entry_step sprint projects tasks st entry = Err err).
Proof.
  intros Hd. split; [|split; [|split]].
  - intros HPT task. unfold process_entry, duration_hours, re_match.
    by rewrite Hd, HPT.
  - intros HPT Hbare _ task. pose proof (duration_hours_PT d HPT) as H.
    rewrite Hbare in H. unfold process_entry. by rewrite Hd, H.
  - intros HPT Hbare _.
    destruct (duration_hours_front d HPT Hbare)
      as (h & m & s & rest & Hsplit & Hh & Hm & Hs & H1 & H2 & H3 & Hvalue).
    exists h, m, s, rest. repeat split; try done.
    unfold process_entry. by rewrite Hd, Hvalue.
  - intros sprint tasks st err. apply entry_step_raise.
Qed.

Lemma duration_hard_errors_witness :
  process_entry Scenario.overnight Scenario.projects (Some Scenario.design)
  = Err AttributeError.
Proof.
  apply (proj1 (duration_hard_errors Scenario.overnight Scenario.projects
                  "P1DT2H" eq_refl)).
  reflexivity.
Defined.

(** The rest of the text is not read: one hour, and nothing of [30X]. *)
Example duration_with_a_rest :
  process_entry {| id := "e"; start := 0; duration := Some "PT1H30X";
                   projectId := "p"; description := "pairing" |} ∅ None
  = Ok (Qc_of_Z 1)
  /\ short "PT1H30X" = true.
Proof. split; [compute_done|reflexivity]. Qed.

(** ** Entries that come more than once *)

Lemma foldM_app {St A} (body : St -> A -> result St) (s : St) (l1 l2 : list A) :
  foldM body s (l1 ++ l2) = s' ← foldM body s l1; foldM body s' l2.
Proof.
  revert s. induction l1 as [|a l1 IH]; intros s; [done|].
  simpl. destruct (body s a) as [s1|]; [|done]. apply IH.
Qed.

Section entries_loop.
Context (sprint : Sprint) (projects : gmap string string) (tasks : list Task).

Lemma entry_step_seen st entry :
  id entry ∈ processed_ids st -> entry_step sprint projects tasks st entry = Ok st.
Proof.
  intros Hseen. unfold entry_step.
  rewrite (bool_decide_eq_false_2 (id entry ∉ processed_ids st)) by tauto.
  by rewrite andb_false_r.
Qed.

Lemma entry_step_cases st entry st' :
  entry_step sprint projects tasks st entry = Ok st' ->
  (st' = st /\ (in_window sprint entry = false \/ id entry ∈ processed_ids st))
  \/ (in_window sprint entry = true /\ (id entry ∉ processed_ids st)
      /\ processed_ids st' = processed_ids st ++ [id entry]).
Proof.
  unfold entry_step. destruct (in_window sprint entry); cbn [andb].
  - case_bool_decide as Hnew.
    + destruct (match_tasks _ _ _ _) as [[rs []]|]; cbn [mbind result_bind]; [| |done].
      * intros [= <-]. by right.
      * destruct (process_entry _ _ _); cbn [mbind result_bind]; [|done].
        intros [= <-]. by right.
    + intros [= <-]. left. split; [done|]. right.
      by destruct (decide (id entry ∈ processed_ids st)).
  - intros [= <-]. left. by split; [|left].
Qed.

Lemma entry_step_ids st entry st' :
  entry_step sprint projects tasks st entry = Ok st' ->
  (in_window sprint entry = true -> id entry ∈ processed_ids st')
  /\ (forall x, x ∈ processed_ids st -> x ∈ processed_ids st')
  /\ (forall x, x ∈ processed_ids st' -> x ∈ processed_ids st \/ x = id entry).
Proof.
  intros [[-> Hskip]|(Hwin & Hnew & ->)]%entry_step_cases.
  - repeat split; [|done|by left].
    intros Hwin. destruct Hskip as [Hout|Hseen]; [congruence|done].
  - repeat split.
    + intros _. apply elem_of_app. right. by apply list_elem_of_singleton.
    + intros x Hx. apply elem_of_app. by left.
    + intros x [Hx|Hx%list_elem_of_singleton]%elem_of_app; [by left|by right].
Qed.

Lemma run_keeps_ids entries st st' :
  foldM (entry_step sprint projects tasks) st entries = Ok st' ->
  (forall x, x ∈ processed_ids st -> x ∈ processed_ids st')
  /\ (forall x, x ∈ processed_ids st' -> x ∈ processed_ids st \/ x ∈ (id <$> entries)).
Proof.
  revert st. induction entries as [|entry entries IH]; intros st; simpl.
  - intros [= <-]. split; [done|by left].
  - destruct (entry_step sprint projects tasks st entry) as [st1|] eqn:Hstep; [|done].
    cbn [mbind result_bind]. intros Hrun.
    apply entry_step_ids in Hstep as (_ & Hle & Hge).
    apply IH in Hrun as [Hle' Hge']. split; [by auto|].
    intros x [Hx|Hx]%Hge'.
    + apply Hge in Hx as [Hx| ->]; [by left|]. right. apply elem_of_cons. by left.
    + right. apply elem_of_cons. by right.
Qed.

Lemma repeated_entry_skipped (l2 l3 : list TimeEntry) st entry :
  foldM (entry_step sprint projects tasks) st (entry :: l2 ++ entry :: l3)
  = foldM (entry_step sprint projects tasks) st (entry :: l2 ++ l3).
Proof.
  cbn [foldM].
  destruct (entry_step sprint projects tasks st entry) as [st1|] eqn:Hstep; [|done].
  cbn [mbind result_bind]. rewrite !foldM_app.
  destruct (foldM _ st1 l2) as [st2|] eqn:Hrun; [|done].
  cbn [mbind result_bind foldM].
  assert (entry_step sprint projects tasks st2 entry = Ok st2) as ->; [|done].
  destruct (in_window sprint entry) eqn:Hwin.
  - apply entry_step_seen. apply run_keeps_ids in Hrun as [Hle _]. apply Hle.
    by apply entry_step_ids in Hstep as [Hin _]; auto.
  - unfold entry_step. by rewrite Hwin.
Qed.

Lemma repeated_id_skipped (l2 l3 : list TimeEntry) st first second :
  id first = id second ->
  foldM (entry_step sprint projects tasks) st (first :: l2 ++ second :: l3)
  = foldM (entry_step sprint projects tasks) st (first :: l2 ++ l3)
  \/ foldM (entry_step sprint projects tasks) st (first :: l2 ++ second :: l3)
     = foldM (entry_step sprint projects tasks) st (l2 ++ second :: l3).
Proof.
  intros Hid. cbn [foldM].
  destruct (entry_step sprint projects tasks st first) as [st1|] eqn:Hstep;
    [|by left].
  cbn [mbind result_bind].
  destruct (entry_step_cases _ _ _ Hstep) as [[-> _]|(_ & _ & Hids)]; [by right|].
  left. rewrite !foldM_app.
  destruct (foldM _ st1 l2) as [st2|] eqn:Hrun; [|done].
  cbn [mbind result_bind foldM].
  rewrite (entry_step_seen st2 second); [done|].
  apply run_keeps_ids in Hrun as [Hle _]. apply Hle.
  rewrite Hids, <-Hid. apply elem_of_app. right. by apply list_elem_of_singleton.
Qed.

End entries_loop.

Example duplicate_feed :
  process_entries (Scenario.sprint (Qc_of_Z 40)) Scenario.sheet
    [Scenario.design_review; Scenario.standup; Scenario.design_review;
     Scenario.standup; Scenario.design_review] Scenario.projects
  = Ok ([(Qc_of_Z 2, Qc_of_Z 5, "task:design"); (Qc_of_Z 1, Qc_of_Z 35, "Off-scheduled")],
        Qc_of_Z 5).
Proof. compute_done. Qed.

(** ** The shape of the report *)

Lemma add_spent_plan (i : nat) (x : Qc) (rs rs' : list row) :
  add_spent i x rs = Ok rs' -> plan rs' = plan rs /\ length rs' = length rs.
Proof.
  unfold add_spent. destruct (rs !! i) as [[[spent estimated] label]|] eqn:Hrow; [|done].
  intros [= <-]. split; [|by rewrite length_insert].
  unfold plan. rewrite list_fmap_insert. apply list_insert_id.
  by rewrite list_lookup_fmap, Hrow.
Qed.

Lemma match_tasks_plan entry projects rows (rs rs' : list row) (b : bool) :
  match_tasks entry projects rows rs = Ok (rs', b) ->
  plan rs' = plan rs /\ length rs' = length rs.
Proof.
  revert rs. induction rows as [|[i t] rows IH]; intros rs; cbn [match_tasks].
  - by intros [= <- <-].
  - destruct (process_entry entry projects (Some t)) as [x|]; [|done].
    cbn [mbind result_bind].
    destruct (add_spent i x rs) as [rs1|] eqn:Hadd; [|done].
    cbn [mbind result_bind]. apply add_spent_plan in Hadd as [<- <-].
    case_bool_decide; [by intros [= <- <-]|apply IH].
Qed.

Lemma entry_step_plan sprint projects tasks st entry st' :
  entry_step sprint projects tasks st entry = Ok st' ->
  plan (results st') = plan (results st)
  /\ length (results st') = length (results st).
Proof.
  unfold entry_step. destruct (_ && _); [|by intros [= <-]].
  destruct (match_tasks _ _ _ _) as [[rs b]|] eqn:Hloop; [|done].
  apply match_tasks_plan in Hloop. cbn [mbind result_bind].
  destruct b; [by intros [= <-]|].
  destruct (process_entry _ _ _); [|done]. by intros [= <-].
Qed.

Lemma run_plan sprint projects tasks entries st st' :
  foldM (entry_step sprint projects tasks) st entries = Ok st' ->
  plan (results st') = plan (results st)
  /\ length (results st') = length (results st).
Proof.
  revert st. induction entries as [|entry entries IH]; intros st; cbn [foldM].
  - by intros [= <-].
  - destruct (entry_step sprint projects tasks st entry) as [st1|] eqn:Hstep; [|done].
    cbn [mbind result_bind]. intros [-> ->]%IH. by apply entry_step_plan in Hstep.
Qed.

Lemma insert_row_perm (t : Task) (sorted : list Task) :
  insert_row t sorted ≡ₚ t :: sorted.
Proof.
  induction sorted as [|u sorted IH]; simpl; [done|].
  destruct (String.leb _ _); [done|]. rewrite IH. apply Permutation_swap.
Qed.

Lemma sort_values_perm (sheet : list Task) : sort_values sheet ≡ₚ sheet.
Proof.
  induction sheet as [|t sheet IH]; simpl; [done|].
  by rewrite insert_row_perm, IH.
Qed.

(** The rows come out in descending order of their descriptions. *)
Lemma insert_row_sorted (t : Task) (sorted : list Task) :
  Sorted (fun a b => String.leb (Description b) (Description a) = true) sorted ->
  Sorted (fun a b => String.leb (Description b) (Description a) = true)
    (insert_row t sorted).
Proof.
  induction 1 as [|u sorted Hsorted IH Hhd]; simpl.
  - by repeat constructor.
  - destruct (String.leb (Description u) (Description t)) eqn:Hle.
    + constructor; [by constructor|by constructor].
    + constructor; [done|].
      assert (String.leb (Description t) (Description u) = true) as Htu.
      { destruct (String.leb_total (Description t) (Description u)); congruence. }
      destruct Hhd as [|v sorted' Hv]; simpl; [by constructor|].
      destruct (String.leb (Description v) (Description t)); by constructor.
Qed.

Lemma sort_values_sorted (sheet : list Task) :
  Sorted (fun a b => String.leb (Description b) (Description a) = true)
    (sort_values sheet).
Proof.
  induction sheet as [|t sheet IH]; simpl; [constructor|].
  by apply insert_row_sorted.
Qed.

Lemma run_entries_budget (budget : Qc) sprint projects tasks entries :
  run_entries (with_budget budget sprint) projects tasks entries
  = run_entries sprint projects tasks entries.
Proof. reflexivity. Qed.

(** ** Inputs on which the run ends without an error *)

Lemma match_known (t : Task) (done_project done_task : string) :
  rule_known t -> exists b, match_ done_project done_task (Description t) = Ok b.
Proof.
  unfold match_. intros [H|H].
  - rewrite H. by eexists.
  - destruct (Py.startswith _ "project:"); [by eexists|]. rewrite H. by eexists.
Qed.

Lemma process_entry_clean projects entry (task : option Task) :
  entry_clean projects entry ->
  from_option rule_known True task ->
  exists x, process_entry entry projects task = Ok x.
Proof.
  unfold entry_clean, process_entry, getitem. intros Hclean Hrule.
  destruct (duration entry) as [d|]; [|by eexists].
  destruct Hclean as (HPT & Hbare & [name Hname]).
  pose proof (duration_hours_PT d HPT) as H. rewrite Hbare in H.
  destruct H as [e ->]. cbn [mbind result_bind].
  destruct task as [t|]; [|by eexists].
  rewrite Hname. cbn [mbind result_bind].
  destruct (match_known t name (description entry) Hrule) as [b ->].
  cbn [mbind result_bind]. by eexists.
Qed.

Lemma match_tasks_total projects entry (tasks : list Task) (k : nat) (rs : list row) :
  entry_clean projects entry -> Forall rule_known tasks ->
  (k + length tasks <= length rs)%nat ->
  exists rs' b, match_tasks entry projects (rows_from k tasks) rs = Ok (rs', b).
Proof.
  intros Hclean. revert k rs.
  induction tasks as [|t tasks IH]; intros k rs Hrules Hlen; [by do 2 eexists|].
  apply Forall_cons in Hrules as [Hrule Hrules]. simpl in Hlen.
  rewrite rows_from_cons. cbn [match_tasks].
  destruct (process_entry_clean projects entry (Some t) Hclean Hrule) as [x ->].
  cbn [mbind result_bind].
  destruct (add_spent k x rs) as [rs1|] eqn:Hadd.
  - cbn [mbind result_bind]. apply add_spent_plan in Hadd as [_ Hlen1].
    case_bool_decide; [by do 2 eexists|]. apply IH; [done|lia].
  - unfold add_spent in Hadd.
    destruct (lookup_lt_is_Some_2 rs k) as [[[? ?] ?] Hrow]; [lia|].
    by rewrite Hrow in Hadd.
Qed.

Lemma run_total sprint projects tasks entries st :
  Forall rule_known tasks -> Forall (entry_clean projects) entries ->
  length (results st) = length tasks ->
  exists st', foldM (entry_step sprint projects tasks) st entries = Ok st'.
Proof.
  intros Hrules Hclean. revert st.
  induction Hclean as [|entry entries Hentry _ IH]; intros st Hlen; [by eexists|].
  cbn [foldM].
  assert (exists st1, entry_step sprint projects tasks st entry = Ok st1) as [st1 Hstep].
  { unfold entry_step. destruct (_ && _); [|by eexists].
    destruct (match_tasks_total projects entry tasks 0 (results st))
      as (rs & b & Hloop); [done|done|simpl; lia|].
    unfold iterrows. rewrite Hloop. cbn [mbind result_bind].
    destruct b; [by eexists|].
    destruct (process_entry_clean projects entry None Hentry I) as [x ->].
    by eexists. }
  rewrite Hstep. cbn [mbind result_bind]. apply IH.
  apply entry_step_plan in Hstep as [_ ->]. done.
Qed.

(** Five hours are planned against a budget of three: the run goes through
    and the budget of the time off schedule is minus two. *)
Example budget_overrun :
  process_entries (Scenario.sprint (Qc_of_Z 3)) Scenario.sheet Scenario.entries
    Scenario.projects
  = Ok ([(Qc_of_Z 2, Qc_of_Z 5, "task:design");
         (Qc_of_Z 1, Qc_of_Z (-2), "Off-scheduled")], Qc_of_Z 5).
Proof. compute_done. Qed.

(** ** Projects that are not in the lookup *)

Lemma duration_hours_no_KeyError (d : string) : duration_hours d <> Err KeyError.
Proof.
  destruct (Py.startswith d "PT") eqn:HPT.
  - pose proof (duration_hours_PT d HPT) as H.
    destruct (bare_letter d); [by rewrite H|]. by destruct H as [e ->].
  - unfold duration_hours, re_match. by rewrite HPT.
Qed.

Lemma process_entry_KeyError done projects t (d : string) (e : Qc) :
  duration done = Some d -> duration_hours d = Ok e ->
  projects !! projectId done = None ->
  process_entry done projects (Some t) = Err KeyError.
Proof.
  intros Hd He Hmissing. unfold process_entry, getitem.
  by rewrite Hd, He, Hmissing.
Qed.

(** A timer that is still running is answered before the lookup: with a
    project that is not in the lookup and a task to compare with, nothing
    is raised. *)
Lemma running_entry_skips_lookup :
  in_window (Scenario.sprint (Qc_of_Z 40)) Scenario.running = true
  /\ Scenario.projects !! projectId Scenario.running = None
  /\ match_ "Alpha" (description Scenario.running) (Description Scenario.design) = Ok true
  /\ process_entry Scenario.running Scenario.projects (Some Scenario.design) = Ok 0.
Proof. repeat split; compute_done. Qed.

(** C10, as the code has it.  For an entry that has a duration, the name of
    the project is looked up before the rule of the task is looked at: with
    a project that is not in the lookup the call raises [KeyError] whatever
    the rule is.  The lookup is left out in two places: on the path without
    a task, and for an entry without a duration, which is answered with
    zero first. *)
Theorem lookup_before_rule done projects :
  projects !! projectId done = None ->
  (forall d e t,
      duration done = Some d -> duration_hours d = Ok e ->
      process_entry done projects (Some t) = Err KeyError)
  /\ (forall projects', process_entry done projects None = process_entry done projects' None)
  /\ process_entry done projects None <> Err KeyError
  /\ (duration done = None -> forall task, process_entry done projects task = Ok 0).
Proof.
  intros Hmissing. repeat split.
  - intros d e t Hd He. by eapply process_entry_KeyError.
  - unfold process_entry. destruct (duration done) as [d|]; [|done].
    pose proof (duration_hours_no_KeyError d) as H.
    destruct (duration_hours d) as [e|err]; [done|]. cbn. congruence.
  - intros Hd task. unfold process_entry. by rewrite Hd.
Qed.

Lemma lookup_before_rule_witness :
  process_entry Scenario.late Scenario.projects (Some Scenario.design) = Err KeyError.
Proof.
  apply (proj1 (lookup_before_rule Scenario.late Scenario.projects eq_refl)
           "PT10H" (Qc_of_Z 10)).
  - reflexivity.
  - compute_done.
Defined.

Lemma entry_step_raise_first sprint projects t tasks st entry (err : pyerr) :
  in_window sprint entry = true -> id entry ∉ processed_ids st ->
  process_entry entry projects (Some t) = Err err ->
  entry_step sprint projects (t :: tasks) st entry = Err err.
Proof.
  intros Hwin Hnew Herr. unfold entry_step.
  rewrite Hwin, bool_decide_eq_true_2 by done. cbn [andb].
  unfold iterrows. rewrite rows_from_cons.
  by rewrite (match_tasks_raise _ _ _ _ _ _ _ Herr).
Qed.

Lemma process_entry_unresolved done projects t (d : string) :
  duration done = Some d -> projects !! projectId done = None ->
  exists err, process_entry done projects (Some t) = Err err.
Proof.
  intros Hd Hmissing. unfold process_entry, getitem. rewrite Hd, Hmissing.
  destruct (duration_hours d); by eexists.
Qed.

(** Two entries inside the window whose project is not in the lookup, and
    no error.  The first is compared with a project rule, but its timer is
    still running; the second has ten hours and is compared with nothing,
    the sheet is empty: the ten hours are time off schedule. *)
Lemma unresolved_project_goes_unmatched :
  in_window (Scenario.sprint (Qc_of_Z 40)) Scenario.running = true
  /\ Scenario.projects !! projectId Scenario.running = None
  /\ Py.startswith (Description Scenario.alpha) "project:" = true
  /\ process_entries (Scenario.sprint (Qc_of_Z 40)) [Scenario.alpha]
       [Scenario.running] Scenario.projects
     = Ok ([(0, Qc_of_Z 8, "project:alpha"); (0, Qc_of_Z 32, "Off-scheduled")],
           Qc_of_Z 8)
  /\ in_window (Scenario.sprint (Qc_of_Z 40)) Scenario.orphan = true
  /\ Scenario.projects !! projectId Scenario.orphan = None
  /\ process_entries (Scenario.sprint (Qc_of_Z 40)) [] [Scenario.orphan]
       Scenario.projects
     = Ok ([(Qc_of_Z 10, Qc_of_Z 40, "Off-scheduled")], 0).
Proof. repeat split; compute_done. Qed.

(** C8, as the code has it.  An entry inside the window that has a duration
    and whose project is not in the lookup.  When the sheet has a task, the
    run stops with an error as soon as the first task is compared with the
    entry, a project rule or any other; it is [KeyError] when the duration
    is read without an error, and the entry is not counted as time off
    schedule.  When the sheet has no task, nothing is compared with the
    entry and nothing is looked up: its hours are added to the time off
    schedule. *)
Theorem unresolved_project_raises sprint projects sheet tasks before entry after
    (d : string) :
  sorted_frame sheet tasks ->
  in_window sprint entry = true ->
  id entry ∉ (id <$> before) ->
  duration entry = Some d ->
  projects !! projectId entry = None ->
  (sheet <> [] ->
   (forall st e,
       id entry ∉ processed_ids st -> duration_hours d = Ok e ->
       entry_step sprint projects tasks st entry = Err KeyError)
   /\ exists err,
       process_frame sprint tasks (before ++ entry :: after) projects = Err err)
  /\ (sheet = [] ->
      forall st e,
        id entry ∉ processed_ids st -> duration_hours d = Ok e ->
        entry_step sprint projects tasks st entry
        = Ok {| results := results st;
                processed_ids := processed_ids st ++ [id entry];
                off_schedule_spent := off_schedule_spent st + e |}).
Proof.
  intros [Hperm _] Hwin Hfresh Hd Hmissing. split.
  - intros Hsheet. destruct tasks as [|t tasks].
    { apply Permutation_nil_l in Hperm. by destruct Hsheet. }
    split.
    + intros st e Hnew He. apply entry_step_raise_first; [done..|].
      by eapply process_entry_KeyError.
    + unfold process_frame, run_entries. rewrite foldM_app.
      destruct (foldM _ _ before) as [st|err] eqn:Hrun; [|by exists err].
      cbn [mbind result_bind foldM].
      destruct (process_entry_unresolved entry projects t d Hd Hmissing) as [err Herr].
      exists err. rewrite (entry_step_raise_first _ _ _ _ _ _ err); [done..| |done].
      intros Hseen. apply run_keeps_ids in Hrun as [_ Hge].
      apply Hge in Hseen as [Hseen|Hseen]; [|done].
      by apply elem_of_nil in Hseen.
  - intros ->. apply Permutation_nil_r in Hperm as ->. intros st e Hnew He.
    unfold entry_step. rewrite Hwin, bool_decide_eq_true_2 by done.
    cbn [andb iterrows rows_from length seq zip zip_with match_tasks mbind result_bind].
    unfold process_entry. by rewrite Hd, He.
Qed.

Lemma unresolved_project_raises_witness :
  entry_step (Scenario.sprint (Qc_of_Z 40)) Scenario.projects
    (sort_values [Scenario.alpha]) (initial_state (sort_values [Scenario.alpha]))
    Scenario.orphan
  = Err KeyError
  /\ exists err,
      process_frame (Scenario.sprint (Qc_of_Z 40)) (sort_values [Scenario.alpha])
        ([Scenario.design_review] ++ Scenario.orphan :: [Scenario.standup])
        Scenario.projects
      = Err err.
Proof.
  assert (sorted_frame [Scenario.alpha] (sort_values [Scenario.alpha])) as Hframe.
  { split; [done|]. by repeat constructor. }
  assert (in_window (Scenario.sprint (Qc_of_Z 40)) Scenario.orphan = true)
    as Hwin by compute_done.
  assert (id Scenario.orphan ∉ (id <$> [Scenario.design_review]))
    as Hfresh by compute_done.
  assert ([Scenario.alpha] <> []) as Hsheet by discriminate.
  split.
  - apply (proj1 (proj1 (unresolved_project_raises (Scenario.sprint (Qc_of_Z 40))
                           Scenario.projects [Scenario.alpha]
                           (sort_values [Scenario.alpha]) [Scenario.design_review]
                           Scenario.orphan [Scenario.standup] "PT10H"
                           Hframe Hwin Hfresh eq_refl eq_refl) Hsheet)
             _ (Qc_of_Z 10)).
    + compute_done.
    + compute_done.
  - apply (proj2 (proj1 (unresolved_project_raises (Scenario.sprint (Qc_of_Z 40))
                           Scenario.projects [Scenario.alpha]
                           (sort_values [Scenario.alpha]) [Scenario.design_review]
                           Scenario.orphan [Scenario.standup] "PT10H"
                           Hframe Hwin Hfresh eq_refl eq_refl) Hsheet)).
Defined.

(** ** The sprint of the scenario, end to end *)

(** The label of a row is the description of the task as the sheet has it,
    [task:design]; a sheet that says [design] alone is a rule of no kind. *)
Lemma scenario_label_is_the_rule_text :
  fst <$> process_entries (Scenario.sprint (Qc_of_Z 40)) Scenario.sheet
            Scenario.entries Scenario.projects
  <> Ok [(Qc_of_Z 2, Qc_of_Z 5, "design");
         (Qc_of_Z 1, Qc_of_Z 40 - Qc_of_Z 5, "Off-scheduled")]
  /\ process_entries (Scenario.sprint (Qc_of_Z 40))
       [{| Description := "design"; Estimated_Hours := Qc_of_Z 5 |}]
       Scenario.entries Scenario.projects
     = Err TypeError.
Proof. split; compute_done. Qed.

(** C2, as the code has it.  Sprint window from 1000 for two days, one task
    [task:design] of five hours, an entry of two hours "Design review" and
    one of one hour "Standup" inside the window, one of ten hours outside:
    the report is the row (2, 5, "task:design") and the row
    (1, budget - 5, "Off-scheduled"); the entry outside the window is in
    neither. *)
Theorem end_to_end_scenario (budget : Qc) :
  process_entries (Scenario.sprint budget) Scenario.sheet Scenario.entries
    Scenario.projects
  = Ok ([(Qc_of_Z 2, Qc_of_Z 5, "task:design");
         (Qc_of_Z 1, budget - Qc_of_Z 5, "Off-scheduled")], Qc_of_Z 5).
Proof.
  unfold process_entries.
  change (Scenario.sprint budget) with (with_budget budget (Scenario.sprint 0)) at 2.
  rewrite run_entries_budget.
  assert (run_entries (Scenario.sprint 0) Scenario.projects
            (sort_values Scenario.sheet) Scenario.entries
          = Ok {| results := [(Qc_of_Z 2, Qc_of_Z 5, "task:design")];
                  processed_ids := ["e1"; "e2"];
                  off_schedule_spent := Qc_of_Z 1 |}) as -> by compute_done.
  assert (total_scheduled_hours (sort_values Scenario.sheet) = Qc_of_Z 5)
    as Htotal by compute_done.
  cbn [fmap result_fmap]. unfold report. by rewrite Htotal.
Qed.


(** * Further properties of the engine *)

(** ** The feed reduced to the entries that count *)

Lemma run_counted_from sprint projects tasks entries st :
  foldM (entry_step sprint projects tasks) st entries
  = foldM (entry_step sprint projects tasks) st
      (counted_from sprint (processed_ids st) entries).
Proof.
  revert st. induction entries as [|entry entries IH]; intros st; [done|].
  cbn [counted_from foldM].
  destruct (in_window sprint entry && bool_decide (id entry ∉ processed_ids st))
    eqn:Heligible.
  - cbn [foldM].
    destruct (entry_step sprint projects tasks st entry) as [st1|] eqn:Hstep; [|done].
    cbn [mbind result_bind]. rewrite IH.
    apply andb_prop in Heligible as [Hwin Hnew%bool_decide_eq_true].
    destruct (entry_step_cases _ _ _ _ _ _ Hstep) as [[_ [?|?]]|(_ & _ & ->)];
      [congruence|done|done].
  - assert (entry_step sprint projects tasks st entry = Ok st) as ->
      by (unfold entry_step; by rewrite Heligible).
    cbn [mbind result_bind]. apply IH.
Qed.

Lemma counted_from_in_window sprint seen entries :
  Forall (fun entry => in_window sprint entry = true) (counted_from sprint seen entries).
Proof.
  revert seen. induction entries as [|entry entries IH]; intros seen; cbn; [done|].
  destruct (in_window sprint entry) eqn:Hwin; cbn [andb]; [|done].
  case_bool_decide; [|done]. by constructor.
Qed.

Lemma counted_from_ids sprint seen entries x :
  x ∈ (id <$> counted_from sprint seen entries) ->
(x ∉ seen) /\ x ∈ (id <$> entries).
Proof.
  revert seen. induction entries as [|entry entries IH]; intros seen; cbn.
  - by intros ?%elem_of_nil.
  - destruct (in_window sprint entry && bool_decide (id entry ∉ seen)) eqn:Heligible.
    + apply andb_prop in Heligible as [_ Hnew%bool_decide_eq_true].
      cbn. intros [->|Hx]%elem_of_cons.
      * split; [done|]. apply elem_of_cons. by left.
      * apply IH in Hx as [Hx1 Hx2]. split.
        -- intros Hs. apply Hx1, elem_of_app. by left.
        -- apply elem_of_cons. by right.
    + intros [Hx1 Hx2]%IH. split; [done|]. apply elem_of_cons. by right.
Qed.

Lemma counted_from_NoDup sprint seen entries :
  NoDup (id <$> counted_from sprint seen entries).
Proof.
  revert seen. induction entries as [|entry entries IH]; intros seen; cbn.
  - constructor.
  - destruct (in_window sprint entry && bool_decide (id entry ∉ seen)); [|done].
    cbn. constructor; [|done].
    intros [Hnot _]%counted_from_ids. apply Hnot, elem_of_app. right.
    by apply list_elem_of_singleton.
Qed.

Lemma counted_from_complete sprint seen entries entry :
  entry ∈ entries -> in_window sprint entry = true ->
  id entry ∈ seen \/ id entry ∈ (id <$> counted_from sprint seen entries).
Proof.
  revert seen. induction entries as [|first entries IH]; intros seen;
    [by intros ?%elem_of_nil|].
  intros [->|Hin]%elem_of_cons Hwin; cbn.
  - rewrite Hwin. cbn [andb]. case_bool_decide as Hnew.
    + right. cbn. apply elem_of_cons. by left.
    + left. by destruct (decide (id first ∈ seen)).
  - destruct (in_window sprint first && bool_decide (id first ∉ seen)).
    + destruct (IH (seen ++ [id first]) Hin Hwin) as [Hs|Hc].
      * apply elem_of_app in Hs as [Hs|Hs%list_elem_of_singleton]; [by left|].
        right. cbn. apply elem_of_cons. by left.
      * right. cbn. apply elem_of_cons. by right.
    + by apply IH.
Qed.

Lemma counted_from_sublist sprint seen entries :
  counted_from sprint seen entries `sublist_of` entries.
Proof.
  revert seen. induction entries as [|entry entries IH]; intros seen; cbn; [done|].
  destruct (in_window sprint entry && bool_decide (id entry ∉ seen)).
  - by apply sublist_skip.
  - by apply sublist_cons.
Qed.

(** X1. The report of a feed is the report of the entries that count: the
    feed with the entries outside the window and every later coming of an
    identifier left out, whatever the number of repetitions.  Those entries
    are a sublist of the feed, lie inside the window, have pairwise
    different identifiers, and every entry of the feed inside the window
    has its identifier among them. *)
Theorem feed_normal_form sprint sheet entries projects :
  process_entries sprint sheet entries projects
  = process_entries sprint sheet (counted sprint entries) projects
  /\ counted sprint entries `sublist_of` entries
  /\ Forall (fun entry => in_window sprint entry = true) (counted sprint entries)
  /\ NoDup (id <$> counted sprint entries)
  /\ (forall entry, entry ∈ entries -> in_window sprint entry = true ->
      id entry ∈ (id <$> counted sprint entries)).
Proof.
  split; [|split; [|split; [|split]]].
  - unfold process_entries, run_entries. f_equal. apply run_counted_from.
  - apply counted_from_sublist.
  - apply counted_from_in_window.
  - apply counted_from_NoDup.
  - intros entry Hin Hwin.
    destruct (counted_from_complete sprint [] entries entry Hin Hwin) as [H|H]; [|done].
    by apply elem_of_nil in H.
Qed.

(** ** Time off schedule *)

Lemma process_entry_task_inv entry projects t (x : Qc) :
  process_entry entry projects (Some t) = Ok x ->
  exists e,
    process_entry entry projects None = Ok e
    /\ ((duration entry = None /\ x = 0 /\ e = 0)
        \/ exists name b,
            projects !! projectId entry = Some name
            /\ match_ name (description entry) (Description t) = Ok b
            /\ x = if b then e else 0).
Proof.
  unfold process_entry, getitem. destruct (duration entry) as [d|].
  - destruct (duration_hours d) as [e|]; [|done]. cbn [mbind result_bind].
    destruct (projects !! projectId entry) as [name|] eqn:Hname; [|done].
    cbn [mbind result_bind].
    destruct (match_ name (description entry) (Description t)) as [b|] eqn:Hb; [|done].
    cbn [mbind result_bind]. intros [= <-]. exists e. split; [done|].
    right. by exists name, b.
  - intros [= Hx]. subst x. exists 0. split; [done|]. by left.
Qed.

Lemma process_entry_task_nonneg entry projects t (x : Qc) :
  process_entry entry projects (Some t) = Ok x -> 0 ≤ x.
Proof.
  intros (e & He & [(_ & -> & _)|(name & b & _ & _ & ->)])%process_entry_task_inv;
    [done|].
  destruct b; [by eapply process_entry_nonneg|done].
Qed.

Lemma add_spent_zero_inv (i : nat) (rs rs' : list row) :
  add_spent i 0 rs = Ok rs' -> rs' = rs.
Proof.
  unfold add_spent. destruct (rs !! i) as [[[spent estimated] label]|] eqn:Hrow; [|done].
  intros [= <-]. rewrite Qcplus_0_r. by apply list_insert_id.
Qed.

Lemma match_tasks_unmatched entry projects rows (rs rs' : list row) :
  match_tasks entry projects rows rs = Ok (rs', false) ->
  rs' = rs
  /\ Forall (fun it => process_entry entry projects (Some it.2) = Ok 0) rows.
Proof.
  revert rs. induction rows as [|[i t] rows IH]; intros rs; cbn [match_tasks].
  - by intros [= <-].
  - destruct (process_entry entry projects (Some t)) as [x|] eqn:Hx; [|done].
    cbn [mbind result_bind].
    destruct (add_spent i x rs) as [rs1|] eqn:Hadd; [|done].
    cbn [mbind result_bind]. case_bool_decide as Hpos; [done|].
    assert (x = 0) as ->.
    { apply Qcle_antisym; [by apply Qcnot_lt_le|by eapply process_entry_task_nonneg]. }
    apply add_spent_zero_inv in Hadd as ->.
    intros [-> Hrest]%IH. split; [done|]. by constructor.
Qed.

(** X2. An entry that counts and that no task matches adds its hours to the
    time off schedule and changes no row; and the time off schedule changes
    only in that way: when a step changes it, every task was compared with
    the entry and did not match, and no row changed. *)
Theorem unmatched_goes_off_schedule sprint projects tasks st entry :
  (forall e,
      in_window sprint entry = true -> id entry ∉ processed_ids st ->
      length (results st) = length tasks ->
      process_entry entry projects None = Ok e ->
      Forall (fun t => exists name,
                  projects !! projectId entry = Some name
                  /\ match_ name (description entry) (Description t) = Ok false)
        tasks ->
      entry_step sprint projects tasks st entry
      = Ok {| results := results st;
              processed_ids := processed_ids st ++ [id entry];
              off_schedule_spent := off_schedule_spent st + e |})
  /\ (forall st',
         entry_step sprint projects tasks st entry = Ok st' ->
         off_schedule_spent st' <> off_schedule_spent st ->
         results st' = results st
         /\ off_schedule_spent st' = off_schedule_spent st + hours projects entry
         /\ Forall (fun t => exists name,
                       projects !! projectId entry = Some name
                       /\ match_ name (description entry) (Description t) = Ok false)
              tasks).
Proof.
  split.
  - intros e Hwin Hnew Hlen He Hnone. unfold entry_step.
    rewrite Hwin, bool_decide_eq_true_2 by done. cbn [andb]. unfold iterrows.
    rewrite match_tasks_no_credit.
    + cbn [mbind result_bind]. by rewrite He.
    + simpl. lia.
    + eapply Forall_impl; [exact Hnone|]. intros t (name & Hname & Hfalse).
      by rewrite (process_entry_task _ _ _ _ _ _ He Hname Hfalse).
  - intros st'. unfold entry_step.
    destruct (in_window sprint entry && bool_decide (id entry ∉ processed_ids st));
      [|by intros [= <-]].
    destruct (match_tasks _ _ _ _) as [[rs b]|] eqn:Hloop; [|done].
    cbn [mbind result_bind]. destruct b; [by intros [= <-]|].
    destruct (process_entry entry projects None) as [e|] eqn:He; [|done].
    cbn [mbind result_bind]. intros [= <-]. cbn. intros Hchanged.
    apply match_tasks_unmatched in Hloop as [-> Hzero].
    unfold hours. rewrite He. split; [done|]. split; [done|].
    assert (e <> 0) as Hne.
    { intros ->. apply Hchanged. by rewrite Qcplus_0_r. }
    unfold iterrows, rows_from in Hzero.
    apply Forall_forall. intros t Ht.
    apply list_elem_of_lookup in Ht as [i Hi].
    assert ((i, t) ∈ zip (seq 0 (length tasks)) tasks) as Hit.
    { apply list_elem_of_lookup. exists i. rewrite lookup_zip_with, lookup_seq_lt.
      - by rewrite Hi.
      - by eapply lookup_lt_Some. }
    rewrite Forall_forall in Hzero. apply Hzero in Hit. cbn in Hit.
    apply process_entry_task_inv in Hit
      as (e' & He' & [(Hd & _ & ->)|(name & b & Hname & Hb & Hx)]).
    + congruence.
    + exists name. split; [done|]. destruct b; [|done]. congruence.
Qed.

(** ** Every hour is counted once *)

Lemma np_sum_cons (x : Qc) (xs : list Qc) : np_sum (x :: xs) = x + np_sum xs.
Proof. reflexivity. Qed.


Lemma total_spent_hours_insert (i : nat) (rs : list row) (spent estimated x : Qc)
    (label : string) :
  rs !! i = Some (spent, estimated, label) ->
  total_spent_hours (<[i := (spent + x, estimated, label)]> rs)
  = total_spent_hours rs + x.
Proof.
  unfold total_spent_hours. revert i.
  induction rs as [|r rs IH]; intros [|i] Hrow; try done.
  - injection Hrow as ->.
    change (<[0%nat := (spent + x, estimated, label)]> ((spent, estimated, label) :: rs))
      with ((spent + x, estimated, label) :: rs).
    rewrite !fmap_cons, !np_sum_cons. cbn [fst]. ring.
  - change (<[S i := (spent + x, estimated, label)]> (r :: rs))
      with (r :: <[i := (spent + x, estimated, label)]> rs).
    rewrite !fmap_cons, !np_sum_cons, (IH i Hrow). ring.
Qed.

Lemma add_spent_total (i : nat) (x : Qc) (rs rs' : list row) :
  add_spent i x rs = Ok rs' -> total_spent_hours rs' = total_spent_hours rs + x.
Proof.
  unfold add_spent. destruct (rs !! i) as [[[spent estimated] label]|] eqn:Hrow; [|done].
  intros [= <-]. by apply total_spent_hours_insert.
Qed.

Lemma match_tasks_total_spent entry projects rows (rs rs' : list row) (b : bool) :
  match_tasks entry projects rows rs = Ok (rs', b) ->
  total_spent_hours rs'
  = total_spent_hours rs + (if b then hours projects entry else 0).
Proof.
  revert rs. induction rows as [|[i t] rows IH]; intros rs; cbn [match_tasks].
  - intros [= <- <-]. by rewrite Qcplus_0_r.
  - destruct (process_entry entry projects (Some t)) as [x|] eqn:Hx; [|done].
    cbn [mbind result_bind].
    destruct (add_spent i x rs) as [rs1|] eqn:Hadd; [|done].
    cbn [mbind result_bind]. apply add_spent_total in Hadd.
    case_bool_decide as Hpos.
    + intros [= <- <-]. rewrite Hadd. f_equal.
      apply process_entry_task_inv in Hx
        as (e & He & [(_ & -> & _)|(name & [] & _ & _ & ->)]).
      * by apply Qclt_zero_irrefl in Hpos.
      * unfold hours. by rewrite He.
      * by apply Qclt_zero_irrefl in Hpos.
    + assert (x = 0) as ->.
      { apply Qcle_antisym; [by apply Qcnot_lt_le|by eapply process_entry_task_nonneg]. }
      intros ->%IH. rewrite Hadd. ring.
Qed.

Lemma entry_step_total_spent sprint projects tasks st entry st' :
  entry_step sprint projects tasks st entry = Ok st' ->
  total_spent_hours (results st') + off_schedule_spent st'
  = total_spent_hours (results st) + off_schedule_spent st
    + (if in_window sprint entry && bool_decide (id entry ∉ processed_ids st)
       then hours projects entry else 0).
Proof.
  unfold entry_step.
  destruct (in_window sprint entry && bool_decide (id entry ∉ processed_ids st)).
  - destruct (match_tasks _ _ _ _) as [[rs b]|] eqn:Hloop; [|done].
    apply match_tasks_total_spent in Hloop. cbn [mbind result_bind].
    destruct b.
    + intros [= <-]. cbn [results off_schedule_spent]. rewrite Hloop. ring.
    + destruct (process_entry entry projects None) as [e|] eqn:He; [|done].
      intros [= <-]. cbn [results off_schedule_spent mbind result_bind].
      rewrite Hloop. unfold hours. rewrite He. ring.
  - intros [= <-]. by rewrite Qcplus_0_r.
Qed.

Lemma run_total_spent sprint projects tasks entries st st' :
  foldM (entry_step sprint projects tasks) st entries = Ok st' ->
  total_spent_hours (results st') + off_schedule_spent st'
  = total_spent_hours (results st) + off_schedule_spent st
    + np_sum (hours projects <$> counted_from sprint (processed_ids st) entries).
Proof.
  revert st. induction entries as [|entry entries IH]; intros st; cbn [foldM counted_from].
  - intros [= <-]. change (np_sum (hours projects <$> [])) with 0.
    by rewrite Qcplus_0_r.
  - destruct (entry_step sprint projects tasks st entry) as [st1|] eqn:Hstep; [|done].
    cbn [mbind result_bind]. intros ->%IH.
    rewrite (entry_step_total_spent _ _ _ _ _ _ Hstep).
    destruct (entry_step_cases _ _ _ _ _ _ Hstep) as [[-> Hskip]|(Hwin & Hnew & ->)].
    + assert (in_window sprint entry && bool_decide (id entry ∉ processed_ids st) = false)
        as ->.
      { destruct Hskip as [->|Hseen]; [done|].
        rewrite bool_decide_eq_false_2 by tauto. apply andb_false_r. }
      ring.
    + rewrite Hwin, bool_decide_eq_true_2 by done. cbn [andb].
      rewrite fmap_cons, np_sum_cons. ring.
Qed.

Lemma total_spent_hours_initial (tasks : list Task) :
  total_spent_hours (initial_results tasks) = 0.
Proof.
  unfold total_spent_hours, initial_results.
  induction tasks as [|t tasks IH]; [done|].
  rewrite !fmap_cons, np_sum_cons, IH. cbn [fst]. ring.
Qed.

Lemma unmatched_goes_off_schedule_witness :
  entry_step (Scenario.sprint (Qc_of_Z 40)) Scenario.projects Scenario.sheet
    (initial_state Scenario.sheet) Scenario.standup
  = Ok {| results := results (initial_state Scenario.sheet);
          processed_ids := [] ++ ["e2"];
          off_schedule_spent := 0 + Qc_of_Z 1 |}.
Proof.
  apply (proj1 (unmatched_goes_off_schedule (Scenario.sprint (Qc_of_Z 40))
                  Scenario.projects Scenario.sheet (initial_state Scenario.sheet)
                  Scenario.standup) (Qc_of_Z 1)).
  - compute_done.
  - compute_done.
  - reflexivity.
  - compute_done.
  - constructor; [|constructor]. exists "Alpha". split; reflexivity.
Defined.

(** ** No negative hours *)

Lemma np_sum_nonneg (xs : list Qc) : Forall (fun x => 0 ≤ x) xs -> 0 ≤ np_sum xs.
Proof.
  induction 1 as [|x xs Hx _ IH]; [done|].
  rewrite np_sum_cons. by apply Qcplus_nonneg_nonneg.
Qed.

Lemma np_sum_bound (xs : list Qc) (x : Qc) :
  Forall (fun x => 0 ≤ x) xs -> x ∈ xs -> x ≤ np_sum xs.
Proof.
  induction 1 as [|y xs Hy Hxs IH]; [by intros ?%elem_of_nil|].
  rewrite np_sum_cons. intros [->|Hin]%elem_of_cons.
  - rewrite <-(Qcplus_0_r y) at 1. apply Qcplus_le_mono_l. by apply np_sum_nonneg.
  - rewrite <-(Qcplus_0_l x). apply Qcplus_le_compat; [done|by apply IH].
Qed.

Lemma add_spent_nonneg (i : nat) (x : Qc) (rs rs' : list row) :
  Forall (fun r => 0 ≤ r.1.1) rs -> 0 ≤ x ->
  add_spent i x rs = Ok rs' -> Forall (fun r => 0 ≤ r.1.1) rs'.
Proof.
  intros Hrs Hx. unfold add_spent.
  destruct (rs !! i) as [[[spent estimated] label]|] eqn:Hrow; [|done].
  intros [= <-]. apply Forall_insert; [done|]. cbn.
  apply Qcplus_nonneg_nonneg; [|done].
  by apply (Forall_lookup_1 _ _ _ _ Hrs Hrow).
Qed.

Lemma match_tasks_nonneg entry projects rows (rs rs' : list row) (b : bool) :
  Forall (fun r => 0 ≤ r.1.1) rs ->
  match_tasks entry projects rows rs = Ok (rs', b) ->
  Forall (fun r => 0 ≤ r.1.1) rs'.
Proof.
  revert rs. induction rows as [|[i t] rows IH]; intros rs Hrs; cbn [match_tasks].
  - by intros [= <- <-].
  - destruct (process_entry entry projects (Some t)) as [x|] eqn:Hx; [|done].
    cbn [mbind result_bind].
    destruct (add_spent i x rs) as [rs1|] eqn:Hadd; [|done].
    cbn [mbind result_bind].
    apply add_spent_nonneg in Hadd; [|done|by eapply process_entry_task_nonneg].
    case_bool_decide; [by intros [= <- <-]|by apply IH].
Qed.

Lemma entry_step_nonneg sprint projects tasks st entry st' :
  Forall (fun r => 0 ≤ r.1.1) (results st) -> 0 ≤ off_schedule_spent st ->
  entry_step sprint projects tasks st entry = Ok st' ->
  Forall (fun r => 0 ≤ r.1.1) (results st') /\ 0 ≤ off_schedule_spent st'.
Proof.
  intros Hrs Hoff. unfold entry_step. destruct (_ && _); [|by intros [= <-]].
  destruct (match_tasks _ _ _ _) as [[rs b]|] eqn:Hloop; [|done].
  apply match_tasks_nonneg in Hloop; [|done]. cbn [mbind result_bind].
  destruct b; [by intros [= <-]|].
  destruct (process_entry entry projects None) as [e|] eqn:He; [|done].
  intros [= <-]. split; [done|]. cbn.
  apply Qcplus_nonneg_nonneg; [done|by eapply process_entry_nonneg].
Qed.

Lemma run_nonneg sprint projects tasks entries st st' :
  Forall (fun r => 0 ≤ r.1.1) (results st) -> 0 ≤ off_schedule_spent st ->
  foldM (entry_step sprint projects tasks) st entries = Ok st' ->
  Forall (fun r => 0 ≤ r.1.1) (results st') /\ 0 ≤ off_schedule_spent st'.
Proof.
  revert st. induction entries as [|entry entries IH]; intros st Hrs Hoff; cbn [foldM].
  - by intros [= <-].
  - destruct (entry_step sprint projects tasks st entry) as [st1|] eqn:Hstep; [|done].
    cbn [mbind result_bind].
    apply entry_step_nonneg in Hstep as [Hrs1 Hoff1]; [|done..]. by apply IH.
Qed.

(** X4. Whenever the engine returns, no row of the report, the row of the
    time off schedule included, has negative hours spent, and none has more
    than the hours of all the entries that count taken together. *)
Theorem spent_hours_bounds sprint sheet entries projects rows (total : Qc) :
  process_entries sprint sheet entries projects = Ok (rows, total) ->
  Forall (fun r => 0 ≤ r.1.1
                   /\ r.1.1 ≤ np_sum (hours projects <$> counted sprint entries))
    rows.
Proof.
  unfold process_entries, run_entries.
  destruct (foldM _ _ entries) as [st|] eqn:Hfold; [|done].
  intros [= <- <-].
  pose proof (run_total_spent _ _ _ _ _ _ Hfold) as Htotal.
  cbn [initial_state results off_schedule_spent processed_ids] in Htotal.
  rewrite total_spent_hours_initial, !Qcplus_0_l in Htotal.
  fold (counted sprint entries) in Htotal. rewrite <-Htotal.
  apply run_nonneg in Hfold as [Hrs Hoff]; [| |done].
  2:{ unfold initial_state, initial_results. cbn.
      apply Forall_fmap, Forall_forall. by intros t _. }
  rewrite Forall_forall in Hrs.
  apply Forall_app. split; [|repeat constructor; [done|]].
  - apply Forall_forall. intros r Hr. split; [by apply Hrs|].
    rewrite <-(Qcplus_0_r r.1.1). apply Qcplus_le_compat; [|done].
    unfold total_spent_hours. apply np_sum_bound.
    + apply Forall_forall. intros x (r' & -> & Hr')%list_elem_of_fmap. by apply Hrs.
    + by apply (list_elem_of_fmap_2 (fun r : row => r.1.1)).
  - cbn. rewrite <-(Qcplus_0_l (off_schedule_spent st)) at 1.
    apply Qcplus_le_compat; [|done].
    unfold total_spent_hours. apply np_sum_nonneg.
    apply Forall_forall. intros x (r' & -> & Hr')%list_elem_of_fmap. by apply Hrs.
Qed.

Lemma spent_hours_bounds_witness :
  Forall (fun r : row =>
            0 ≤ r.1.1
            /\ r.1.1 ≤ np_sum (hours Scenario.projects
                                <$> counted (Scenario.sprint (Qc_of_Z 40))
                                      Scenario.entries))
    [(Qc_of_Z 2, Qc_of_Z 5, "task:design"); (Qc_of_Z 1, Qc_of_Z 35, "Off-scheduled")].
Proof.
  apply (spent_hours_bounds (Scenario.sprint (Qc_of_Z 40)) Scenario.sheet
           Scenario.entries Scenario.projects _ (Qc_of_Z 5)).
  compute_done.
Defined.

(** ** Where an error comes from *)

Lemma duration_hours_err (d : string) (x : pyerr) :
  duration_hours d = Err x ->
  (Py.startswith d "PT" = false /\ x = AttributeError)
  \/ (Py.startswith d "PT" = true /\ bare_letter d = true /\ x = ValueError).
Proof.
  destruct (Py.startswith d "PT") eqn:HPT.
  - pose proof (duration_hours_PT d HPT) as H.
    destruct (bare_letter d).
    + rewrite H. intros [= <-]. by right.
    + destruct H as [e ->]. done.
  - unfold duration_hours, re_match. rewrite HPT. intros [= <-]. by left.
Qed.

Lemma match_err (done_project done_task : string) (t : Task) (x : pyerr) :
  match_ done_project done_task (Description t) = Err x ->
  x = TypeError /\ ~ rule_known t.
Proof.
  unfold match_, rule_known.
  destruct (Py.startswith _ "project:"); [done|].
  destruct (Py.startswith _ "task:"); [done|].
  intros [= <-]. split; [done|]. by intros [?|?].
Qed.

Lemma process_entry_err projects entry task (x : pyerr) :
  process_entry entry projects task = Err x -> cause projects entry task x.
Proof.
  unfold process_entry, getitem. destruct (duration entry) as [d|] eqn:Hd; [|done].
  destruct (duration_hours d) as [e|y] eqn:He.
  - cbn [mbind result_bind]. destruct task as [t|]; [|done].
    destruct (projects !! projectId entry) as [name|] eqn:Hname.
    + cbn [mbind result_bind].
      destruct (match_ name (description entry) (Description t)) as [b|y] eqn:Hb; [done|].
      apply match_err in Hb as [-> Hrule]. intros [= <-]. by exists t.
    + intros [= <-]. exists t. by rewrite Hd.
  - cbn [mbind result_bind]. intros [= <-].
    apply duration_hours_err in He as [[HPT ->]|(HPT & Hbare & ->)]; by exists d.
Qed.

Lemma match_tasks_err entry projects (tasks : list Task) (k : nat) (rs : list row)
    (x : pyerr) :
  (k + length tasks <= length rs)%nat ->
  match_tasks entry projects (rows_from k tasks) rs = Err x ->
  exists t, t ∈ tasks /\ process_entry entry projects (Some t) = Err x.
Proof.
  revert k rs. induction tasks as [|t tasks IH]; intros k rs Hlen; [done|].
  simpl in Hlen. rewrite rows_from_cons. cbn [match_tasks].
  destruct (process_entry entry projects (Some t)) as [y|y] eqn:Hy.
  - cbn [mbind result_bind].
    destruct (add_spent k y rs) as [rs1|] eqn:Hadd.
    + cbn [mbind result_bind]. apply add_spent_plan in Hadd as [_ Hlen1].
      case_bool_decide; [done|]. intros (u & Hu & Herr)%IH; [|lia].
      exists u. split; [|done]. apply elem_of_cons. by right.
    + unfold add_spent in Hadd.
      destruct (lookup_lt_is_Some_2 rs k) as [[[? ?] ?] Hrow]; [lia|].
      by rewrite Hrow in Hadd.
  - intros [= <-]. exists t. split; [|done]. apply elem_of_cons. by left.
Qed.

Lemma run_err sprint projects tasks entries st (x : pyerr) :
  length (results st) = length tasks ->
  foldM (entry_step sprint projects tasks) st entries = Err x ->
  exists entry task,
    entry ∈ entries /\ in_window sprint entry = true
    /\ from_option (fun t => t ∈ tasks) True task
    /\ process_entry entry projects task = Err x.
Proof.
  revert st. induction entries as [|entry entries IH]; intros st Hlen; [done|].
  cbn [foldM].
  destruct (entry_step sprint projects tasks st entry) as [st1|y] eqn:Hstep.
  - cbn [mbind result_bind]. apply entry_step_plan in Hstep as [_ Hlen1].
    intros (e & task & He & Hrest)%IH; [|congruence].
    exists e, task. split; [|done]. apply elem_of_cons. by right.
  - intros [= <-]. revert Hstep. unfold entry_step.
    destruct (in_window sprint entry) eqn:Hwin; [|done]. cbn [andb].
    case_bool_decide; [|done].
    destruct (match_tasks _ _ _ _) as [[rs b]|z] eqn:Hloop.
    + cbn [mbind result_bind]. destruct b; [done|].
      destruct (process_entry entry projects None) as [e|z] eqn:He; [done|].
      intros [= <-]. exists entry, None. split; [apply elem_of_cons; by left|done].
    + intros [= <-]. apply match_tasks_err in Hloop as (t & Ht & Herr); [|simpl; lia].
      exists entry, (Some t). split; [apply elem_of_cons; by left|done].
Qed.

(** X5. On a feed that stays clear of the limits of the interpreter's
    numbers (runs of at most 300 digits, at most [10 ^ 8] entries), when
    the engine raises, an entry of the feed inside the window is the
    reason, and the class of the error tells which: [AttributeError] a
    duration that does not begin with [PT], [ValueError] a duration with a
    letter that has no digit before it, [KeyError] a project that is not in
    the lookup, for an entry with a duration and a sheet with a task,
    [TypeError] a task of the sheet whose rule is of no kind.  The engine
    raises neither [IndexError] nor [ZeroDivisionError]. *)
Theorem error_has_a_cause sprint sheet entries projects (x : pyerr) :
  modest entries ->
  process_entries sprint sheet entries projects = Err x ->
  exists entry,
    entry ∈ entries /\ in_window sprint entry = true
    /\ match x with
       | AttributeError =>
           exists d, duration entry = Some d /\ Py.startswith d "PT" = false
       | ValueError =>
           exists d, duration entry = Some d /\ bare_letter d = true
       | KeyError =>
           sheet <> [] /\ duration entry <> None
           /\ projects !! projectId entry = None
       | TypeError => exists t, t ∈ sheet /\ ~ rule_known t
       | IndexError => False
       | ZeroDivisionError => False
       end.
Proof.
  intros _. unfold process_entries, run_entries.
  destruct (foldM _ _ entries) as [st|y] eqn:Hrun; [done|].
  intros [= <-]. apply run_err in Hrun
    as (entry & task & Hin & Hwin & Htask & Herr).
  2:{ unfold initial_state, initial_results. cbn. by rewrite length_fmap. }
  exists entry. split; [done|]. split; [done|].
  apply process_entry_err in Herr. destruct y; cbn [cause] in Herr.
  - destruct Herr as (t & -> & Hrule). exists t. split; [|done].
    cbn in Htask. by rewrite sort_values_perm in Htask.
  - done.
  - destruct Herr as (d & Hd & _ & Hbare). by exists d.
  - destruct Herr as (t & -> & Hd & Hmissing). split; [|done].
    cbn in Htask. rewrite sort_values_perm in Htask. intros ->.
    by apply elem_of_nil in Htask.
  - done.
  - done.
Qed.

Lemma error_has_a_cause_witness :
  exists entry,
    entry ∈ [Scenario.design_review; Scenario.orphan; Scenario.standup]
    /\ in_window (Scenario.sprint (Qc_of_Z 40)) entry = true
    /\ [Scenario.alpha] <> [] /\ duration entry <> None
    /\ Scenario.projects !! projectId entry = None.
Proof.
  apply (error_has_a_cause (Scenario.sprint (Qc_of_Z 40)) [Scenario.alpha]
           [Scenario.design_review; Scenario.orphan; Scenario.standup]
           Scenario.projects KeyError).
  - split; [by repeat constructor|by vm_compute].
  - compute_done.
Defined.

(** * Further properties of the matcher *)

(** ** Case and surrounding blanks *)

Lemma lower_char_idem (a : ascii) : Py.lower_char (Py.lower_char a) = Py.lower_char a.
Proof. by destruct a as [[] [] [] [] [] [] [] []]. Qed.

Lemma is_space_lower_char (a : ascii) : Py.is_space (Py.lower_char a) = Py.is_space a.
Proof. by destruct a as [[] [] [] [] [] [] [] []]. Qed.

Lemma lower_idem (s : string) : Py.lower (Py.lower s) = Py.lower s.
Proof. induction s as [|a s IH]; cbn; [done|]. by rewrite lower_char_idem, IH. Qed.

Lemma lower_lstrip (s : string) : Py.lower (Py.lstrip s) = Py.lstrip (Py.lower s).
Proof.
  induction s as [|a s IH]; cbn; [done|].
  rewrite is_space_lower_char. by destruct (Py.is_space a).
Qed.

Lemma lower_rstrip (s : string) : Py.lower (Py.rstrip s) = Py.rstrip (Py.lower s).
Proof.
  induction s as [|a s IH]; cbn; [done|].
  rewrite <-IH, is_space_lower_char.
  destruct (Py.rstrip s) as [|c r]; cbn; [|done]. by destruct (Py.is_space a).
Qed.

Lemma lower_strip (s : string) : Py.lower (Py.strip s) = Py.strip (Py.lower s).
Proof. unfold Py.strip. by rewrite lower_rstrip, lower_lstrip. Qed.

Lemma rstrip_idem (s : string) : Py.rstrip (Py.rstrip s) = Py.rstrip s.
Proof.
  induction s as [|a s IH]; cbn; [done|].
  destruct (Py.rstrip s) as [|c r] eqn:Hr.
  - destruct (Py.is_space a) eqn:Ha; cbn; [done|]. by rewrite Ha.
  - cbn [Py.rstrip]. cbn [Py.rstrip] in IH. by rewrite IH.
Qed.

Lemma lstrip_no_leading_space (s : string) : no_leading_space (Py.lstrip s).
Proof.
  induction s as [|a s IH]; cbn; [done|].
  by destruct (Py.is_space a) eqn:Ha.
Qed.

Lemma rstrip_no_leading_space (s : string) :
  no_leading_space s -> no_leading_space (Py.rstrip s).
Proof.
  destruct s as [|a s]; cbn; [done|]. intros Ha.
  destruct (Py.rstrip s); [by rewrite Ha|done].
Qed.

Lemma lstrip_id (s : string) : no_leading_space s -> Py.lstrip s = s.
Proof. destruct s as [|a s]; cbn; [done|]. by intros ->. Qed.

Lemma strip_idem (s : string) : Py.strip (Py.strip s) = Py.strip s.
Proof.
  unfold Py.strip. rewrite lstrip_id.
  - apply rstrip_idem.
  - apply rstrip_no_leading_space, lstrip_no_leading_space.
Qed.

(** X6. The matcher does not tell upper case from lower case, in the name
    of the project, in the description of the entry or in the rule, and it
    does not see blanks around the rule. *)
Theorem match_ignores_case (done_project done_task target_task : string) :
  match_ (Py.lower done_project) done_task target_task
  = match_ done_project done_task target_task
  /\ match_ done_project (Py.lower done_task) target_task
     = match_ done_project done_task target_task
  /\ match_ done_project done_task (Py.lower target_task)
     = match_ done_project done_task target_task
  /\ match_ done_project done_task (Py.strip target_task)
     = match_ done_project done_task target_task.
Proof.
  unfold match_. repeat split.
  - by rewrite lower_idem.
  - by rewrite lower_idem.
  - by rewrite <-lower_strip, lower_idem.
  - by rewrite strip_idem.
Qed.

(** ** What a rule tests *)

Lemma startswith_spec (s p : string) :
  Py.startswith s p = true <-> exists rest, s = p +:+ rest.
Proof.
  revert s. induction p as [|b p IH]; intros s; cbn.
  - split; [by exists s|done].
  - destruct s as [|a s].
    + split; [done|]. by intros [rest ?].
    + rewrite andb_true_iff, IH. split.
      * intros [->%Ascii.eqb_eq [rest ->]]. by exists rest.
      * intros [rest [= -> ->]]. split; [apply Ascii.eqb_refl|by exists rest].
Qed.

Lemma contains_spec (needle hay : string) :
  Py.contains needle hay = true
  <-> exists before after, hay = before +:+ needle +:+ after.
Proof.
  induction hay as [|a hay IH]; cbn [Py.contains].
  - rewrite orb_false_r, startswith_spec. split.
    + intros [rest ->]. by exists EmptyString, rest.
    + intros ([|c before] & after & Heq); [by exists after|done].
  - rewrite orb_true_iff, startswith_spec, IH. split.
    + intros [[rest ->]|(before & after & ->)].
      * by exists EmptyString, rest.
      * by exists (String a before), after.
    + intros ([|c before] & after & Heq).
      * left. by exists after.
      * right. injection Heq as -> ->. by exists before, after.
Qed.

(** X7. A rule that reads [task:] and a text, once stripped and in lower
    case, matches exactly the entries whose description in lower case has
    the stripped text somewhere in it; with nothing after [task:] it
    matches every entry.  A rule that reads [project:] and a name matches
    exactly the entries whose project name in lower case is the stripped
    name. *)
Theorem rule_semantics (done_project done_task target_task body : string) :
  (Py.lower (Py.strip target_task) = "task:" +:+ body ->
   (match_ done_project done_task target_task = Ok true
    <-> exists before after,
         Py.lower done_task = before +:+ Py.strip body +:+ after)
   /\ (match_ done_project done_task target_task = Ok true
       \/ match_ done_project done_task target_task = Ok false)
   /\ (Py.strip body = EmptyString ->
       match_ done_project done_task target_task = Ok true))
  /\ (Py.lower (Py.strip target_task) = "project:" +:+ body ->
      (match_ done_project done_task target_task = Ok true
       <-> Py.lower done_project = Py.strip body)
      /\ (match_ done_project done_task target_task = Ok true
          \/ match_ done_project done_task target_task = Ok false)).
Proof.
  split; intros Hrule; unfold match_; rewrite Hrule.
  - change (Py.startswith ("task:" +:+ body) "project:") with false.
    assert (Py.startswith ("task:" +:+ body) "task:" = true) as ->
      by (apply startswith_spec; by exists body).
    change (Py.slice_from 5 ("task:" +:+ body)) with body. cbn iota.
    split; [|split].
    + rewrite <-contains_spec. split; [by intros [= ->]|by intros ->].
    + destruct (Py.contains _ _); [by left|by right].
    + intros ->. f_equal. apply contains_spec. by exists EmptyString, (Py.lower done_task).
  - assert (Py.startswith ("project:" +:+ body) "project:" = true) as ->
      by (apply startswith_spec; by exists body).
    change (Py.slice_from 8 ("project:" +:+ body)) with body. cbn iota.
    split.
    + split; [intros [= H]; by apply bool_decide_eq_true in H|].
      intros ->. by rewrite bool_decide_eq_true_2.
    + case_bool_decide; [by left|by right].
Qed.

(** * The order of the tasks (main.py, line 85) *)

Lemma string_compare_trans (a b c : string) :
  String.compare a b <> Gt -> String.compare b c <> Gt -> String.compare a c <> Gt.
Proof.
  revert b c. induction a as [|x a IH]; intros [|y b] [|z c]; cbn; try done.
  unfold Ascii.compare.
  destruct (N.compare_spec (N_of_ascii x) (N_of_ascii y)) as [Hxy|Hxy|Hxy];
    destruct (N.compare_spec (N_of_ascii y) (N_of_ascii z)) as [Hyz|Hyz|Hyz];
    try done.
  - rewrite Hxy, Hyz, N.compare_refl. apply IH.
  - intros _ _. rewrite Hxy. by rewrite (proj2 (N.compare_lt_iff _ _) Hyz).
  - intros _ _. rewrite <-Hyz. by rewrite (proj2 (N.compare_lt_iff _ _) Hxy).
  - intros _ _.
    by rewrite (proj2 (N.compare_lt_iff _ _) (N.lt_trans _ _ _ Hxy Hyz)).
Qed.

Lemma leb_trans (a b c : string) :
  String.leb a b = true -> String.leb b c = true -> String.leb a c = true.
Proof.
  unfold String.leb. intros Hab Hbc.
  pose proof (string_compare_trans a b c) as H.
  destruct (String.compare a b), (String.compare b c), (String.compare a c);
    try done; by exfalso; apply H.
Qed.

Lemma above_trans : Transitive above.
Proof. intros a b c Hab Hbc. unfold above in *. by eapply leb_trans. Qed.

Lemma StronglySorted_lookup {A} (R : relation A) (l : list A) (i j : nat) (x y : A) :
  StronglySorted R l -> l !! i = Some x -> l !! j = Some y -> (i < j)%nat -> R x y.
Proof.
  intros Hl. revert i j. induction Hl as [|a l Hl IH Ha]; intros i j; [done|].
  destruct i as [|i], j as [|j]; cbn; try lia.
  - intros [= ->] Hy _. rewrite Forall_forall in Ha. apply Ha.
    by eapply list_elem_of_lookup_2.
  - intros Hx Hy Hij. apply (IH i j); [done..|lia].
Qed.

(** X8. The tasks are compared with an entry in descending order of their
    descriptions: the sorted rows are the rows of the sheet, each as often
    as the sheet has it, and every row is at least as large as every row
    after it.  So a row whose description begins with [task:] always comes
    before a row whose description begins with [project:], and of two
    rules that match an entry the task rule is the one that is credited. *)
Theorem tasks_come_before_projects (sheet : list Task) :
  sort_values sheet ≡ₚ sheet
  /\ StronglySorted above (sort_values sheet)
  /\ (forall i j t u,
         sort_values sheet !! i = Some t -> sort_values sheet !! j = Some u ->
         Py.startswith (Description t) "task:" = true ->
         Py.startswith (Description u) "project:" = true ->
         (i < j)%nat).
Proof.
  assert (StronglySorted above (sort_values sheet)) as Hsorted.
  { apply Sorted_StronglySorted; [apply above_trans|]. apply sort_values_sorted. }
  split; [apply sort_values_perm|]. split; [done|].
  intros i j t u Hi Hj [rt Ht]%startswith_spec [ru Hu]%startswith_spec.
  destruct (decide (i < j)%nat) as [|Hge]; [done|]. exfalso.
  destruct (decide (i = j)) as [->|Hne].
  - rewrite Hi in Hj. injection Hj as ->. rewrite Ht in Hu. discriminate Hu.
  - assert (above u t) as Habove.
    { apply (StronglySorted_lookup above _ j i u t Hsorted); [done..|lia]. }
    unfold above in Habove. by rewrite Ht, Hu in Habove.
Qed.

(** * [read_clockify] *)

(** ** A loop that keeps the last item that fits *)

Section last_match.
Context {A B : Type} (fits : A -> bool) (f : A -> B).

Lemma last_match_snoc (l : list A) (a : A) (init : option B) :
  foldl (fun found a => if fits a then Some (f a) else found) init (l ++ [a])
  = if fits a then Some (f a)
    else foldl (fun found a => if fits a then Some (f a) else found) init l.
Proof. by rewrite foldl_app. Qed.

Lemma last_match_None (l : list A) :
  foldl (fun found a => if fits a then Some (f a) else found) None l = None
  <-> Forall (fun a => fits a = false) l.
Proof.
  induction l as [|a l IH] using rev_ind; [done|].
  rewrite last_match_snoc, Forall_app, Forall_singleton.
  destruct (fits a); [|by rewrite IH; tauto]. split; [done|by intros [_ ?]].
Qed.

Lemma last_match_Some (l : list A) (b : B) :
  foldl (fun found a => if fits a then Some (f a) else found) None l = Some b
  <-> exists before a after,
        l = before ++ a :: after /\ fits a = true /\ f a = b
        /\ Forall (fun a' => fits a' = false) after.
Proof.
  induction l as [|a l IH] using rev_ind.
  - split; [done|]. intros (before & a & after & Hl & _). by destruct before.
  - rewrite last_match_snoc. destruct (fits a) eqn:Ha.
    + split.
      * intros [= <-]. by exists l, a, [].
      * intros (before & a' & after & Hl & Ha' & <- & Hafter).
        destruct after as [|c after _] using rev_ind.
        -- apply app_inj_tail in Hl as [_ ->]. done.
        -- rewrite app_comm_cons, app_assoc in Hl. apply app_inj_tail in Hl as [_ ->].
           apply Forall_app in Hafter as [_ Hc].
           apply (proj1 (Forall_singleton _ _)) in Hc. congruence.
    + rewrite IH. split.
      * intros (before & a' & after & -> & Ha' & Hb & Hafter).
        exists before, a', (after ++ [a]). rewrite <-app_assoc. split; [done|].
        split; [done|]. split; [done|]. apply Forall_app. split; [done|].
        by apply Forall_singleton.
      * intros (before & a' & after & Hl & Ha' & Hb & Hafter).
        destruct after as [|c after _] using rev_ind.
        -- apply app_inj_tail in Hl as [_ ->]. congruence.
        -- rewrite app_comm_cons, app_assoc in Hl. apply app_inj_tail in Hl as [-> ->].
           apply Forall_app in Hafter as [Hafter _]. by exists before, a', after.
Qed.

End last_match.

(** ** The workspace and the user *)

Lemma find_workspace_None (wanted : string) (l : list Workspace.t) :
  find_workspace wanted l = None
  <-> Forall (fun w => name_fits wanted (Workspace.name w) = false) l.
Proof. apply (last_match_None (fun w => name_fits wanted (Workspace.name w)) Workspace.id). Qed.

Lemma find_workspace_Some (wanted : string) (l : list Workspace.t) (i : string) :
  find_workspace wanted l = Some i
  <-> exists before w after,
        l = before ++ w :: after /\ name_fits wanted (Workspace.name w) = true
        /\ Workspace.id w = i
        /\ Forall (fun w' => name_fits wanted (Workspace.name w') = false) after.
Proof. apply (last_match_Some (fun w => name_fits wanted (Workspace.name w)) Workspace.id). Qed.

Lemma find_user_None (wanted : string) (l : list User.t) :
  find_user wanted l = None
  <-> Forall (fun u => name_fits wanted (User.name u) = false) l.
Proof. apply (last_match_None (fun u => name_fits wanted (User.name u)) User.id). Qed.

Lemma find_user_Some (wanted : string) (l : list User.t) (i : string) :
  find_user wanted l = Some i
  <-> exists before u after,
        l = before ++ u :: after /\ name_fits wanted (User.name u) = true
        /\ User.id u = i
        /\ Forall (fun u' => name_fits wanted (User.name u') = false) after.
Proof. apply (last_match_Some (fun u => name_fits wanted (User.name u)) User.id). Qed.

(** X9. When [read_clockify] returns, the workspace is the last one of the
    list whose name is the configured one, or the last one of the list when
    the configured name is empty, and likewise the user among the users of
    that workspace; the projects and the entries are those of that
    workspace and that user. *)
Theorem read_clockify_takes_the_last config api workspace_id user_id projects entries :
  read_clockify config api = Ok (workspace_id, user_id, projects, entries) ->
  (exists before w after,
      get_all_workspaces api = before ++ w :: after
      /\ Workspace.id w = workspace_id
      /\ name_fits (config_workspace_name config) (Workspace.name w) = true
      /\ Forall (fun w' =>
                   name_fits (config_workspace_name config) (Workspace.name w') = false)
           after)
  /\ (exists before u after,
         get_all_workspace_users api workspace_id = before ++ u :: after
         /\ User.id u = user_id
         /\ name_fits (config_user_name config) (User.name u) = true
         /\ Forall (fun u' => name_fits (config_user_name config) (User.name u') = false)
              after)
  /\ projects = active_projects (get_projects api workspace_id)
  /\ entries = get_all_time_entry_user api workspace_id user_id.
Proof.
  unfold read_clockify.
  destruct (find_workspace _ _) as [ws|] eqn:Hws; [|done].
  destruct (find_user _ _) as [u|] eqn:Hu; [|done].
  intros [= <- <- <- <-].
  apply find_workspace_Some in Hws as (before & w & after & H1 & H2 & H3 & H4).
  apply find_user_Some in Hu as (before' & u' & after' & H1' & H2' & H3' & H4').
  split; [by exists before, w, after|]. split; [by exists before', u', after'|]. done.
Qed.

(** X10. [read_clockify] raises exactly when no workspace fits the
    configured name, or the chosen workspace has no user that fits the
    configured name, and then it is a [ValueError]; with an empty
    configured name the workspace is the last of the list, whatever its
    name, and only an empty list fails. *)
Theorem read_clockify_not_found config api :
  (forall x,
      read_clockify config api = Err x
      <-> x = ValueError
          /\ (Forall (fun w =>
                        name_fits (config_workspace_name config) (Workspace.name w) = false)
                (get_all_workspaces api)
              \/ exists workspace_id,
                  find_workspace (config_workspace_name config) (get_all_workspaces api)
                  = Some workspace_id
                  /\ Forall (fun u =>
                               name_fits (config_user_name config) (User.name u) = false)
                       (get_all_workspace_users api workspace_id)))
  /\ (config_workspace_name config = EmptyString ->
      find_workspace (config_workspace_name config) (get_all_workspaces api)
      = Workspace.id <$> last (get_all_workspaces api)).
Proof.
  split.
  - intros x. unfold read_clockify.
    destruct (find_workspace _ _) as [ws|] eqn:Hfind.
    + destruct (find_user _ _) as [u|] eqn:Hfindu.
      * split; [done|]. intros [_ [Hnone|(ws' & [= <-] & Hnone)]].
        -- apply find_workspace_None in Hnone. congruence.
        -- apply find_user_None in Hnone. congruence.
      * split.
        -- intros [= <-]. split; [done|]. right. exists ws. split; [done|].
           by apply find_user_None.
        -- by intros [-> _].
    + split.
      * intros [= <-]. split; [done|]. left. by apply find_workspace_None.
      * by intros [-> _].
  - intros Hempty. rewrite Hempty. unfold find_workspace.
    induction (get_all_workspaces api) as [|w l IH] using rev_ind; [done|].
    rewrite foldl_app, last_snoc. cbn. by rewrite orb_true_r.
Qed.

(** ** The lookup of the projects *)

Lemma active_projects_lookup (l : list Project.t) (k : string) :
  active_projects l !! k
  = foldl (fun found p =>
             if negb (Project.archived p) && bool_decide (Project.id p = k)
             then Some (Project.name p) else found)
      None l.
Proof.
  unfold active_projects. induction l as [|p l IH] using rev_ind; [done|].
  rewrite !foldl_app. cbn [foldl]. destruct (Project.archived p); cbn [negb andb]; [done|].
  case_bool_decide as Hk.
  - rewrite Hk. apply lookup_insert_eq.
  - by rewrite lookup_insert_ne.
Qed.

(** X11. The lookup that [read_clockify] builds holds the projects that are
    not archived: an identifier has the name of the last project of the
    list that carries it and is not archived, and an identifier that only
    archived projects carry, or none, is not in the lookup. *)
Theorem active_projects_spec (l : list Project.t) (k : string) :
  (forall n,
      active_projects l !! k = Some n
      <-> exists before p after,
            l = before ++ p :: after
            /\ Project.archived p = false /\ Project.id p = k /\ Project.name p = n
            /\ Forall (fun q => Project.archived q = true \/ Project.id q <> k) after)
  /\ (active_projects l !! k = None
      <-> Forall (fun q => Project.archived q = true \/ Project.id q <> k) l).
Proof.
  assert (forall q : Project.t,
             negb (Project.archived q) && bool_decide (Project.id q = k) = false
             <-> Project.archived q = true \/ Project.id q <> k) as Hfits.
  { intros q. rewrite andb_false_iff, negb_false_iff, bool_decide_eq_false. tauto. }
  rewrite active_projects_lookup. split.
  - intros n.
    rewrite (last_match_Some
               (fun p => negb (Project.archived p) && bool_decide (Project.id p = k))
               Project.name).
    split.
    + intros (before & p & after & -> & Hp & <- & Hafter).
      apply andb_prop in Hp as [Ha%negb_true_iff Hk%bool_decide_eq_true].
      exists before, p, after. repeat split; try done.
      eapply Forall_impl; [exact Hafter|]. intros q. apply Hfits.
    + intros (before & p & after & -> & Ha & Hk & <- & Hafter).
      exists before, p, after. split; [done|]. split.
      { by rewrite Ha, bool_decide_eq_true_2. }
      split; [done|]. eapply Forall_impl; [exact Hafter|]. intros q. apply Hfits.
  - rewrite (last_match_None
               (fun p => negb (Project.archived p) && bool_decide (Project.id p = k))
               Project.name).
    split; intros H; (eapply Forall_impl; [exact H|]); intros q; apply Hfits.
Qed.

(** X12. Time booked on a project that is archived, or that the workspace
    does not have, stops the run: with the lookup that [read_clockify]
    returns, an entry that has a duration and such a project raises
    [KeyError] as soon as it is compared with a task. *)
Theorem archived_project_raises config api workspace_id user_id projects entries
    entry t (d : string) (e : Qc) :
  read_clockify config api = Ok (workspace_id, user_id, projects, entries) ->
  Forall (fun q => Project.archived q = true \/ Project.id q <> projectId entry)
    (get_projects api workspace_id) ->
  duration entry = Some d -> duration_hours d = Ok e ->
  process_entry entry projects (Some t) = Err KeyError
  /\ forall sprint tasks st,
      in_window sprint entry = true -> id entry ∉ processed_ids st ->
      entry_step sprint projects (t :: tasks) st entry = Err KeyError.
Proof.
  unfold read_clockify.
  destruct (find_workspace _ _) as [ws|]; [|done].
  destruct (find_user _ _) as [u|]; [|done].
  intros [= <- <- <- <-] Harchived Hd He.
  assert (active_projects (get_projects api ws) !! projectId entry = None) as Hmissing.
  { rewrite active_projects_lookup.
    apply (last_match_None
             (fun p => negb (Project.archived p)
                       && bool_decide (Project.id p = projectId entry))
             Project.name).
    eapply Forall_impl; [exact Harchived|]. intros q Hq.
    rewrite andb_false_iff, negb_false_iff, bool_decide_eq_false. tauto. }
  assert (process_entry entry (active_projects (get_projects api ws)) (Some t)
          = Err KeyError) as Hraise by (by eapply process_entry_KeyError).
  split; [done|]. intros sprint tasks st Hwin Hnew.
  by apply entry_step_raise_first.
Qed.

(** * The numbers of [plot_results] *)




Lemma estimated_column (rs : list row) (tasks : list Task) :
  plan rs = (fun t => (Estimated_Hours t, Description t)) <$> tasks ->
  (fun r : row => r.1.2) <$> rs = Estimated_Hours <$> tasks.
Proof.
  intros Hplan. apply (f_equal (fmap fst)) in Hplan. unfold plan in Hplan.
  by rewrite <-!list_fmap_compose in Hplan.
Qed.

Lemma run_plan_initial sprint projects tasks entries st :
  run_entries sprint projects tasks entries = Ok st ->
  plan (results st) = (fun t => (Estimated_Hours t, Description t)) <$> tasks.
Proof.
  unfold run_entries. intros [-> _]%run_plan.
  unfold plan, initial_state, initial_results. cbn [results].
  by rewrite <-list_fmap_compose.
Qed.


(** ** Division by an estimate of zero *)

Lemma frame_of_tasks_raises (rs : list row) :
  frame_of_tasks rs = RaisesZeroDivisionError <-> exists r, r ∈ rs /\ r.1.2 = 0.
Proof.
  induction rs as [|r rs IH]; cbn [frame_of_tasks].
  - split; [done|]. by intros (r & ?%elem_of_nil & _).
  - unfold truediv. case_bool_decide as Hzero.
    + split; [|done]. intros _. exists r. split; [apply elem_of_cons; by left|done].
    + destruct (frame_of_tasks rs) as [df|].
      * split; [done|]. intros (r' & [->|Hin]%elem_of_cons & Hr'); [done|].
        assert (Frame df = RaisesZeroDivisionError) as H by (apply IH; by exists r').
        done.
      * split; [|done]. intros _. destruct (proj1 IH eq_refl) as (r' & Hin & Hr').
        exists r'. split; [apply elem_of_cons; by right|done].
Qed.

Lemma frame_of_tasks_rows (rs : list row) (df : list frame_row) :
  frame_of_tasks rs = Frame df ->
  length df = (2 * length rs)%nat
  /\ Forall (fun r => r.1.2 <> 0) rs
  /\ forall i r, rs !! i = Some r ->
       df !! (2 * i)%nat = Some (Spent, r.1.1 / r.1.2, r.1.1, r.2)
       /\ df !! (2 * i + 1)%nat = Some (Estimated, 1, r.1.2, r.2).
Proof.
  revert df. induction rs as [|r rs IH]; intros df; cbn [frame_of_tasks].
  - intros [= <-]. by repeat split.
  - unfold truediv. case_bool_decide as Hzero; [done|].
    destruct (frame_of_tasks rs) as [df'|]; [|done].
    intros [= <-]. destruct (IH df' eq_refl) as (Hlen & Hne & Hrows).
    split; [cbn; lia|]. split; [by constructor|].
    intros [|i] r'; cbn.
    + by intros [= ->].
    + intros Hr'. destruct (Hrows i r' Hr') as [H1 H2].
      replace (i + S (i + 0))%nat with (S (2 * i)) by lia.
      replace (i + S (i + 0) + 1)%nat with (S (2 * i + 1)) by lia. done.
Qed.

(** X14. After a run of the engine, the loop of [plot_results] over the
    rows raises [ZeroDivisionError] exactly when a task of the sheet has an
    estimate of zero hours, whatever was spent on it; otherwise every task
    gives two rows, the first with the rate spent / estimated. *)
Theorem zero_estimate_breaks_the_plot sprint sheet entries projects rows (total : Qc) :
  process_entries sprint sheet entries projects = Ok (rows, total) ->
  (frame_of_tasks (removelast rows) = RaisesZeroDivisionError
   <-> exists t, t ∈ sheet /\ Estimated_Hours t = 0)
  /\ (forall df,
         frame_of_tasks (removelast rows) = Frame df ->
         length df = (2 * length sheet)%nat
         /\ forall i r, removelast rows !! i = Some r ->
              df !! (2 * i)%nat = Some (Spent, r.1.1 / r.1.2, r.1.1, r.2)
              /\ df !! (2 * i + 1)%nat = Some (Estimated, 1, r.1.2, r.2)).
Proof.
  unfold process_entries.
  destruct (run_entries _ _ _ entries) as [st|] eqn:Hrun; [|done].
  intros [= <- <-]. rewrite removelast_last.
  pose proof (run_plan_initial _ _ _ _ _ Hrun) as Hplan.
  pose proof (estimated_column _ _ Hplan) as Hest.
  split.
  - rewrite frame_of_tasks_raises. split.
    + intros (r & Hr & Hzero).
      assert (r.1.2 ∈ (Estimated_Hours <$> sort_values sheet)) as Hin.
      { rewrite <-Hest. by apply (list_elem_of_fmap_2 (fun r : row => r.1.2)). }
      apply list_elem_of_fmap in Hin as (t & Ht & Hin). exists t.
      split; [by rewrite <-(sort_values_perm sheet)|congruence].
    + intros (t & Ht & Hzero).
      assert (Estimated_Hours t ∈ ((fun r : row => r.1.2) <$> results st)) as Hin.
      { rewrite Hest. apply list_elem_of_fmap_2. by rewrite sort_values_perm. }
      apply list_elem_of_fmap in Hin as (r & Hr & Hin). exists r. split; [done|congruence].
  - intros df (Hlen & _ & Hrows)%frame_of_tasks_rows. split; [|done].
    rewrite Hlen. apply (f_equal length) in Hplan. unfold plan in Hplan.
    rewrite !length_fmap in Hplan. by rewrite Hplan, sort_values_perm.
Qed.

(** * [main] *)

Lemma process_entries_err sprint sheet entries projects (x : pyerr) :
  process_entries sprint sheet entries projects = Err x ->
  exists entry task,
    entry ∈ entries /\ in_window sprint entry = true
    /\ from_option (fun t => t ∈ sheet) True task
    /\ cause projects entry task x.
Proof.
  unfold process_entries, run_entries.
  destruct (foldM _ _ entries) as [st|y] eqn:Hrun; [done|].
  intros [= <-]. apply run_err in Hrun
    as (entry & task & Hin & Hwin & Htask & Herr).
  2:{ unfold initial_state, initial_results. cbn. by rewrite length_fmap. }
  exists entry, task. split; [done|]. split; [done|]. split.
  - destruct task as [t|]; [|done]. cbn in *. by rewrite sort_values_perm in Htask.
  - by apply process_entry_err.
Qed.

Lemma read_clockify_err config api (x : pyerr) :
  read_clockify config api = Err x -> x = ValueError.
Proof.
  unfold read_clockify. destruct (find_workspace _ _); [|by intros [= <-]].
  destruct (find_user _ _); [done|by intros [= <-]].
Qed.

Lemma frame_of_report sprint sheet entries projects rows (total : Qc) :
  process_entries sprint sheet entries projects = Ok (rows, total) ->
  frame_of_tasks (removelast rows) = RaisesZeroDivisionError
  <-> exists t, t ∈ sheet /\ Estimated_Hours t = 0.
Proof.
  unfold process_entries.
  destruct (run_entries _ _ _ entries) as [st|] eqn:Hrun; [|done].
  intros [= <- <-]. rewrite removelast_last.
  pose proof (estimated_column _ _ (run_plan_initial _ _ _ _ _ Hrun)) as Hest.
  rewrite frame_of_tasks_raises. split.
  - intros (r & Hr & Hzero).
    assert (r.1.2 ∈ (Estimated_Hours <$> sort_values sheet)) as Hin.
    { rewrite <-Hest. by apply (list_elem_of_fmap_2 (fun r : row => r.1.2)). }
    apply list_elem_of_fmap in Hin as (t & Ht & Hin). exists t.
    split; [by rewrite <-(sort_values_perm sheet)|congruence].
  - intros (t & Ht & Hzero).
    assert (Estimated_Hours t ∈ ((fun r : row => r.1.2) <$> results st)) as Hin.
    { rewrite Hest. apply list_elem_of_fmap_2. by rewrite sort_values_perm. }
    apply list_elem_of_fmap in Hin as (r & Hr & Hin). exists r. split; [done|congruence].
Qed.

(** X15. How a run of [main] ends.  When [read_clockify] raises, that is
    when the workspace or the user is not found, [main] prints the error
    and returns, and neither the sheet nor the drawing matters.  Otherwise,
    for a feed that stays clear of the limits of the interpreter's numbers:
    when the engine raises, a [ValueError] is printed and any other error leaves
    [main].  When the engine returns and a task of the sheet has an
    estimate of zero hours, the [ZeroDivisionError] of the loop of
    [plot_results] leaves [main]: the handler does not catch it, and the
    drawing is not reached.  With no such task the run ends as the drawing
    ends: the chart is shown, a [ValueError] of the drawing is printed, any
    other error of the drawing leaves [main]. *)
Theorem main_outcomes config api sheet draw :
  (forall x, read_clockify config api = Err x -> main config api sheet draw = Prints)
  /\ (forall workspace_id user_id projects entries,
         read_clockify config api = Ok (workspace_id, user_id, projects, entries) ->
         modest entries ->
         match process_entries (config_sprint config) sheet entries projects with
         | Err x =>
             main config api sheet draw
             = if bool_decide (x = ValueError) then Prints else Uncaught x
         | Ok (rows, total) =>
             ((exists t, t ∈ sheet /\ Estimated_Hours t = 0) ->
              main config api sheet draw = Uncaught ZeroDivisionError)
             /\ ((forall t, t ∈ sheet -> Estimated_Hours t <> 0) ->
                 main config api sheet draw
                 = match draw rows total with
                   | Shown => Returns
                   | DrawingValueError => Prints
                   | DrawingError => UncaughtDrawing
                   end)
         end).
Proof.
  unfold main. split.
  - intros x Hread. rewrite Hread. by rewrite (read_clockify_err _ _ _ Hread).
  - intros ws u projects entries -> _.
    destruct (process_entries _ sheet entries projects) as [[rows total]|x] eqn:Hrun.
    + pose proof (frame_of_report _ _ _ _ _ _ Hrun) as Hframe.
      unfold plot_results. split.
      * intros Hzero. apply Hframe in Hzero. by rewrite Hzero.
      * intros Hnone.
        destruct (frame_of_tasks (removelast rows)) as [df|] eqn:Hdf; [done|].
        destruct (proj1 Hframe eq_refl) as (t & Ht & Hzero). by destruct (Hnone t Ht).
    + by destruct x.
Qed.

(** Nothing is asked of the sheet or of the drawing when the workspace is
    not found, and nothing of the drawing when a task has no estimate. *)
Example main_without_workspace :
  forall sheet draw, main Office.elsewhere Office.api sheet draw = Prints.
Proof. reflexivity. Qed.

Example main_with_zero_estimate :
  forall draw,
    main Office.config Office.api [Office.unplanned] draw = Uncaught ZeroDivisionError.
Proof. intros draw. by vm_compute. Qed.


(** * The rows that an entry is compared with *)

Lemma scan_hit entry projects (tasks : list Task) (k i : nat) (x : Qc) :
  scan entry projects (rows_from k tasks) = Ok (Some (i, x)) ->
  0 < x /\ hours projects entry = x /\ (k <= i < k + length tasks)%nat.
Proof.
  revert k. induction tasks as [|t tasks IH]; intros k; [done|].
  rewrite rows_from_cons. cbn [scan].
  destruct (process_entry entry projects (Some t)) as [y|] eqn:Hy; [|done].
  cbn [mbind result_bind]. case_bool_decide as Hpos.
  - intros [= <- <-]. split; [done|]. split; [|cbn; lia].
    apply process_entry_task_inv in Hy
      as (e & He & [(_ & -> & _)|(name & [] & _ & _ & ->)]).
    + by apply Qclt_zero_irrefl in Hpos.
    + unfold hours. by rewrite He.
    + by apply Qclt_zero_irrefl in Hpos.
  - intros (H1 & H2 & H3)%IH. split; [done|]. split; [done|]. cbn. lia.
Qed.

Lemma match_tasks_scan entry projects (tasks : list Task) (k : nat) (rs : list row) :
  (k + length tasks <= length rs)%nat ->
  match_tasks entry projects (rows_from k tasks) rs
  = match scan entry projects (rows_from k tasks) with
    | Err x => Err x
    | Ok None => Ok (rs, false)
    | Ok (Some (i, x)) => (fun rs' => (rs', true)) <$> add_spent i x rs
    end.
Proof.
  revert k. induction tasks as [|t tasks IH]; intros k Hlen; [done|].
  simpl in Hlen. rewrite rows_from_cons. cbn [match_tasks scan].
  destruct (process_entry entry projects (Some t)) as [y|] eqn:Hy; [|done].
  cbn [mbind result_bind]. case_bool_decide as Hpos.
  - by destruct (add_spent k y rs).
  - assert (y = 0) as ->.
    { apply Qcle_antisym; [by apply Qcnot_lt_le|by eapply process_entry_task_nonneg]. }
    rewrite add_spent_zero by lia. cbn [mbind result_bind]. apply IH. lia.
Qed.

Lemma add_spent_spent_at (i j : nat) (x : Qc) (rs rs' : list row) :
  add_spent i x rs = Ok rs' ->
  spent_at rs' j = spent_at rs j + (if bool_decide (i = j) then x else 0).
Proof.
  unfold add_spent. destruct (rs !! i) as [[[spent estimated] label]|] eqn:Hrow; [|done].
  intros [= <-]. unfold spent_at. case_bool_decide as Hij.
  - subst j. rewrite list_lookup_insert_eq by (by eapply lookup_lt_Some).
    by rewrite Hrow.
  - rewrite list_lookup_insert_ne by done. by rewrite Qcplus_0_r.
Qed.

Lemma add_spent_in_range (i : nat) (x : Qc) (rs : list row) :
  (i < length rs)%nat -> exists rs', add_spent i x rs = Ok rs'.
Proof.
  intros Hi. unfold add_spent.
  destruct (lookup_lt_is_Some_2 rs i Hi) as [[[spent estimated] label] ->].
  by eexists.
Qed.

Section closed_form.
Context (sprint : Sprint) (projects : gmap string string) (tasks : list Task).

Lemma entry_step_effect st entry st' (j : nat) :
  length (results st) = length tasks ->
  entry_step sprint projects tasks st entry = Ok st' ->
  let counts := in_window sprint entry && bool_decide (id entry ∉ processed_ids st) in
  spent_at (results st') j
  = spent_at (results st) j + (if counts then credit projects tasks j entry else 0)
  /\ off_schedule_spent st'
     = off_schedule_spent st + (if counts then off_credit projects tasks entry else 0)
  /\ (counts = true -> effect_ok projects tasks entry).
Proof.
  intros Hlen. unfold entry_step, credit, off_credit, effect_ok.
  destruct (in_window sprint entry && bool_decide (id entry ∉ processed_ids st)).
  2:{ intros [= <-]. cbn zeta. by rewrite !Qcplus_0_r. }
  unfold iterrows. rewrite match_tasks_scan by (simpl; lia).
  destruct (scan entry projects (rows_from 0 tasks)) as [[[i x]|]|]; [| |done].
  - destruct (add_spent i x (results st)) as [rs|] eqn:Hadd; [|done].
    cbn [fmap result_fmap mbind result_bind]. intros [= <-]. cbn.
    split; [by apply add_spent_spent_at|]. by rewrite Qcplus_0_r.
  - cbn [mbind result_bind]. unfold hours.
    destruct (process_entry entry projects None) as [e|]; [|done].
    intros [= <-]. cbn. by rewrite Qcplus_0_r.
Qed.

Lemma entry_step_ok st entry :
  length (results st) = length tasks ->
  in_window sprint entry = true -> id entry ∉ processed_ids st ->
  effect_ok projects tasks entry ->
  exists st', entry_step sprint projects tasks st entry = Ok st'.
Proof.
  intros Hlen Hwin Hnew. unfold entry_step, effect_ok.
  rewrite Hwin, bool_decide_eq_true_2 by done. cbn [andb].
  unfold iterrows. rewrite match_tasks_scan by (simpl; lia).
  destruct (scan entry projects (rows_from 0 tasks)) as [[[i x]|]|] eqn:Hscan; [| |done].
  - intros _. apply scan_hit in Hscan as (_ & _ & Hi).
    destruct (add_spent_in_range i x (results st)) as [rs ->]; [lia|]. by eexists.
  - cbn [mbind result_bind].
    destruct (process_entry entry projects None); [by eexists|done].
Qed.

Lemma run_effect entries st st' (j : nat) :
  length (results st) = length tasks ->
  foldM (entry_step sprint projects tasks) st entries = Ok st' ->
  spent_at (results st') j
  = spent_at (results st) j
    + np_sum (credit projects tasks j <$> counted_from sprint (processed_ids st) entries)
  /\ off_schedule_spent st'
     = off_schedule_spent st
       + np_sum (off_credit projects tasks
                   <$> counted_from sprint (processed_ids st) entries)
  /\ Forall (effect_ok projects tasks) (counted_from sprint (processed_ids st) entries).
Proof.
  revert st. induction entries as [|entry entries IH]; intros st Hlen;
    cbn [foldM counted_from].
  - intros [= <-]. change (np_sum (_ <$> [])) with 0. by rewrite !Qcplus_0_r.
  - destruct (entry_step sprint projects tasks st entry) as [st1|] eqn:Hstep; [|done].
    cbn [mbind result_bind]. intros Hrun.
    destruct (entry_step_effect _ _ _ j Hlen Hstep) as (Hs & Ho & Hok).
    pose proof (entry_step_plan _ _ _ _ _ _ Hstep) as [_ Hlen1].
    apply IH in Hrun as (Hs' & Ho' & Hok'); [|congruence].
    destruct (entry_step_cases _ _ _ _ _ _ Hstep) as [[-> Hskip]|(Hwin & Hnew & Hids)].
    + assert (in_window sprint entry && bool_decide (id entry ∉ processed_ids st) = false)
        as Hcounts.
      { destruct Hskip as [->|Hseen]; [done|].
        rewrite bool_decide_eq_false_2 by tauto. apply andb_false_r. }
      by rewrite Hcounts.
    + rewrite Hids in Hs', Ho', Hok'. cbn zeta in Hs, Ho, Hok.
      rewrite Hwin, bool_decide_eq_true_2 in Hs, Ho, Hok |- * by done.
      cbn [andb] in *. rewrite !fmap_cons, !np_sum_cons.
      rewrite Hs', Ho', Hs, Ho. split; [ring|]. split; [ring|].
      constructor; [by apply Hok|done].
Qed.

Lemma run_ok entries st :
  length (results st) = length tasks ->
  Forall (effect_ok projects tasks) (counted_from sprint (processed_ids st) entries) ->
  exists st', foldM (entry_step sprint projects tasks) st entries = Ok st'.
Proof.
  revert st. induction entries as [|entry entries IH]; intros st Hlen;
    cbn [foldM counted_from]; [by eexists|].
  destruct (in_window sprint entry && bool_decide (id entry ∉ processed_ids st))
    eqn:Hcounts.
  - intros [Hok Hrest]%Forall_cons.
    apply andb_prop in Hcounts as [Hwin Hnew%bool_decide_eq_true].
    destruct (entry_step_ok st entry Hlen Hwin Hnew Hok) as [st1 Hstep].
    rewrite Hstep. cbn [mbind result_bind].
    pose proof (entry_step_plan _ _ _ _ _ _ Hstep) as [_ Hlen1].
    destruct (entry_step_cases _ _ _ _ _ _ Hstep) as [[_ [?|?]]|(_ & _ & Hids)];
      [congruence|done|].
    apply IH; [congruence|by rewrite Hids].
  - intros Hrest.
    assert (entry_step sprint projects tasks st entry = Ok st) as ->
      by (unfold entry_step; by rewrite Hcounts).
    cbn [mbind result_bind]. by apply IH.
Qed.

End closed_form.

Lemma scan_split entry projects (tasks : list Task) (k i : nat) (x : Qc) :
  scan entry projects (rows_from k tasks) = Ok (Some (i, x)) ->
  exists pre t post,
    tasks = pre ++ t :: post /\ i = (k + length pre)%nat
    /\ Forall (fun u => process_entry entry projects (Some u) = Ok 0) pre
    /\ process_entry entry projects (Some t) = Ok x.
Proof.
  revert k. induction tasks as [|t tasks IH]; intros k; [done|].
  rewrite rows_from_cons. cbn [scan].
  destruct (process_entry entry projects (Some t)) as [y|] eqn:Hy; [|done].
  cbn [mbind result_bind]. case_bool_decide as Hpos.
  - intros [= <- <-]. exists [], t, tasks. cbn. split; [done|]. split; [lia|]. by split.
  - assert (y = 0) as ->.
    { apply Qcle_antisym; [by apply Qcnot_lt_le|by eapply process_entry_task_nonneg]. }
    intros (pre & u & post & -> & -> & Hpre & Hu)%IH.
    exists (t :: pre), u, post. cbn. split; [done|]. split; [lia|]. split; [|done].
    by constructor.
Qed.

Lemma spent_at_initial (tasks : list Task) (j : nat) :
  spent_at (initial_results tasks) j = 0.
Proof.
  unfold spent_at, initial_results. rewrite list_lookup_fmap.
  by destruct (tasks !! j).
Qed.

(** * The engine on one entry *)

(** ** The rows before a task in a sorted frame *)





Lemma sort_values_frame (sheet : list Task) : sorted_frame sheet (sort_values sheet).
Proof.
  split; [apply sort_values_perm|].
  apply Sorted_StronglySorted; [apply above_trans|]. apply sort_values_sorted.
Qed.

Lemma distinct_descriptions (l : list Task) (a b : Task) :
  NoDup (Description <$> l) -> a ∈ l -> b ∈ l ->
  Description a = Description b -> a = b.
Proof.
  induction l as [|x l IH]; [by intros _ ?%elem_of_nil|].
  rewrite fmap_cons. intros [Hx Hl]%NoDup_cons.
  intros [->|Ha]%elem_of_cons [->|Hb]%elem_of_cons Heq; [done| | |by apply IH].
  - destruct Hx. rewrite Heq. by apply list_elem_of_fmap_2.
  - destruct Hx. rewrite <-Heq. by apply list_elem_of_fmap_2.
Qed.

(** When no two rows of the sheet have the same description, the sort has
    one possible result, and [sort_values] gives it. *)
Lemma sorted_frame_unique (sheet tasks : list Task) :
  NoDup (Description <$> sheet) -> sorted_frame sheet tasks ->
  tasks = sort_values sheet.
Proof.
  intros Hnodup [Hperm Hsorted]. destruct (sort_values_frame sheet) as [Hperm' Hsorted'].
  apply (StronglySorted_unique_strong above); [|done|done|by rewrite Hperm, Hperm'].
  intros a b Ha Hb Hab Hba. apply (distinct_descriptions sheet); [done| | |].
  - by rewrite <-Hperm.
  - by rewrite <-Hperm'.
  - unfold above in *. by apply String.leb_antisym.
Qed.

(** ** One entry against the tasks *)






(** ** First match wins *)




(** ** What one entry adds *)

Lemma add_spent_row (i : nat) (x : Qc) (rs rs' : list row) :
  add_spent i x rs = Ok rs' ->
  exists spent estimated label,
    rs !! i = Some (spent, estimated, label)
    /\ rs' = <[i := (spent + x, estimated, label)]> rs.
Proof.
  unfold add_spent. destruct (rs !! i) as [[[spent estimated] label]|]; [|done].
  intros [= <-]. by exists spent, estimated, label.
Qed.

Lemma entry_step_credited sprint projects tasks st entry st' :
  length (results st) = length tasks ->
  in_window sprint entry = true -> id entry ∉ processed_ids st ->
  entry_step sprint projects tasks st entry = Ok st' ->
  processed_ids st' = processed_ids st ++ [id entry]
  /\ credited st st' (hours projects entry).
Proof.
  intros Hlen Hwin Hnew. unfold entry_step.
  rewrite Hwin, bool_decide_eq_true_2 by done. cbn [andb].
  unfold iterrows. rewrite match_tasks_scan by (simpl; lia).
  destruct (scan entry projects (rows_from 0 tasks)) as [[[i x]|]|] eqn:Hscan; [| |done].
  - apply scan_hit in Hscan as (_ & <- & _).
    destruct (add_spent i _ (results st)) as [rs|] eqn:Hadd; [|done].
    cbn [fmap result_fmap mbind result_bind]. intros [= <-]. split; [done|].
    apply add_spent_row in Hadd as (spent & estimated & label & Hrow & ->).
    left. by exists i, spent, estimated, label.
  - cbn [mbind result_bind]. unfold hours.
    destruct (process_entry entry projects None) as [e|]; [|done].
    cbn [mbind result_bind]. intros [= <-]. split; [done|]. by right.
Qed.

Lemma entry_step_outside sprint projects tasks st entry :
  in_window sprint entry = false -> entry_step sprint projects tasks st entry = Ok st.
Proof. intros Hwin. unfold entry_step. by rewrite Hwin. Qed.

(** ** An identifier that comes more than once *)

(** An entry of ten hours that starts after the end of the sprint, fed
    twice: its hours are in no row. *)
Lemma outside_the_window_counts_never :
  in_window (Scenario.sprint (Qc_of_Z 40)) Scenario.late = false
  /\ process_entry Scenario.late Scenario.projects None = Ok (Qc_of_Z 10)
  /\ process_entries (Scenario.sprint (Qc_of_Z 40)) Scenario.sheet
       [Scenario.late; Scenario.late] Scenario.projects
     = Ok ([(0, Qc_of_Z 5, "task:design"); (0, Qc_of_Z 35, "Off-scheduled")],
           Qc_of_Z 5).
Proof. repeat split; compute_done. Qed.

(** C6, as the code has it.  A feed in which an entry comes twice gives the
    same report as the feed with the second coming left out, and of two
    entries with the same identifier only one counts: the report is that of
    the feed without the second of them or, when the first was passed over,
    that of the feed without the first.  The coming that counts is the
    first one inside the window: its identifier is recorded and its hours
    are added once, to exactly one accumulator, the row of one task or the
    time off schedule.  Every coming of an identifier that is recorded, and
    every coming outside the window, changes nothing, and an identifier
    that is recorded stays recorded to the end of the feed. *)
Theorem duplicate_entry_counts_once sprint sheet projects (l1 l2 l3 : list TimeEntry) :
  (forall entry,
      process_entries sprint sheet (l1 ++ entry :: l2 ++ entry :: l3) projects
      = process_entries sprint sheet (l1 ++ entry :: l2 ++ l3) projects)
  /\ (forall first second,
         id first = id second ->
         process_entries sprint sheet (l1 ++ first :: l2 ++ second :: l3) projects
         = process_entries sprint sheet (l1 ++ first :: l2 ++ l3) projects
         \/ process_entries sprint sheet (l1 ++ first :: l2 ++ second :: l3) projects
            = process_entries sprint sheet (l1 ++ l2 ++ second :: l3) projects)
  /\ (forall tasks st entry st',
         length (results st) = length tasks ->
         in_window sprint entry = true -> id entry ∉ processed_ids st ->
         entry_step sprint projects tasks st entry = Ok st' ->
         processed_ids st' = processed_ids st ++ [id entry]
         /\ credited st st' (hours projects entry))
  /\ (forall tasks st entry,
         id entry ∈ processed_ids st \/ in_window sprint entry = false ->
         entry_step sprint projects tasks st entry = Ok st)
  /\ (forall tasks st later st' x,
         foldM (entry_step sprint projects tasks) st later = Ok st' ->
         x ∈ processed_ids st -> x ∈ processed_ids st').
Proof.
  split; [|split; [|split; [|split]]].
  - intros entry. unfold process_entries, run_entries. f_equal. rewrite !foldM_app.
    destruct (foldM _ _ l1) as [st|]; [|done]. cbn [mbind result_bind].
    apply repeated_entry_skipped.
  - intros first second Hid. unfold process_entries, run_entries. rewrite !foldM_app.
    destruct (foldM _ _ l1) as [st|]; [|by left]. cbn [mbind result_bind].
    destruct (repeated_id_skipped sprint projects (sort_values sheet) l2 l3 st
                first second Hid) as [->| ->]; [by left|by right].
  - intros tasks st entry st'. apply entry_step_credited.
  - intros tasks st entry [Hseen|Hout];
      [by apply entry_step_seen|by apply entry_step_outside].
  - intros tasks st later st' x Hrun.
    by apply (run_keeps_ids sprint projects tasks later st st' Hrun).
Qed.

Lemma duplicate_entry_counts_once_witness :
  processed_ids {| results := [(Qc_of_Z 2, Qc_of_Z 5, "task:design")];
                   processed_ids := ["e1"]; off_schedule_spent := 0 |}
  = processed_ids (initial_state (sort_values Scenario.sheet))
    ++ [id Scenario.design_review]
  /\ credited (initial_state (sort_values Scenario.sheet))
       {| results := [(Qc_of_Z 2, Qc_of_Z 5, "task:design")];
          processed_ids := ["e1"]; off_schedule_spent := 0 |}
       (hours Scenario.projects Scenario.design_review).
Proof.
  apply (proj1 (proj2 (proj2 (duplicate_entry_counts_once
                                (Scenario.sprint (Qc_of_Z 40)) Scenario.sheet
                                Scenario.projects [] [] [])))
           (sort_values Scenario.sheet)
           (initial_state (sort_values Scenario.sheet)) Scenario.design_review).
  - reflexivity.
  - by vm_compute.
  - compute_done.
  - compute_done.
Defined.

(** ** The sprint window *)

(** In a sprint of no days the window is empty: an entry that starts at
    the start of the sprint is passed over. *)
Lemma sprint_of_no_days_excludes_its_start :
  start Scenario.design_review = start_of_sprint Scenario.no_days
  /\ in_window Scenario.no_days Scenario.design_review = false
  /\ process_entries Scenario.no_days Scenario.sheet [Scenario.design_review]
       Scenario.projects
     = Ok ([(0, Qc_of_Z 5, "task:design"); (0, Qc_of_Z 35, "Off-scheduled")],
           Qc_of_Z 5).
Proof. repeat split; compute_done. Qed.

(** C7, as the code has it.  The window is the half-open interval from the
    start of the sprint to the start plus [days * 86400] seconds.  An entry
    that starts at the start of a sprint of more than zero days is inside,
    and the engine takes it up: when the step returns, the identifier is
    recorded and the hours of the entry are in exactly one accumulator, it
    does return when the comparisons of the entry with the tasks do, and it
    raises when they raise.  In a sprint of no days, or of less, no entry
    is inside.  An entry that starts at the end of the sprint is outside,
    and an entry outside the window changes no row, not the time off
    schedule and not the identifiers that are recorded. *)
Theorem sprint_window_half_open sprint entry :
  (in_window sprint entry = true
   <-> start_of_sprint sprint ≤ start entry
       /\ start entry < start_of_sprint sprint + sprint_days sprint * Qc_of_Z 86400)
  /\ (0 < sprint_days sprint -> start entry = start_of_sprint sprint ->
      in_window sprint entry = true
      /\ forall projects tasks st,
          length (results st) = length tasks -> id entry ∉ processed_ids st ->
          (forall st',
              entry_step sprint projects tasks st entry = Ok st' ->
              processed_ids st' = processed_ids st ++ [id entry]
              /\ credited st st' (hours projects entry))
          /\ (effect_ok projects tasks entry ->
              exists st', entry_step sprint projects tasks st entry = Ok st')
          /\ (forall x,
                 (forall task, process_entry entry projects task = Err x) ->
                 entry_step sprint projects tasks st entry = Err x))
  /\ (sprint_days sprint ≤ 0 -> in_window sprint entry = false)
  /\ (start entry = end_of_sprint sprint -> in_window sprint entry = false)
  /\ (in_window sprint entry = false ->
      forall projects tasks st, entry_step sprint projects tasks st entry = Ok st).
Proof.
  assert (in_window sprint entry = true
          <-> start_of_sprint sprint ≤ start entry
              /\ start entry < start_of_sprint sprint + sprint_days sprint * Qc_of_Z 86400)
    as Hiff.
  { unfold in_window, end_of_sprint.
    by rewrite andb_true_iff, !bool_decide_eq_true. }
  split; [done|]. split; [|split; [|split]].
  2:{ intros Hdays. apply not_true_is_false. intros [Hle Hlt]%Hiff.
      pose proof (Qcle_lt_trans _ _ _ Hle Hlt) as Hpos.
      rewrite <-(Qcplus_0_r (start_of_sprint sprint)) in Hpos at 1.
      apply Qcplus_lt_mono_l in Hpos.
      assert (sprint_days sprint * Qc_of_Z 86400 ≤ 0) as Hneg.
      { rewrite <-(Qcmult_0_l (Qc_of_Z 86400)).
        apply Qcmult_le_mono_nonneg_r; [by apply Qc_of_Z_nonneg|done]. }
      by apply Qcle_ngt in Hneg. }
  - intros Hdays Hstart.
    assert (in_window sprint entry = true) as Hwin.
    { apply Hiff. rewrite Hstart. split; [done|].
      rewrite <-(Qcplus_0_r (start_of_sprint sprint)) at 1.
      apply Qcplus_lt_mono_l, Qcmult_pos_pos; [done|]. by apply Qc_of_Z_pos. }
    split; [done|]. intros projects tasks st Hlen Hnew. split; [|split].
    + intros st'. by apply entry_step_credited.
    + by apply entry_step_ok.
    + intros x Hx. by apply entry_step_raise.
  - intros Hend. apply not_true_is_false. intros [_ Hlt]%Hiff.
    unfold end_of_sprint in Hend. rewrite Hend in Hlt.
    by apply Qclt_not_eq in Hlt.
  - intros Hout projects tasks st. by apply entry_step_outside.
Qed.

Lemma sprint_window_half_open_witness :
  in_window (Scenario.sprint (Qc_of_Z 40)) Scenario.design_review = true
  /\ in_window (Scenario.sprint (Qc_of_Z 40)) Scenario.late = false.
Proof.
  split.
  - apply (proj1 (proj2 (sprint_window_half_open (Scenario.sprint (Qc_of_Z 40))
                           Scenario.design_review))).
    + compute_done.
    + reflexivity.
  - apply (proj1 (proj2 (proj2 (proj2 (sprint_window_half_open
                                         (Scenario.sprint (Qc_of_Z 40))
                                         Scenario.late))))).
    compute_done.
Defined.

(** The entry that starts with the sprint is counted, and the one that
    starts at its end is not, whatever it is. *)
Example window_boundaries :
  process_entries (Scenario.sprint (Qc_of_Z 40)) Scenario.sheet
    [Scenario.design_review] Scenario.projects
  = Ok ([(Qc_of_Z 2, Qc_of_Z 5, "task:design"); (0, Qc_of_Z 35, "Off-scheduled")],
        Qc_of_Z 5)
  /\ start Scenario.late = end_of_sprint (Scenario.sprint (Qc_of_Z 40))
  /\ process_entries (Scenario.sprint (Qc_of_Z 40)) Scenario.sheet
       [Scenario.late] Scenario.projects
     = Ok ([(0, Qc_of_Z 5, "task:design"); (0, Qc_of_Z 35, "Off-scheduled")],
           Qc_of_Z 5).
Proof. repeat split; compute_done. Qed.

(** * The report in closed form *)

Lemma accumulate_from (xs : list Qc) (a : Qc) : foldl Qcplus a xs = a + np_sum xs.
Proof.
  revert a. induction xs as [|x xs IH]; intros a; cbn [foldl].
  - change (np_sum []) with 0. by rewrite Qcplus_0_r.
  - rewrite IH, np_sum_cons. ring.
Qed.

Lemma accumulate_np_sum (xs : list Qc) : accumulate xs = np_sum xs.
Proof. unfold accumulate. by rewrite accumulate_from, Qcplus_0_l. Qed.

Lemma process_frame_rows sprint tasks entries projects rows (total : Qc) :
  process_frame sprint tasks entries projects = Ok (rows, total) ->
  (forall j t,
      tasks !! j = Some t ->
      rows !! j
      = Some (accumulate (credit projects tasks j <$> counted sprint entries),
              Estimated_Hours t, Description t))
  /\ rows !! length tasks
     = Some (accumulate (off_credit projects tasks <$> counted sprint entries),
             total_sprint_time sprint - total_scheduled_hours tasks,
             "Off-scheduled")
  /\ length rows = S (length tasks)
  /\ total = total_scheduled_hours tasks
  /\ Forall (effect_ok projects tasks) (counted sprint entries).
Proof.
  unfold process_frame, run_entries.
  destruct (foldM _ _ entries) as [st|] eqn:Hrun; [|done].
  intros [= <- <-].
  assert (length (results (initial_state tasks)) = length tasks) as Hlen0.
  { unfold initial_state, initial_results. cbn. by rewrite length_fmap. }
  pose proof (run_plan _ _ _ _ _ _ Hrun) as [Hplan Hlen].
  assert (length (results st) = length tasks) as Hlen' by (by rewrite Hlen, Hlen0).
  split; [|split; [|split; [|split]]].
  - intros j t Hj.
    destruct (run_effect sprint projects tasks entries _ _ j Hlen0 Hrun)
      as (Hspent & _ & _).
    cbn [initial_state results processed_ids] in Hspent.
    rewrite spent_at_initial, Qcplus_0_l in Hspent. fold (counted sprint entries) in Hspent.
    assert (plan (results st) !! j = Some (Estimated_Hours t, Description t)) as Hpj.
    { rewrite Hplan. unfold plan, initial_state, initial_results. cbn [results].
      rewrite <-list_fmap_compose, list_lookup_fmap, Hj. done. }
    unfold plan in Hpj. rewrite list_lookup_fmap in Hpj.
    rewrite lookup_app_l by (rewrite Hlen'; by apply lookup_lt_Some in Hj).
    unfold spent_at in Hspent. rewrite accumulate_np_sum.
    destruct (results st !! j) as [[[spent estimated] label]|]; [|done].
    cbn in Hpj, Hspent. injection Hpj as -> ->. by rewrite Hspent.
  - destruct (run_effect sprint projects tasks entries _ _ 0%nat Hlen0 Hrun)
      as (_ & Hoff & _).
    cbn [initial_state off_schedule_spent processed_ids] in Hoff.
    rewrite Qcplus_0_l in Hoff. fold (counted sprint entries) in Hoff.
    rewrite lookup_app_r by lia. rewrite Hlen', Nat.sub_diag, accumulate_np_sum.
    cbn. by rewrite Hoff.
  - rewrite length_app, Hlen'. cbn. lia.
  - done.
  - by destruct (run_effect sprint projects tasks entries _ _ 0%nat Hlen0 Hrun)
      as (_ & _ & Hok).
Qed.

Lemma process_frame_total sprint projects tasks entries :
  Forall rule_known tasks -> Forall (entry_clean projects) entries ->
  is_Ok (process_frame sprint tasks entries projects) = true.
Proof.
  intros Hrules Hclean. unfold process_frame, run_entries.
  destruct (run_total sprint projects tasks entries (initial_state tasks) Hrules Hclean)
    as [st ->]; [|done].
  unfold initial_state, initial_results. cbn. by rewrite length_fmap.
Qed.

(** C9. The frame that the engine goes through is the sheet in descending
    order of the rule texts.  Whenever the engine returns, the report has
    one row per task, in the order of the frame, with the hours spent, the
    estimated hours and the rule text of the task, and after them exactly
    one row: the hours off schedule, the budget minus the sum of the
    estimated hours of the tasks, and the label [Off-scheduled].  The hours
    spent of the row at position [j] are what the entries that count, in
    the order of the feed, add to that position, and the hours off
    schedule what they add to the time off schedule.  The budget is never
    compared with the sum of the estimates: changing it does not change
    whether the engine returns, and on inputs that raise nothing the
    engine returns with a budget below the sum as with any other. *)
Theorem report_rows sprint sheet entries projects :
  sorted_frame sheet (sort_values sheet)
  /\ process_entries sprint sheet entries projects
     = process_frame sprint (sort_values sheet) entries projects
  /\ (forall tasks rows total,
         sorted_frame sheet tasks ->
         process_frame sprint tasks entries projects = Ok (rows, total) ->
         rows
         = imap (fun j t =>
                   (accumulate (credit projects tasks j <$> counted sprint entries),
                    Estimated_Hours t, Description t)) tasks
           ++ [(accumulate (off_credit projects tasks <$> counted sprint entries),
                total_sprint_time sprint - foldr Qcplus 0 (Estimated_Hours <$> tasks),
                "Off-scheduled")]
         /\ total = foldr Qcplus 0 (Estimated_Hours <$> tasks)
         /\ tasks ≡ₚ sheet
         /\ (total_sprint_time sprint < total ->
             exists off budget,
               last rows = Some (off, budget, "Off-scheduled") /\ budget < 0))
  /\ (forall tasks budget,
         is_Ok (process_frame (with_budget budget sprint) tasks entries projects)
         = is_Ok (process_frame sprint tasks entries projects))
  /\ (forall tasks,
         sorted_frame sheet tasks ->
         Forall rule_known sheet -> Forall (entry_clean projects) entries ->
         modest entries ->
         is_Ok (process_frame sprint tasks entries projects) = true).
Proof.
  split; [apply sort_values_frame|]. split; [done|]. split; [|split].
  - intros tasks rows total [Hperm _] Hrun.
    apply process_frame_rows in Hrun as (Hrows & Hoff & Hlen & -> & _).
    assert (rows
            = imap (fun j t =>
                      (accumulate (credit projects tasks j <$> counted sprint entries),
                       Estimated_Hours t, Description t)) tasks
              ++ [(accumulate (off_credit projects tasks <$> counted sprint entries),
                   total_sprint_time sprint - total_scheduled_hours tasks,
                   "Off-scheduled")]) as Heq; last first.
    { split; [done|]. split; [done|]. split; [done|]. intros Hover.
      eexists _, _. split; [by rewrite Heq, last_snoc|].
      apply (Qcplus_lt_mono_r _ _ (total_scheduled_hours tasks)).
      replace (total_sprint_time sprint - total_scheduled_hours tasks
               + total_scheduled_hours tasks)
        with (total_sprint_time sprint) by ring.
      by rewrite Qcplus_0_l. }
    apply list_eq. intros j.
    destruct (decide (j < length tasks)%nat) as [Hj|Hj].
    + destruct (lookup_lt_is_Some_2 tasks j Hj) as [t Ht].
      rewrite (Hrows j t Ht), lookup_app_l by (by rewrite length_imap).
      by rewrite list_lookup_imap, Ht.
    + destruct (decide (j = length tasks)) as [->|Hne].
      * rewrite Hoff, lookup_app_r by (by rewrite length_imap).
        by rewrite length_imap, Nat.sub_diag.
      * rewrite !lookup_ge_None_2; [done| |lia].
        rewrite length_app, length_imap. cbn. lia.
  - intros tasks budget. unfold process_frame.
    rewrite run_entries_budget. by destruct (run_entries _ _ _ _).
  - intros tasks [Hperm _] Hrules Hclean _.
    apply process_frame_total; [by rewrite Hperm|done].
Qed.

Lemma report_rows_witness :
  [(Qc_of_Z 2, Qc_of_Z 5, "task:design"); (Qc_of_Z 1, Qc_of_Z (-2), "Off-scheduled")]
  = imap (fun j t =>
            (accumulate (credit Scenario.projects (sort_values Scenario.sheet) j
                           <$> counted (Scenario.sprint (Qc_of_Z 3)) Scenario.entries),
             Estimated_Hours t, Description t)) (sort_values Scenario.sheet)
    ++ [(accumulate (off_credit Scenario.projects (sort_values Scenario.sheet)
                       <$> counted (Scenario.sprint (Qc_of_Z 3)) Scenario.entries),
         total_sprint_time (Scenario.sprint (Qc_of_Z 3))
         - foldr Qcplus 0 (Estimated_Hours <$> sort_values Scenario.sheet),
         "Off-scheduled")]
  /\ Qc_of_Z 5 = foldr Qcplus 0 (Estimated_Hours <$> sort_values Scenario.sheet)
  /\ sort_values Scenario.sheet ≡ₚ Scenario.sheet
  /\ (total_sprint_time (Scenario.sprint (Qc_of_Z 3)) < Qc_of_Z 5 ->
      exists off budget,
        last [(Qc_of_Z 2, Qc_of_Z 5, "task:design");
              (Qc_of_Z 1, Qc_of_Z (-2), "Off-scheduled")]
        = Some (off, budget, "Off-scheduled")
        /\ budget < 0).
Proof.
  apply (proj1 (proj2 (proj2 (report_rows (Scenario.sprint (Qc_of_Z 3)) Scenario.sheet
                                Scenario.entries Scenario.projects)))
           (sort_values Scenario.sheet)).
  - apply sort_values_frame.
  - compute_done.
Defined.

(** X16. The report in closed form, whatever the arrangement of the rows
    with equal rule texts.  Whenever the engine returns, the row at
    position [j] of the frame holds what the entries that count add to that
    position, one after the other in the order of the feed, with the
    estimate and the rule text of the task at that position; the last row
    holds what they add to the time off schedule.  An entry adds its hours
    to position [j] only if the task there is the first of the frame for
    which [process_entry] returns more than zero. *)
Theorem report_closed_form sprint tasks entries projects rows (total : Qc) :
  process_frame sprint tasks entries projects = Ok (rows, total) ->
  (forall j t,
      tasks !! j = Some t ->
      rows !! j
      = Some (accumulate (credit projects tasks j <$> counted sprint entries),
              Estimated_Hours t, Description t))
  /\ rows !! length tasks
     = Some (accumulate (off_credit projects tasks <$> counted sprint entries),
             total_sprint_time sprint - foldr Qcplus 0 (Estimated_Hours <$> tasks),
             "Off-scheduled")
  /\ length rows = S (length tasks)
  /\ (forall j entry,
         credit projects tasks j entry <> 0 ->
         exists pre t post,
           tasks = pre ++ t :: post /\ length pre = j
           /\ Forall (fun u => process_entry entry projects (Some u) = Ok 0) pre
           /\ process_entry entry projects (Some t) = Ok (hours projects entry)
           /\ credit projects tasks j entry = hours projects entry).
Proof.
  intros (Hrows & Hoff & Hlen & _ & _)%process_frame_rows.
  split; [done|]. split; [done|]. split; [done|].
  intros j entry. unfold credit, iterrows.
  destruct (scan entry projects (rows_from 0 tasks)) as [[[i x]|]|] eqn:Hscan; [|done..].
  case_bool_decide as Hij; [|done]. intros _.
  pose proof (scan_hit _ _ _ _ _ _ Hscan) as (_ & Hx & _).
  apply scan_split in Hscan as (pre & t & post & Hsplit & Hi & Hpre & Ht).
  exists pre, t, post. split; [done|]. split; [lia|]. split; [done|].
  by rewrite Hx.
Qed.

(** ** Every hour in one accumulator *)



(** ** The order of the feed *)

Lemma counted_from_distinct sprint (seen : list string) (entries : list TimeEntry) :
  NoDup (id <$> entries) ->
  Forall (fun entry => id entry ∉ seen) entries ->
  counted_from sprint seen entries
  = filter (fun entry => in_window sprint entry = true) entries.
Proof.
  revert seen. induction entries as [|entry entries IH]; intros seen Hnodup Hfresh;
    [done|].
  rewrite fmap_cons in Hnodup. apply NoDup_cons in Hnodup as [Hhead Hnodup].
  apply Forall_cons in Hfresh as [Hentry Hfresh].
  cbn [counted_from]. rewrite bool_decide_eq_true_2, andb_true_r by done.
  rewrite filter_cons. destruct (in_window sprint entry) eqn:Hwin.
  - rewrite decide_True by done. f_equal. apply IH; [done|].
    rewrite Forall_forall in Hfresh. apply Forall_forall. intros e He.
    intros [Hs|Hs%list_elem_of_singleton]%elem_of_app; [by apply (Hfresh e)|].
    apply Hhead. rewrite <-Hs. by apply list_elem_of_fmap_2.
  - rewrite decide_False by done. by apply IH.
Qed.

Lemma counted_perm sprint (entries entries' : list TimeEntry) :
  entries ≡ₚ entries' -> NoDup (id <$> entries) ->
  counted sprint entries' ≡ₚ counted sprint entries.
Proof.
  intros Hperm Hnodup. unfold counted.
  assert (NoDup (id <$> entries')) as Hnodup' by (by rewrite <-Hperm).
  rewrite !counted_from_distinct; try done.
  - by rewrite Hperm.
  - apply Forall_forall. intros e _. apply not_elem_of_nil.
  - apply Forall_forall. intros e _. apply not_elem_of_nil.
Qed.

Lemma process_frame_returns sprint projects tasks entries :
  is_Ok (process_frame sprint tasks entries projects) = true
  <-> Forall (effect_ok projects tasks) (counted sprint entries).
Proof.
  assert (length (results (initial_state tasks)) = length tasks) as Hlen0.
  { unfold initial_state, initial_results. cbn. by rewrite length_fmap. }
  unfold process_frame, run_entries. split.
  - destruct (foldM _ _ entries) as [st|] eqn:Hrun; [|done]. intros _.
    by destruct (run_effect sprint projects tasks entries _ _ 0%nat Hlen0 Hrun)
      as (_ & _ & Hok).
  - intros Hok.
    destruct (run_ok sprint projects tasks entries (initial_state tasks) Hlen0 Hok)
      as [st ->]. done.
Qed.

(** X17. In a feed in which no identifier comes twice, and which stays
    clear of the limits of the interpreter's numbers, the order of the
    entries decides only the order of the additions.  If the engine returns
    for the feed, it returns for every rearrangement of it; the entries
    that count are the same, in another order; and every row of the two
    reports, and the time off schedule, is made up of the same numbers,
    added one after the other in the order of the feed in question. *)
Theorem feed_order_permutes_the_additions sprint tasks projects entries entries'
    rows (total : Qc) :
  entries ≡ₚ entries' ->
  NoDup (id <$> entries) ->
  modest entries ->
  process_frame sprint tasks entries projects = Ok (rows, total) ->
  exists rows',
    process_frame sprint tasks entries' projects = Ok (rows', total)
    /\ counted sprint entries' ≡ₚ counted sprint entries
    /\ (forall j t,
           tasks !! j = Some t ->
           rows !! j
           = Some (accumulate (credit projects tasks j <$> counted sprint entries),
                   Estimated_Hours t, Description t)
           /\ rows' !! j
              = Some (accumulate (credit projects tasks j <$> counted sprint entries'),
                      Estimated_Hours t, Description t)
           /\ credit projects tasks j <$> counted sprint entries'
              ≡ₚ credit projects tasks j <$> counted sprint entries)
    /\ (exists budget,
           rows !! length tasks
           = Some (accumulate (off_credit projects tasks <$> counted sprint entries),
                   budget, "Off-scheduled")
           /\ rows' !! length tasks
              = Some (accumulate (off_credit projects tasks <$> counted sprint entries'),
                      budget, "Off-scheduled")
           /\ off_credit projects tasks <$> counted sprint entries'
              ≡ₚ off_credit projects tasks <$> counted sprint entries).
Proof.
  intros Hperm Hnodup _ Hrun.
  pose proof (counted_perm sprint entries entries' Hperm Hnodup) as Hcounted.
  pose proof (process_frame_rows _ _ _ _ _ _ Hrun) as (Hrows & Hoff & _ & -> & Hok).
  assert (is_Ok (process_frame sprint tasks entries' projects) = true) as Hreturns.
  { apply process_frame_returns. by rewrite Hcounted. }
  destruct (process_frame sprint tasks entries' projects) as [[rows' total']|] eqn:Hrun';
    [|done].
  pose proof (process_frame_rows _ _ _ _ _ _ Hrun') as (Hrows' & Hoff' & _ & -> & _).
  exists rows'. split; [done|]. split; [done|]. split.
  - intros j t Hj. split; [by apply Hrows|]. split; [by apply Hrows'|].
    by rewrite Hcounted.
  - eexists. split; [exact Hoff|]. split; [exact Hoff'|]. by rewrite Hcounted.
Qed.


(** * The further properties on the small sprint *)

Lemma feed_normal_form_witness :
  process_entries (Scenario.sprint (Qc_of_Z 40)) Scenario.sheet
    [Scenario.design_review; Scenario.late; Scenario.design_review;
     Scenario.standup; Scenario.design_review] Scenario.projects
  = process_entries (Scenario.sprint (Qc_of_Z 40)) Scenario.sheet
      (counted (Scenario.sprint (Qc_of_Z 40))
         [Scenario.design_review; Scenario.late; Scenario.design_review;
          Scenario.standup; Scenario.design_review])
      Scenario.projects
  /\ id Scenario.standup
     ∈ (id <$> counted (Scenario.sprint (Qc_of_Z 40))
                 [Scenario.design_review; Scenario.late; Scenario.design_review;
                  Scenario.standup; Scenario.design_review]).
Proof.
  split.
  - apply (proj1 (feed_normal_form (Scenario.sprint (Qc_of_Z 40)) Scenario.sheet
                    [Scenario.design_review; Scenario.late; Scenario.design_review;
                     Scenario.standup; Scenario.design_review] Scenario.projects)).
  - apply (proj2 (proj2 (proj2 (proj2
             (feed_normal_form (Scenario.sprint (Qc_of_Z 40)) Scenario.sheet
                [Scenario.design_review; Scenario.late; Scenario.design_review;
                 Scenario.standup; Scenario.design_review] Scenario.projects))))).
    + do 3 apply list_elem_of_further. apply list_elem_of_here.
    + compute_done.
Defined.

Lemma rule_semantics_witness :
  match_ "Alpha" "Design review" " Task: Design " = Ok true
  <-> exists before after,
        Py.lower "Design review" = before +:+ Py.strip " design" +:+ after.
Proof.
  apply (proj1 (rule_semantics "Alpha" "Design review" " Task: Design " " design")).
  reflexivity.
Defined.

Lemma tasks_come_before_projects_witness : (0 < 1)%nat.
Proof.
  apply (proj2 (proj2 (tasks_come_before_projects Scenario.two_rules))
           0%nat 1%nat Scenario.design Scenario.alpha); reflexivity.
Defined.

Lemma read_clockify_takes_the_last_witness :
  exists before w after,
    get_all_workspaces Office.api = before ++ w :: after
    /\ Workspace.id w = "w2"
    /\ name_fits "Acme" (Workspace.name w) = true
    /\ Forall (fun w' => name_fits "Acme" (Workspace.name w') = false) after.
Proof.
  apply (read_clockify_takes_the_last Office.config Office.api "w2" "u1"
           (active_projects Office.project_list) Scenario.entries).
  reflexivity.
Defined.

Lemma read_clockify_not_found_witness :
  read_clockify Office.elsewhere Office.api = Err ValueError.
Proof.
  apply (proj1 (read_clockify_not_found Office.elsewhere Office.api) ValueError).
  split; [reflexivity|]. left. repeat constructor.
Defined.

Lemma active_projects_spec_witness :
  active_projects Office.project_list !! "p7" = None.
Proof.
  apply (proj2 (active_projects_spec Office.project_list "p7")).
  constructor; [by right|]. constructor; [by left|]. constructor.
Defined.

Lemma archived_project_raises_witness :
  process_entry Office.on_old (active_projects Office.project_list)
    (Some Scenario.design)
  = Err KeyError.
Proof.
  apply (proj1 (archived_project_raises Office.config Office.api "w2" "u1"
                  (active_projects Office.project_list) Scenario.entries
                  Office.on_old Scenario.design "PT3H" (Qc_of_Z 3)
                  eq_refl
                  ltac:(constructor; [by right|]; constructor; [by left|]; constructor)
                  eq_refl ltac:(compute_done))).
Defined.


Lemma zero_estimate_breaks_the_plot_witness :
  frame_of_tasks
    (removelast [(Qc_of_Z 2, 0, "task:design"); (Qc_of_Z 1, Qc_of_Z 40, "Off-scheduled")])
  = RaisesZeroDivisionError.
Proof.
  assert (process_entries (Scenario.sprint (Qc_of_Z 40)) [Office.unplanned]
            Scenario.entries Scenario.projects
          = Ok ([(Qc_of_Z 2, 0, "task:design");
                 (Qc_of_Z 1, Qc_of_Z 40, "Off-scheduled")], 0)) as Hrun
    by compute_done.
  apply (proj2 (proj1 (zero_estimate_breaks_the_plot _ _ _ _ _ _ Hrun))).
  exists Office.unplanned. split; [apply list_elem_of_here|reflexivity].
Defined.

Lemma report_closed_form_witness :
  [(Qc_of_Z 2, Qc_of_Z 5, "task:design"); (Qc_of_Z 1, Qc_of_Z 35, "Off-scheduled")]
    !! 0%nat
  = Some (accumulate (credit Scenario.projects (sort_values Scenario.sheet) 0
                        <$> counted (Scenario.sprint (Qc_of_Z 40)) Scenario.entries),
          Estimated_Hours Scenario.design, Description Scenario.design).
Proof.
  assert (process_frame (Scenario.sprint (Qc_of_Z 40)) (sort_values Scenario.sheet)
            Scenario.entries Scenario.projects
          = Ok ([(Qc_of_Z 2, Qc_of_Z 5, "task:design");
                 (Qc_of_Z 1, Qc_of_Z 35, "Off-scheduled")], Qc_of_Z 5)) as Hrun
    by compute_done.
  apply (proj1 (report_closed_form _ _ _ _ _ _ Hrun)).
  reflexivity.
Defined.


Lemma feed_order_permutes_the_additions_witness :
  exists rows',
    process_frame (Scenario.sprint (Qc_of_Z 40)) (sort_values Scenario.sheet)
      [Scenario.standup; Scenario.design_review] Scenario.projects
    = Ok (rows', Qc_of_Z 5)
    /\ counted (Scenario.sprint (Qc_of_Z 40)) [Scenario.standup; Scenario.design_review]
       ≡ₚ counted (Scenario.sprint (Qc_of_Z 40))
            [Scenario.design_review; Scenario.standup].
Proof.
  destruct (feed_order_permutes_the_additions (Scenario.sprint (Qc_of_Z 40))
              (sort_values Scenario.sheet) Scenario.projects
              [Scenario.design_review; Scenario.standup]
              [Scenario.standup; Scenario.design_review]
              [(Qc_of_Z 2, Qc_of_Z 5, "task:design");
               (Qc_of_Z 1, Qc_of_Z 35, "Off-scheduled")] (Qc_of_Z 5))
    as (rows' & Hrun' & Hcounted & _).
  - apply Permutation_swap.
  - compute_done.
  - split; [by repeat constructor|by vm_compute].
  - compute_done.
  - by exists rows'.
Defined.

Lemma main_outcomes_witness :
  read_clockify Office.elsewhere Office.api = Err ValueError
  /\ main Office.elsewhere Office.api Scenario.sheet (fun _ _ => Shown) = Prints.
Proof.
  split; [reflexivity|].
  apply (proj1 (main_outcomes Office.elsewhere Office.api Scenario.sheet
                  (fun _ _ => Shown)) ValueError).
  reflexivity.
Defined.
